(** * fastai/conv_learner.py: the convolutional model builder and its learner

    A shallow embedding of [ConvnetBuilder] and [ConvLearner].  Python lists
    are lists, Python ints are [Z], dropout rates are IEEE doubles
    ([PrimFloat.float]) or ints, a raised exception is a [Raise] result.  The
    deep-learning framework the file wraps (pretrained networks, tensors, the
    data loaders, the chunked on-disk arrays) is kept abstract behind type
    classes; what the file itself decides (which layers, in which order, with
    which widths; which loss; which arrays are opened or rewritten) is
    computed. *)

From Stdlib Require Import Floats.PrimFloat.
From stdpp Require Import gmap strings list pretty.

Open Scope string_scope.
Open Scope list_scope.
Open Scope Z_scope.

(** ** Python values *)

Inductive pyerr : Type :=
| KeyError | IndexError | AttributeError | ValueError | FileNotFoundError.

Inductive result (A : Type) : Type :=
| Ok (a : A)
| Raise (e : pyerr).
Arguments Ok {A} a.
Arguments Raise {A} e.

#[global] Instance result_ret : MRet result := fun _ a => Ok a.
#[global] Instance result_bind : MBind result := fun _ _ k r =>
  match r with Ok a => k a | Raise e => Raise e end.

(** A Python number: the dropout rates are documented as floats, and the
    literal [0] is an int. *)
Inductive num : Type :=
| Int (z : Z)
| Float (x : float).

(** [bool(x)] for a number: [x != 0]; a NaN is truthy, [-0.0] is falsy. *)
Definition num_truthy (x : num) : bool :=
  match x with
  | Int z => negb (z =? 0)
  | Float x => negb (PrimFloat.eqb x 0%float)
  end.

(** The [ps] argument: [None], one number, or a list of numbers. *)
Inductive ps_arg : Type :=
| PsNone
| PsScalar (p : num)
| PsList (l : list num).

Definition ps_truthy (ps : ps_arg) : bool :=
  match ps with
  | PsNone => false
  | PsScalar p => num_truthy p
  | PsList l => match l with [] => false | _ :: _ => true end
  end.

(** [bool(l)] for a list or [None] (the [xtra_fc] argument). *)
Definition optlist_truthy {A} (l : option (list A)) : bool :=
  match l with
  | Some (_ :: _) => true
  | _ => false
  end.

(** [l[i]] with Python's negative indices; out of range raises. *)
Definition py_index {A} (l : list A) (i : Z) : result A :=
  let n := Z.of_nat (length l) in
  let j := if i <? 0 then i + n else i in
  if (j <? 0) || (n <=? j) then Raise IndexError
  else match l !! Z.to_nat j with
       | Some x => Ok x
       | None => Raise IndexError
       end.

(** A slice bound clamped the way [seq[lo:hi]] does it. *)
Definition py_clamp (len : nat) (i : Z) : nat :=
  let n := Z.of_nat len in
  Z.to_nat (if i <? 0 then Z.max (i + n) 0 else Z.min i n).

(** [seq[lo:hi]] *)
Definition py_slice {A} (seq : list A) (lo hi : Z) : list A :=
  drop (py_clamp (length seq) lo) (take (py_clamp (length seq) hi) seq).

(** [seq[lo:]] *)
Definition py_slice_from {A} (seq : list A) (lo : Z) : list A :=
  drop (py_clamp (length seq) lo) seq.

(** [os.path.join(a, b)] for two components. *)
Fixpoint ends_with_sep (a : string) : bool :=
  match a with
  | EmptyString => false
  | String ch EmptyString => bool_decide (String ch EmptyString = "/")
  | String _ rest => ends_with_sep rest
  end.

Definition is_absolute (b : string) : bool :=
  match b with
  | String ch _ => bool_decide (String ch EmptyString = "/")
  | EmptyString => false
  end.

Definition os_path_join (a b : string) : string :=
  if is_absolute b then b
  else if bool_decide (a = "") || ends_with_sep a then a +:+ b
  else a +:+ "/" +:+ b.

(** ** The architecture registry *)

(** The model creation functions the tables know, and any other one
    ([custom], with its [__name__]). *)
Inductive arch : Type :=
| resnet18 | resnet34 | resnet50 | resnet101 | vgg16
| resnext50 | resnext101 | resnext101_64
| wrn | inceptionresnet_2 | inception_4
| dn121 | dn161 | dn169 | dn201
| custom (name : string).

Definition arch_name (f : arch) : string :=
  match f with
  | resnet18 => "resnet18" | resnet34 => "resnet34" | resnet50 => "resnet50"
  | resnet101 => "resnet101" | vgg16 => "vgg16"
  | resnext50 => "resnext50" | resnext101 => "resnext101"
  | resnext101_64 => "resnext101_64"
  | wrn => "wrn" | inceptionresnet_2 => "inceptionresnet_2"
  | inception_4 => "inception_4"
  | dn121 => "dn121" | dn161 => "dn161" | dn169 => "dn169" | dn201 => "dn201"
  | custom name => name
  end.

(** [model_meta]: architecture -> [cut, lr_cut]. *)
Definition model_meta (f : arch) : option (Z * Z) :=
  match f with
  | resnet18 | resnet34 | resnet50 | resnet101 => Some (8, 6)
  | vgg16 => Some (0, 22)
  | resnext50 | resnext101 | resnext101_64 => Some (8, 6)
  | wrn => Some (8, 6)
  | inceptionresnet_2 => Some (-2, 9)
  | inception_4 => Some (-1, 9)
  | dn121 | dn161 | dn169 | dn201 => Some (0, 6)
  | custom _ => None
  end.

(** [model_features]: the output widths that are written down. *)
Definition model_features (f : arch) : option Z :=
  match f with
  | inception_4 => Some 3072
  | dn121 => Some 1024
  | dn161 => Some 4416
  | _ => None
  end.

(** ** The framework behind the builder *)

(** The pretrained networks: [pretrained f] is [f(True)], [cut_model] and
    [num_features] are the helpers of the same names (other files of the
    repository). *)
Class Backbones : Type := {
  bmod : Type;
  pretrained : arch -> bmod;
  cut_model : bmod -> Z -> list bmod;
  num_features : list bmod -> Z
}.

Inductive activation : Type := ReLU | Sigmoid | LogSoftmax.

(** The layer kinds the builder puts in a model. *)
Inductive layer `{Backbones} : Type :=
| Pretrained (m : bmod)
| AdaptiveConcatPool2d
| Flatten
| BatchNorm1d (num_features : Z)
| Dropout (p : num)
| Linear (in_features out_features : Z)
| Act (a : activation).

(** A module object: the same object can sit in several [nn.Sequential]s,
    [oid] is its identity. *)
Record nn_module `{Backbones} : Type := Obj { oid : nat; kind : layer }.
Arguments Obj {_} oid kind.

(** The module objects made from a list of layers, numbered from [start]. *)
Definition objects `{Backbones} (start : nat) (ls : list layer) : list nn_module :=
  imap (fun i l => Obj (start + i)%nat l) ls.

(** Modelled from the spec: [children] is defined in another file of the
    repository; a model is "a fixed ordered sequence" of layers, and the
    children of a [nn.Sequential] are that sequence. *)
Definition children `{Backbones} (m : list nn_module) : list nn_module := m.

(** Modelled from the spec: [split_by_idxs] is defined in another file of the
    repository; the spec has the children "split at the architecture's
    configured index": the pieces of [seq] between consecutive indexes, the
    last piece running to the end. *)
Fixpoint split_from {A} (seq : list A) (last : Z) (idxs : list Z) : list (list A) :=
  match idxs with
  | [] => [py_slice_from seq last]
  | idx :: idxs' => py_slice seq last idx :: split_from seq idx idxs'
  end.

Definition split_by_idxs {A} (seq : list A) (idxs : list Z) : list (list A) :=
  split_from seq 0 idxs.

(** ** ConvnetBuilder *)

Module ConvnetBuilder.
Section Builder.
Context `{Backbones}.

Record t : Type := Build {
  f : arch; c : Z; is_multi : bool; is_reg : bool; xtra_cut : Z;
  ps : list num;
  xtra_fc : list Z;
  lr_cut : Z;
  nf : Z;
  top_model : list nn_module;
  n_fc : Z;
  fc_model : list nn_module;
  model : list nn_module
}.

(** [ps or [0.25,0.5]] *)
Definition ps_or_default (ps : ps_arg) : ps_arg :=
  if ps_truthy ps then ps else PsList [Float 0.25; Float 0.5].

(** [xtra_fc or [512]] *)
Definition xtra_fc_or_default (xtra_fc : option (list Z)) : list Z :=
  match xtra_fc with
  | Some (x :: l) => x :: l
  | _ => [512]
  end.

(** [if not isinstance(self.ps, list): self.ps = [self.ps]*n_fc]; the
    [PsNone] case cannot come out of [ps_or_default]. *)
Definition broadcast_ps (ps : ps_arg) (n_fc : nat) : list num :=
  match ps with
  | PsList l => l
  | PsScalar p => replicate n_fc p
  | PsNone => []
  end.

Definition create_fc_layer (ni nf : Z) (p : num) (actn : option activation)
  : list layer :=
  let res := [BatchNorm1d ni] in
  let res := if num_truthy p then res ++ [Dropout p] else res in
  let res := res ++ [Linear ni nf] in
  let res := match actn with Some a => res ++ [Act a] | None => res end in
  res.

(** The [for i,nf in enumerate(self.xtra_fc)] loop, from index [i] on, with
    the loop's variables [res] and [ni]. *)
Fixpoint fc_loop (ps : list num) (xtra_fc : list Z) (i : Z)
    (res : list layer) (ni : Z) : result (list layer * Z) :=
  match xtra_fc with
  | [] => Ok (res, ni)
  | nf :: rest =>
      p ← py_index ps i;
      fc_loop ps rest (i + 1) (res ++ create_fc_layer ni nf p (Some ReLU)) nf
  end.

(** [get_fc_layers] on the attributes it reads. *)
Definition fc_layers_of (nf : Z) (xtra_fc : list Z) (ps : list num)
    (is_multi is_reg : bool) (c : Z) : result (list layer) :=
  '(res, ni) ← fc_loop ps xtra_fc 0 [] nf;
  let final_actn := if is_multi then Some Sigmoid else Some LogSoftmax in
  let final_actn := if is_reg then None else final_actn in
  p ← py_index ps (-1);
  Ok (res ++ create_fc_layer ni c p final_actn).

Definition get_fc_layers (self : t) : result (list layer) :=
  fc_layers_of (nf self) (xtra_fc self) (ps self)
               (is_multi self) (is_reg self) (c self).

(** [__init__]; an architecture outside [model_meta] is a [KeyError].
    [to_gpu] and [apply_init] place and initialise the weights and leave the
    layer sequence as it is. *)
Definition init (f : arch) (c : Z) (is_multi is_reg : bool)
    (ps : ps_arg) (xtra_fc : option (list Z)) (xtra_cut : Z) : result t :=
  let ps := ps_or_default ps in
  let xtra_fc := xtra_fc_or_default xtra_fc in
  match model_meta f with
  | None => Raise KeyError
  | Some (cut, lr_cut) =>
      let cut := cut - xtra_cut in
      let layers := Pretrained <$> cut_model (pretrained f) cut in
      let nf := match model_features f with
                | Some n => n
                | None => num_features (cut_model (pretrained f) cut) * 2
                end in
      let layers := objects 0 (layers ++ [AdaptiveConcatPool2d; Flatten]) in
      let n_fc := (length xtra_fc + 1)%nat in
      let ps := broadcast_ps ps n_fc in
      fc_layers ← fc_layers_of nf xtra_fc ps is_multi is_reg c;
      let fc_objs := objects (length layers) fc_layers in
      Ok (Build f c is_multi is_reg xtra_cut ps xtra_fc lr_cut nf
                layers (Z.of_nat (length fc_layers)) fc_objs
                (layers ++ fc_objs))
  end.

(** The [name] property. *)
Definition name (self : t) : string :=
  arch_name (f self) +:+ "_" +:+ pretty (xtra_cut self).

Definition get_layer_groups (self : t) (do_fc : bool) : list (list nn_module) :=
  let '(m, idxs) := if do_fc then (fc_model self, [])
                    else (model self, [lr_cut self; - n_fc self]) in
  split_by_idxs (children m) idxs.

End Builder.
End ConvnetBuilder.

(** ** The data the learner works on *)

(** What flows through the models: a batch of examples, a row of
    activations, the label arrays. *)
Class Tensors : Type := {
  batch : Type;
  row : Type;
  labels : Type
}.

(** The attributes of a dataset object that the learner reads.  A data
    loader is the sequence of its batches; [test_dl] is [None] when there is
    no test set. *)
Module Data.
Section Data.
Context `{Tensors}.

Record t : Type := Build {
  path : string;
  sz : Z;
  c : Z;
  is_multi : bool;
  is_reg : bool;
  bs : Z;
  classes : option (list string);
  trn_y : labels;
  val_y : labels;
  fix_dl : list batch;
  val_dl : list batch;
  test_dl : option (list batch)
}.

End Data.
End Data.

(** What the framework does with a model and with arrays: [forward m x] is
    the output [m(x)] of a model on a batch, a list of rows; [from_arrays] is
    [ImageClassifierData.from_arrays], the arrays given by their directories. *)
Class Runtime `{Backbones} `{Tensors} : Type := {
  forward : list nn_module -> batch -> list row;
  from_arrays : string -> string * labels -> string * labels -> Z ->
                option (list string) -> option string -> Z -> Data.t
}.

Inductive loss : Type := binary_cross_entropy | nll_loss | l1_loss.

Inductive metric : Type :=
| accuracy_multi
| accuracy
| user_metric (name : string).

(** An on-disk chunked array: its row width and its rows. *)
Record carray `{Tensors} : Type := Carray { ncols : Z; rows : list row }.
Arguments Carray {_} ncols rows.

(** ** ConvLearner *)

Module ConvLearner.
Section Learner.
Context `{Runtime}.

(** The attributes of the learner object.  [fc_data] and [activations] do
    not exist until [save_fc1] and [get_activations] have set them. *)
Record t : Type := Build {
  precompute : bool;
  data_ : Data.t;
  models : ConvnetBuilder.t;
  metrics : option (list metric);
  crit : option loss;
  tmp_path : string;
  fc_data : option Data.t;
  activations : option (list string)
}.

(** The learner together with what it shares with the rest of the
    process: the arrays on disk (by directory name; an open array is its
    directory), the [trainable] flag of each module object, and the log of
    the arrays that [predict_to_bcolz] was run into. *)
Record world : Type := World {
  self : t;
  disk : gmap string carray;
  trainable : gmap nat bool;
  predicted : list string
}.

Definition with_self (g : t -> t) (w : world) : world :=
  World (g (self w)) (disk w) (trainable w) (predicted w).
Definition with_disk (g : gmap string carray -> gmap string carray) (w : world) : world :=
  World (self w) (g (disk w)) (trainable w) (predicted w).

Definition set_precompute (b : bool) (s : t) : t :=
  Build b (data_ s) (models s) (metrics s) (crit s) (tmp_path s)
        (fc_data s) (activations s).
Definition set_data_ (d : Data.t) (s : t) : t :=
  Build (precompute s) d (models s) (metrics s) (crit s) (tmp_path s)
        (fc_data s) (activations s).
Definition set_metrics (m : option (list metric)) (s : t) : t :=
  Build (precompute s) (data_ s) (models s) m (crit s) (tmp_path s)
        (fc_data s) (activations s).
Definition set_crit (l : option loss) (s : t) : t :=
  Build (precompute s) (data_ s) (models s) (metrics s) l (tmp_path s)
        (fc_data s) (activations s).
Definition set_fc_data (d : Data.t) (s : t) : t :=
  Build (precompute s) (data_ s) (models s) (metrics s) (crit s) (tmp_path s)
        (Some d) (activations s).
Definition set_activations (a : list string) (s : t) : t :=
  Build (precompute s) (data_ s) (models s) (metrics s) (crit s) (tmp_path s)
        (fc_data s) (Some a).

(** *** Statements: a state that survives a raised exception *)

Definition M (A : Type) : Type := world -> result A * world.

Definition ret {A} (a : A) : M A := fun w => (Ok a, w).
Definition raise {A} (e : pyerr) : M A := fun w => (Raise e, w).
Definition bind {A B} (m : M A) (k : A -> M B) : M B := fun w =>
  match m w with
  | (Ok a, w') => k a w'
  | (Raise e, w') => (Raise e, w')
  end.
Definition lift {A} (r : result A) : M A := fun w => (r, w).
Definition gets {A} (g : world -> A) : M A := fun w => (Ok (g w), w).
Definition modify (g : world -> world) : M unit := fun w => (Ok tt, g w).

Notation "x <~ m ;; k" := (bind m (fun x => k))
  (at level 100, m at next level, right associativity).
Notation "m ;;; k" := (bind m (fun _ : unit => k))
  (at level 100, right associativity).

Fixpoint mapM {A B} (g : A -> M B) (l : list A) : M (list B) :=
  match l with
  | [] => ret []
  | a :: l' => b <~ g a ;; bs <~ mapM g l' ;; ret (b :: bs)
  end.

(** *** The [model] and [data] properties *)

Definition model (s : t) : list nn_module :=
  if precompute s then ConvnetBuilder.fc_model (models s)
  else ConvnetBuilder.model (models s).

Definition data (s : t) : result Data.t :=
  if precompute s then
    match fc_data s with Some d => Ok d | None => Raise AttributeError end
  else Ok (data_ s).

Definition get_data : M Data.t := fun w => (data (self w), w).

Definition get_layer_groups (s : t) : list (list nn_module) :=
  ConvnetBuilder.get_layer_groups (models s) (precompute s).

(** *** The base class
    [Learner] is defined in another file of the repository. *)

(** Modelled from the spec: [Learner.__init__] "wraps a dataset handle and
    a built model", takes the metrics "if supplied", and the arrays are
    "stored under a temporary-path directory associated with the dataset".
    [precompute] is already [False] (line 79) when it runs. *)
Definition base_init (data : Data.t) (models : ConvnetBuilder.t)
    (metrics : option (list metric)) : t :=
  Build false data models metrics None
        (os_path_join (Data.path data) "tmp") None None.

(** Modelled from the spec: [Learner.set_data] switches the dataset
    handle. *)
Definition base_set_data (data : Data.t) : M unit :=
  modify (with_self (set_data_ data)).

Definition set_trainable (l : list nn_module) (b : bool)
    (tr : gmap nat bool) : gmap nat bool :=
  foldl (fun tr m => <[oid m := b]> tr) tr l.

(** Modelled from the spec: [Learner.freeze_to(n)] "manages
    frozen/unfrozen layer groups": every layer group of
    [self.get_layer_groups()] is made untrainable, then the groups from
    [n] on are made trainable. *)
Definition freeze_to (n : Z) : M unit := fun w =>
  let c := get_layer_groups (self w) in
  let tr := foldl (fun tr l => set_trainable l false tr) (trainable w) c in
  let tr := foldl (fun tr l => set_trainable l true tr) tr (py_slice_from c n) in
  (Ok tt, World (self w) (disk w) tr (predicted w)).

Definition freeze : M unit := freeze_to (-1).

(** *** The activation cache *)

(** [bcolz.carray(np.zeros((0,n)), mode='w', rootdir=name)]: an empty array
    written at [name], over whatever was there. *)
Definition create_empty_bcolz (n : Z) (name : string) : M string :=
  modify (with_disk (insert name (Carray n []))) ;;; ret name.

(** [bcolz.open(p)]: the array at [p]; there must be one. *)
Definition bcolz_open (p : string) : M string := fun w =>
  match disk w !! p with
  | Some _ => (Ok p, w)
  | None => (Raise FileNotFoundError, w)
  end.

(** [len(arr)] of an open array. *)
Definition carray_len (arr : string) : M Z := fun w =>
  match disk w !! arr with
  | Some a => (Ok (Z.of_nat (length (rows a))), w)
  | None => (Raise FileNotFoundError, w)
  end.

(** Modelled from the spec: [predict_to_bcolz] is defined in another file
    of the repository; the spec has it "run the truncated backbone over the
    partition once and persist outputs". *)
Definition predict_to_bcolz (m : list nn_module) (gen : list batch)
    (arr : string) : M unit :=
  modify (fun w =>
    World (self w)
          (alter (fun a => Carray (ncols a) (rows a ++ concat (forward m <$> gen)))
                 arr (disk w))
          (trainable w)
          (predicted w ++ [arr])).

Definition activation_names (s : t) (d : Data.t) : list string :=
  let tmpl := "_" +:+ ConvnetBuilder.name (models s) +:+ "_"
                  +:+ pretty (Data.sz d) +:+ ".bc" in
  (fun p => os_path_join (tmp_path s) (p +:+ tmpl))
    <$> ["x_act"; "x_act_val"; "x_act_test"].

Definition get_activations (force : bool) : M unit :=
  d <~ get_data ;;
  s <~ gets self ;;
  let names := activation_names s d in
  n0 <~ lift (py_index names 0) ;;
  on_disk <~ gets (fun w => bool_decide (is_Some (disk w !! n0))) ;;
  if on_disk && negb force then
    acts <~ mapM bcolz_open names ;;
    modify (with_self (set_activations acts))
  else
    acts <~ mapM (create_empty_bcolz (ConvnetBuilder.nf (models s))) names ;;
    modify (with_self (set_activations acts)).

Definition get_activations_attr : M (list string) := fun w =>
  match activations (self w) with
  | Some a => (Ok a, w)
  | None => (Raise AttributeError, w)
  end.

(** [act, val_act, test_act = self.activations] *)
Definition unpack3 (l : list string) : result (string * string * string) :=
  match l with
  | [a; b; c] => Ok (a, b, c)
  | _ => Raise ValueError
  end.

Definition is_some {A} (o : option A) : bool :=
  match o with Some _ => true | None => false end.

Definition save_fc1 : M unit :=
  get_activations false ;;;
  acts <~ get_activations_attr ;;
  unpacked <~ lift (unpack3 acts) ;;
  let '(act, val_act, test_act) := unpacked in
  a0 <~ lift (py_index acts 0) ;;
  n <~ carray_len a0 ;;
  (if n =? 0 then
     m <~ gets (fun w => ConvnetBuilder.top_model (models (self w))) ;;
     d <~ get_data ;;
     predict_to_bcolz m (Data.fix_dl d) act ;;;
     d <~ get_data ;;
     predict_to_bcolz m (Data.val_dl d) val_act ;;;
     d <~ get_data ;;
     match Data.test_dl d with
     | Some dl => predict_to_bcolz m dl test_act
     | None => ret tt
     end
   else ret tt) ;;;
  d <~ get_data ;;
  modify (with_self (set_fc_data
    (from_arrays (Data.path d) (act, Data.trn_y d) (val_act, Data.val_y d)
                 (Data.bs d) (Data.classes d)
                 (if is_some (Data.test_dl d) then Some test_act else None)
                 8))).

(** *** Construction and switching datasets *)

(** Lines 81 to 87 of [__init__], one statement each. *)
Definition init_body (data : Data.t) (precompute : bool) : list (M unit) :=
  [ modify (with_self (set_crit
      (Some (if Data.is_multi data then binary_cross_entropy else nll_loss))));
    (if Data.is_reg data then modify (with_self (set_crit (Some l1_loss)))
     else
       ms <~ gets (fun w => metrics (self w)) ;;
       match ms with
       | None =>
           d <~ get_data ;;
           modify (with_self (set_metrics
             (Some (if Data.is_multi d then [accuracy_multi] else [accuracy]))))
       | Some _ => ret tt
       end);
    (if precompute then save_fc1 else ret tt);
    freeze;
    modify (with_self (set_precompute precompute)) ].

(** The states a list of statements goes through, and how it ends. *)
Fixpoint run_body (body : list (M unit)) (w : world)
    : list world * result unit :=
  match body with
  | [] => ([], Ok tt)
  | st :: body' =>
      match st w with
      | (Ok _, w') => let '(tr, r) := run_body body' w' in (w' :: tr, r)
      | (Raise e, w') => ([w'], Raise e)
      end
  end.

(** [ConvLearner(data, models, precompute, metrics=...)], run with the
    arrays [disk0] on disk, the [trainable] flags [flags0] and the log
    [log0]: the state after lines 79 and 80, then the states after each
    later statement. *)
Definition init_trace (data : Data.t) (models : ConvnetBuilder.t)
    (precompute : bool) (metrics : option (list metric))
    (disk0 : gmap string carray) (flags0 : gmap nat bool)
    (log0 : list string) : list world * result unit :=
  let w0 := World (base_init data models metrics) disk0 flags0 log0 in
  let '(tr, r) := run_body (init_body data precompute) w0 in
  (w0 :: tr, r).

(** How the constructor ends, and the state it leaves. *)
Definition init (data : Data.t) (models : ConvnetBuilder.t)
    (precompute : bool) (metrics : option (list metric))
    (disk0 : gmap string carray) (flags0 : gmap nat bool)
    (log0 : list string) : result unit * world :=
  let '(tr, r) := init_trace data models precompute metrics disk0 flags0 log0 in
  (r, List.last tr (World (base_init data models metrics) disk0 flags0 log0)).

Definition set_data (data : Data.t) : M unit :=
  base_set_data data ;;;
  save_fc1 ;;;
  freeze.

(** [ConvLearner.pretrained(f, data, ps, xtra_fc, xtra_cut, **kwargs)], the
    keyword arguments being [precompute] and [metrics]: the error of the
    builder, or the construction of the learner on the model it built. *)
Definition pretrained (f : arch) (data : Data.t) (ps : ps_arg)
    (xtra_fc : option (list Z)) (xtra_cut : Z)
    (precompute : bool) (metrics : option (list metric))
    (disk0 : gmap string carray) (flags0 : gmap nat bool)
    (log0 : list string) : pyerr + (result unit * world) :=
  match ConvnetBuilder.init f (Data.c data) (Data.is_multi data)
          (Data.is_reg data) ps xtra_fc xtra_cut with
  | Raise e => inl e
  | Ok models => inr (init data models precompute metrics disk0 flags0 log0)
  end.


End Learner.
End ConvLearner.

(** ** A small framework to run the definitions on *)

(** A stand-in for the pretrained networks: a network with [n] children, or
    one child of it. *)
Inductive toy_net : Type :=
| Net (n : nat)
| Child (i : nat).

Definition toy_cut_model (m : toy_net) (cut : Z) : list toy_net :=
  match m with
  | Net n => if cut =? 0 then [Net n] else py_slice (Child <$> seq 0 n) 0 cut
  | Child i => [Child i]
  end.

Definition toy_backbones : Backbones :=
  {| bmod := toy_net;
     pretrained := fun _ => Net 10;
     cut_model := toy_cut_model;
     num_features := fun _ => 512 |}.

Definition toy_tensors : Tensors :=
  {| batch := nat; row := nat; labels := list Z |}.

Definition toy_from_arrays (path : string) (trn val : string * list Z) (bs : Z)
    (classes : option (list string)) (test : option string) (workers : Z)
    : @Data.t toy_tensors :=
  @Data.Build toy_tensors path 1024 2 false false bs classes (snd trn) (snd val) [] [] None.

Definition toy_forward (m : list (@nn_module toy_backbones)) (x : nat) : list nat :=
  [x].

Definition toy_runtime : @Runtime toy_backbones toy_tensors :=
  @Build_Runtime toy_backbones toy_tensors toy_forward toy_from_arrays.

(** A two-class dataset of 224-pixel images with two training batches and
    one validation batch, and its variants by task. *)
Definition toy_data (is_multi is_reg : bool) : @Data.t toy_tensors :=
  @Data.Build toy_tensors "data" 224 2 is_multi is_reg 64 None
              [0; 1] [1] [10%nat; 11%nat] [20%nat] None.

(** The primary array a caching run over [toy_data] leaves: one row per
    training batch. *)
Definition toy_cached : @carray toy_tensors :=
  @Carray toy_tensors 1024 [10%nat; 11%nat].

(** The images of [toy_data] at another size. *)
Definition toy_data_299 : @Data.t toy_tensors :=
  @Data.Build toy_tensors "data" 299 2 false false 64 None
              [0; 1] [1] [10%nat; 11%nat] [20%nat] None.

(** The same dataset directory with other images of the same size. *)
Definition toy_data_other : @Data.t toy_tensors :=
  @Data.Build toy_tensors "data" 224 2 false false 64 None
              [1; 1; 0] [0] [30%nat; 31%nat; 32%nat] [40%nat] None.

(** * The vocabulary of the properties *)

Section Vocabulary.
Context `{Backbones}.

(** A head block as the spec describes it: batch-norm, then dropout exactly
    when the rate is not zero, then linear, then the activation when there is
    one. *)
Definition block_spec (ni nf : Z) (p : num) (actn : option activation)
  : list layer :=
  [BatchNorm1d ni] ++ (if num_truthy p then [Dropout p] else [])
    ++ [Linear ni nf]
    ++ (match actn with Some a => [Act a] | None => [] end).

(** The hidden blocks: widths chained from [ni] through [xtra_fc], the
    [i]-th rate for the [i]-th block, ReLU after each. *)
Fixpoint hidden_blocks (ni : Z) (xtra_fc : list Z) (ps : list num) : list layer :=
  match xtra_fc, ps with
  | nf :: rest, p :: ps' => block_spec ni nf p (Some ReLU) ++ hidden_blocks nf rest ps'
  | _, _ => []
  end.

(** The activation of the last block: none for a regression, else sigmoid
    for multi-label, else log-softmax. *)
Definition final_activation (is_multi is_reg : bool) : option activation :=
  if is_reg then None else if is_multi then Some Sigmoid else Some LogSoftmax.

(** There is a rate for every hidden block, and a last rate. *)
Definition ps_covers (ps : list num) (xtra_fc : list Z) : bool :=
  bool_decide (length xtra_fc <= length ps)%nat && bool_decide (ps <> []).

(** The head as the spec describes it. *)
Definition head_spec (nf : Z) (xtra_fc : list Z) (ps : list num)
    (is_multi is_reg : bool) (c : Z) : list layer :=
  hidden_blocks nf xtra_fc ps
    ++ block_spec (List.last xtra_fc nf) c (List.last ps (Int 0))
                  (final_activation is_multi is_reg).

(** The width the backbone delivers after the adapters: the one written
    down, or twice the one inferred (the concat pooling doubles it). *)
Definition feature_width (f : arch) (cut : Z) : Z :=
  match model_features f with
  | Some n => n
  | None => num_features (cut_model (pretrained f) cut) * 2
  end.

(** The width that comes out of a stack of head layers fed with width [w]:
    a batch-norm and a linear layer must be given the width they were made
    for, dropout and activations keep it, a linear layer changes it; [None]
    on a mismatch or on a layer that is not a head layer. *)
Fixpoint head_width (w : Z) (ls : list layer) : option Z :=
  match ls with
  | [] => Some w
  | BatchNorm1d n :: ls' => if n =? w then head_width w ls' else None
  | Dropout _ :: ls' => head_width w ls'
  | Act _ :: ls' => head_width w ls'
  | Linear i o :: ls' => if i =? w then head_width o ls' else None
  | _ :: _ => None
  end.


(** What the framework's layer constructors take without raising:
    [nn.Dropout(p)] raises [ValueError] when [p < 0 or p > 1] (a NaN passes
    both tests), and [nn.BatchNorm1d] and [nn.Linear] allocate weights of the
    given widths, which have to be positive. *)
Definition rate_accepted (p : num) : bool :=
  match p with
  | Int z => negb ((z <? 0) || (1 <? z))
  | Float x => negb (PrimFloat.ltb x 0%float || PrimFloat.ltb 1%float x)
  end.

(** A layer made with arguments its constructor takes. *)
Definition layer_accepted (l : layer) : bool :=
  match l with
  | BatchNorm1d n => 0 <? n
  | Dropout p => rate_accepted p
  | Linear ni nf => (0 <? ni) && (0 <? nf)
  | _ => true
  end.

(** The [ps] argument holds accepted rates only. *)
Definition ps_accepted (ps : ps_arg) : bool :=
  match ps with
  | PsNone => true
  | PsScalar p => rate_accepted p
  | PsList l => forallb rate_accepted l
  end.

End Vocabulary.

(** * The vocabulary of the learner's properties *)

Section LearnerVocabulary.
Context `{Runtime}.

Import ConvLearner.

(** [m] relates every state to the state it leaves, raising or not. *)
Definition keeps {A} (R : world -> world -> Prop) (m : M A) : Prop :=
  forall w, R w (snd (m w)).

(** The attributes and flags that caching never writes. *)
Definition same_config (w w' : world) : Prop :=
  precompute (self w') = precompute (self w) /\
  data_ (self w') = data_ (self w) /\
  models (self w') = models (self w) /\
  metrics (self w') = metrics (self w) /\
  crit (self w') = crit (self w) /\
  tmp_path (self w') = tmp_path (self w) /\
  trainable w' = trainable w.

(** The arrays on disk and the log of the backbone runs. *)
Definition same_cache (w w' : world) : Prop :=
  disk w' = disk w /\ predicted w' = predicted w.

(** The state in which line 81 starts: [precompute] cleared and the base
    class constructed. *)
Definition start (ds : Data.t) (bld : ConvnetBuilder.t)
    (kw : option (list metric)) (disk0 : gmap string carray)
    (flags0 : gmap nat bool) (log0 : list string) : world :=
  World (base_init ds bld kw) disk0 flags0 log0.

(** The state after line 81: the loss by [is_multi]. *)
Definition after_crit (ds : Data.t) (w0 : world) : world :=
  with_self (set_crit
    (Some (if Data.is_multi ds then binary_cross_entropy else nll_loss))) w0.

(** The state after lines 82 to 84: the L1 loss for a regression, else the
    default metric when there is none. *)
Definition after_metrics (ds : Data.t) (w1 : world) : world :=
  if Data.is_reg ds then with_self (set_crit (Some l1_loss)) w1
  else match metrics (self w1) with
       | None => with_self (set_metrics
                   (Some (if Data.is_multi ds then [accuracy_multi]
                          else [accuracy]))) w1
       | Some _ => w1
       end.

(** The dataset [save_fc1] builds from the arrays. *)
Definition arrays_data (d : Data.t) (act val_act test_act : string) : Data.t :=
  from_arrays (Data.path d) (act, Data.trn_y d) (val_act, Data.val_y d)
    (Data.bs d) (Data.classes d)
    (if is_some (Data.test_dl d) then Some test_act else None) 8.

(** The three arrays created empty, in the order of the names. *)
Definition fresh_arrays (nf : Z) (p pv pt : string)
    (dk : gmap string carray) : gmap string carray :=
  <[pt := Carray nf []]> (<[pv := Carray nf []]> (<[p := Carray nf []]> dk)).

(** What [predict_to_bcolz m gen arr] does to the disk. *)
Definition predicted_into (m : list nn_module) (gen : list batch)
    (arr : string) (dk : gmap string carray) : gmap string carray :=
  alter (fun a => Carray (ncols a) (rows a ++ concat (forward m <$> gen))) arr dk.

(** The disk after the three runs of [save_fc1]: training, validation, and
    test when there is a test loader. *)
Definition recomputed (m : list nn_module) (d : Data.t) (p pv pt : string)
    (dk : gmap string carray) : gmap string carray :=
  let dk := predicted_into m (Data.val_dl d) pv
              (predicted_into m (Data.fix_dl d) p dk) in
  match Data.test_dl d with
  | Some dl => predicted_into m dl pt dk
  | None => dk
  end.

(** The arrays [save_fc1] writes into, in order. *)
Definition runs (d : Data.t) (p pv pt : string) : list string :=
  [p; pv] ++ (if is_some (Data.test_dl d) then [pt] else []).


(** The backbone is frozen and the head is not: every layer before the head
    is untrainable, every layer of the head trainable. *)
Definition refrozen (b : ConvnetBuilder.t) (w : world) : Prop :=
  forall m,
    (m ∈ ConvnetBuilder.top_model b -> trainable w !! oid m = Some false) /\
    (m ∈ ConvnetBuilder.fc_model b -> trainable w !! oid m = Some true).

(** The array [k] is on disk and has no rows. *)
Definition no_rows (dk : gmap string carray) (k : string) : Prop :=
  exists a, dk !! k = Some a /\ rows a = [].

(** The rows of the array [k] are the outputs of [m] over the batches of
    [gen], in order. *)
Definition holds_outputs (m : list nn_module) (gen : list batch)
    (dk : gmap string carray) (k : string) : Prop :=
  rows <$> dk !! k = Some (concat (forward m <$> gen)).

End LearnerVocabulary.

(** * The builder *)

Section BuilderProperties.
Context `{Backbones}.

Lemma py_index_nat {A} (l : list A) (i : nat) (x : A) :
  l !! i = Some x -> py_index l (Z.of_nat i) = Ok x.
Proof.
  intros E. pose proof (lookup_lt_Some _ _ _ E) as Hlt.
  unfold py_index.
  destruct (Z.ltb_spec (Z.of_nat i) 0) as [?|_]; [lia|].
  destruct (Z.ltb_spec (Z.of_nat i) 0) as [?|_]; [lia|].
  destruct (Z.leb_spec (Z.of_nat (length l)) (Z.of_nat i)) as [?|_]; [lia|].
  simpl. rewrite Nat2Z.id, E. reflexivity.
Qed.

Lemma py_index_beyond {A} (l : list A) (i : nat) :
  (length l <= i)%nat -> py_index l (Z.of_nat i) = Raise IndexError.
Proof.
  intros Hle. unfold py_index.
  destruct (Z.ltb_spec (Z.of_nat i) 0) as [?|_]; [lia|].
  destruct (Z.ltb_spec (Z.of_nat i) 0) as [?|_]; [lia|].
  destruct (Z.leb_spec (Z.of_nat (length l)) (Z.of_nat i)) as [_|?]; [|lia].
  reflexivity.
Qed.

Lemma py_index_last {A} (l : list A) (d : A) :
  l <> [] -> py_index l (-1) = Ok (List.last l d).
Proof.
  intros Hne. destruct (exists_last Hne) as [l' [x ->]].
  rewrite List.last_last. unfold py_index. rewrite length_app. simpl.
  destruct (Z.ltb_spec (-1 + Z.of_nat (length l' + 1)) 0) as [?|_]; [lia|].
  destruct (Z.leb_spec (Z.of_nat (length l' + 1))
              (-1 + Z.of_nat (length l' + 1))) as [?|_]; [lia|].
  simpl.
  replace (Z.to_nat (-1 + Z.of_nat (length l' + 1))) with (length l') by lia.
  rewrite list_lookup_middle by reflexivity. reflexivity.
Qed.

Lemma py_index_last_nil {A} : py_index (@nil A) (-1) = Raise IndexError.
Proof. reflexivity. Qed.

Lemma last_cons {A} (x d : A) (l : list A) :
  List.last (x :: l) d = List.last l x.
Proof.
  revert x d. induction l as [|y l IH]; intros x d; [reflexivity|].
  change (List.last (x :: y :: l) d) with (List.last (y :: l) d).
  rewrite (IH y d), (IH y x). reflexivity.
Qed.

Lemma create_fc_layer_spec ni nf p actn :
  ConvnetBuilder.create_fc_layer ni nf p actn = block_spec ni nf p actn.
Proof.
  unfold ConvnetBuilder.create_fc_layer, block_spec.
  destruct (num_truthy p), actn; reflexivity.
Qed.

(** The loop from its [i]-th round on: it appends the hidden blocks for the
    rates from [i] on, or runs out of rates. *)
Lemma fc_loop_spec ps xtra_fc (i : nat) res ni :
  (i <= length ps)%nat ->
  ConvnetBuilder.fc_loop ps xtra_fc (Z.of_nat i) res ni =
    if bool_decide (i + length xtra_fc <= length ps)%nat
    then Ok (res ++ hidden_blocks ni xtra_fc (drop i ps), List.last xtra_fc ni)
    else Raise IndexError.
Proof.
  revert i res ni. induction xtra_fc as [|nf rest IH]; intros i res ni Hi.
  - simpl. rewrite bool_decide_eq_true_2 by lia.
    rewrite app_nil_r. reflexivity.
  - cbn [ConvnetBuilder.fc_loop].
    destruct (ps !! i) as [p|] eqn:E.
    + pose proof (lookup_lt_Some _ _ _ E) as Hlt.
      rewrite (py_index_nat _ _ _ E). cbn [mbind result_bind].
      replace (Z.of_nat i + 1) with (Z.of_nat (S i)) by lia.
      rewrite IH by lia. rewrite create_fc_layer_spec.
      rewrite (drop_S _ _ _ E). cbn [hidden_blocks length].
      replace (bool_decide (S i + length rest <= length ps)%nat)
        with (bool_decide (i + S (length rest) <= length ps)%nat)
        by (apply bool_decide_ext; lia).
      case_bool_decide; [|reflexivity].
      rewrite <- app_assoc, last_cons. reflexivity.
    + pose proof (lookup_ge_None_1 _ _ E) as Hge.
      rewrite py_index_beyond by lia. cbn [mbind result_bind].
      rewrite bool_decide_eq_false_2 by (cbn [length]; lia). reflexivity.
Qed.

Lemma fc_layers_of_spec nf xtra_fc ps is_multi is_reg c :
  ConvnetBuilder.fc_layers_of nf xtra_fc ps is_multi is_reg c =
    if ps_covers ps xtra_fc
    then Ok (head_spec nf xtra_fc ps is_multi is_reg c)
    else Raise IndexError.
Proof.
  unfold ConvnetBuilder.fc_layers_of, ps_covers, head_spec.
  change 0 with (Z.of_nat 0). rewrite fc_loop_spec by lia.
  rewrite drop_0. cbn [Nat.add app].
  case_bool_decide as Hlen; cbn [mbind result_bind andb]; [|reflexivity].
  case_bool_decide as Hne.
  - rewrite (py_index_last ps (Int 0)) by assumption. cbn [mbind result_bind].
    rewrite create_fc_layer_spec. unfold final_activation.
    destruct is_reg, is_multi; reflexivity.
  - destruct ps as [|p ps]; [reflexivity|discriminate Hne].
Qed.

Lemma objects_cons k (l : layer) ls :
  objects k (l :: ls) = Obj k l :: objects (S k) ls.
Proof.
  unfold objects. rewrite imap_cons. f_equal; [f_equal; lia|].
  apply imap_ext. intros i x _. simpl. f_equal. lia.
Qed.

Lemma kind_objects k (ls : list layer) : kind <$> objects k ls = ls.
Proof.
  revert k. induction ls as [|l ls IH]; intros k; [reflexivity|].
  rewrite objects_cons, fmap_cons, IH. reflexivity.
Qed.

Lemma length_objects k (ls : list layer) : length (objects k ls) = length ls.
Proof. unfold objects. apply length_imap. Qed.

Lemma objects_lookup k (ls : list layer) i m :
  objects k ls !! i = Some m -> oid m = (k + i)%nat.
Proof.
  unfold objects. rewrite list_lookup_imap.
  destruct (ls !! i); simpl; [|discriminate]. intros [= <-]. reflexivity.
Qed.

(** The builder on a registered architecture: the model it assembles, or an
    [IndexError] when the rates run out. *)
Lemma init_spec f c is_multi is_reg ps xtra_fc xtra_cut cut lr_cut :
  model_meta f = Some (cut, lr_cut) ->
  let xfc := ConvnetBuilder.xtra_fc_or_default xtra_fc in
  let ps' := ConvnetBuilder.broadcast_ps (ConvnetBuilder.ps_or_default ps)
               (length xfc + 1) in
  let w := feature_width f (cut - xtra_cut) in
  let top := objects 0 ((Pretrained <$> cut_model (pretrained f) (cut - xtra_cut))
                          ++ [AdaptiveConcatPool2d; Flatten]) in
  let head := head_spec w xfc ps' is_multi is_reg c in
  ConvnetBuilder.init f c is_multi is_reg ps xtra_fc xtra_cut =
    if ps_covers ps' xfc
    then Ok (ConvnetBuilder.Build f c is_multi is_reg xtra_cut ps' xfc lr_cut w
               top (Z.of_nat (length head)) (objects (length top) head)
               (top ++ objects (length top) head))
    else Raise IndexError.
Proof.
  intros Hmeta xfc ps' w top head.
  unfold ConvnetBuilder.init. rewrite Hmeta.
  fold xfc. fold ps'.
  change (match model_features f with
          | Some n => n
          | None => num_features (cut_model (pretrained f) (cut - xtra_cut)) * 2
          end) with w.
  rewrite fc_layers_of_spec. fold head.
  destruct (ps_covers ps' xfc); reflexivity.
Qed.

(** A scalar rate is repeated for every block, so it always covers them. *)
Lemma ps_covers_scalar p (xfc : list Z) :
  ps_covers (replicate (length xfc + 1) p) xfc = true.
Proof.
  unfold ps_covers. rewrite length_replicate.
  rewrite bool_decide_eq_true_2 by lia.
  rewrite bool_decide_eq_true_2; [reflexivity|].
  rewrite Nat.add_1_r. discriminate.
Qed.

Lemma head_spec_first nf xtra_fc ps is_multi is_reg c :
  ps_covers ps xtra_fc = true ->
  exists rest, head_spec nf xtra_fc ps is_multi is_reg c = BatchNorm1d nf :: rest.
Proof.
  unfold ps_covers, head_spec. intros Hc.
  apply andb_true_iff in Hc as [Hlen Hne].
  apply bool_decide_eq_true in Hlen. apply bool_decide_eq_true in Hne.
  destruct xtra_fc as [|n xfc]; [eexists; reflexivity|].
  destruct ps as [|p ps]; [contradiction|].
  eexists. reflexivity.
Qed.

(** ** C1: the head takes what the backbone delivers *)

(** C1. For a registered backbone [f] the builder either assembles a model
    or, when a list of rates is shorter than the list of hidden layers, raises
    [IndexError].  In the assembled model the head returned by
    [get_fc_layers] starts with a batch-norm whose width is the builder's
    [nf], and [nf] is [model_features[f]] when [f] is in that table and else
    twice the inferred feature count of the truncated backbone; in the full
    model that batch-norm comes right after the pooling and flatten
    adapters. *)
Theorem head_input_width f c is_multi is_reg ps xtra_fc xtra_cut cut lr_cut :
  model_meta f = Some (cut, lr_cut) ->
  let layers := cut_model (pretrained f) (cut - xtra_cut) in
  let w := match model_features f with
           | Some n => n
           | None => num_features layers * 2
           end in
  if ps_covers (ConvnetBuilder.broadcast_ps (ConvnetBuilder.ps_or_default ps)
                  (length (ConvnetBuilder.xtra_fc_or_default xtra_fc) + 1))
               (ConvnetBuilder.xtra_fc_or_default xtra_fc)
  then exists b rest,
    ConvnetBuilder.init f c is_multi is_reg ps xtra_fc xtra_cut = Ok b /\
    ConvnetBuilder.nf b = w /\
    ConvnetBuilder.get_fc_layers b = Ok (BatchNorm1d w :: rest) /\
    kind <$> ConvnetBuilder.fc_model b = BatchNorm1d w :: rest /\
    kind <$> ConvnetBuilder.model b =
      (Pretrained <$> layers) ++ [AdaptiveConcatPool2d; Flatten]
        ++ BatchNorm1d w :: rest
  else ConvnetBuilder.init f c is_multi is_reg ps xtra_fc xtra_cut
       = Raise IndexError.
Proof.
  intros Hmeta layers w.
  rewrite (init_spec _ _ _ _ _ _ _ _ _ Hmeta).
  destruct (ps_covers _ _) eqn:Hc; [|reflexivity].
  destruct (head_spec_first (feature_width f (cut - xtra_cut)) _ _
              is_multi is_reg c Hc) as [rest Hrest].
  eexists _, rest. split; [reflexivity|].
  split; [reflexivity|].
  unfold ConvnetBuilder.get_fc_layers. cbn [ConvnetBuilder.nf
    ConvnetBuilder.xtra_fc ConvnetBuilder.ps ConvnetBuilder.is_multi
    ConvnetBuilder.is_reg ConvnetBuilder.c ConvnetBuilder.fc_model
    ConvnetBuilder.model].
  rewrite fc_layers_of_spec, Hc, fmap_app, !kind_objects, Hrest.
  repeat split. rewrite <- app_assoc. reflexivity.
Qed.

(** ** C4: the blocks of the head *)

(** C4. [create_fc_layer] gives batch-norm, then a dropout exactly when the
    rate is not zero, then a linear layer, then the activation when one is
    given.  [get_fc_layers] chains one such block per hidden layer, each with
    ReLU, and a last block whose activation is absent for a regression
    (whatever [is_multi]), else sigmoid for multi-label, else log-softmax; it
    raises [IndexError] exactly when the rates do not cover the blocks.  The
    head of every model the builder assembles is made of these blocks. *)
Theorem head_blocks :
  (forall ni nf p actn,
     ConvnetBuilder.create_fc_layer ni nf p actn =
       [BatchNorm1d ni] ++ (if num_truthy p then [Dropout p] else [])
         ++ [Linear ni nf]
         ++ (match actn with Some a => [Act a] | None => [] end)) /\
  (forall nf xtra_fc ps is_multi is_reg c,
     ConvnetBuilder.fc_layers_of nf xtra_fc ps is_multi is_reg c =
       if ps_covers ps xtra_fc
       then Ok (hidden_blocks nf xtra_fc ps
                  ++ ConvnetBuilder.create_fc_layer (List.last xtra_fc nf) c
                       (List.last ps (Int 0))
                       (if is_reg then None
                        else if is_multi then Some Sigmoid
                        else Some LogSoftmax))
       else Raise IndexError) /\
  (forall f c is_multi is_reg ps xtra_fc xtra_cut b,
     ConvnetBuilder.init f c is_multi is_reg ps xtra_fc xtra_cut = Ok b ->
     ConvnetBuilder.get_fc_layers b = Ok (kind <$> ConvnetBuilder.fc_model b) /\
     kind <$> ConvnetBuilder.fc_model b =
       head_spec (ConvnetBuilder.nf b) (ConvnetBuilder.xtra_fc b)
         (ConvnetBuilder.ps b) is_multi is_reg c).
Proof.
  split; [|split].
  - intros. apply create_fc_layer_spec.
  - intros. rewrite fc_layers_of_spec, create_fc_layer_spec. reflexivity.
  - intros f c is_multi is_reg ps xtra_fc xtra_cut b Hb.
    destruct (model_meta f) as [[cut lr_cut]|] eqn:Hmeta.
    2:{ unfold ConvnetBuilder.init in Hb. rewrite Hmeta in Hb. discriminate. }
    rewrite (init_spec _ _ _ _ _ _ _ _ _ Hmeta) in Hb.
    destruct (ps_covers _ _) eqn:Hc; [|discriminate].
    injection Hb as <-.
    unfold ConvnetBuilder.get_fc_layers. cbn [ConvnetBuilder.nf
      ConvnetBuilder.xtra_fc ConvnetBuilder.ps ConvnetBuilder.is_multi
      ConvnetBuilder.is_reg ConvnetBuilder.c ConvnetBuilder.fc_model].
    rewrite fc_layers_of_spec, Hc, kind_objects. split; reflexivity.
Qed.

(** ** C10: falsy arguments and the defaults *)

Lemma ps_or_default_falsy ps :
  ps_truthy ps = false ->
  ConvnetBuilder.ps_or_default ps = PsList [Float 0.25; Float 0.5].
Proof. intros E. unfold ConvnetBuilder.ps_or_default. rewrite E. reflexivity. Qed.

Lemma xtra_fc_or_default_falsy (xtra_fc : option (list Z)) :
  optlist_truthy xtra_fc = false ->
  ConvnetBuilder.xtra_fc_or_default xtra_fc = [512].
Proof. destruct xtra_fc as [[|x l]|]; [reflexivity|discriminate|reflexivity]. Qed.

Lemma block_spec_no_dropout ni nf p actn q :
  num_truthy p = false -> Dropout q ∉ block_spec ni nf p actn.
Proof.
  intros E. unfold block_spec. rewrite E. cbn [app].
  intros Hin. destruct actn; repeat (apply elem_of_cons in Hin as [Hin|Hin];
    [discriminate Hin|]); apply elem_of_nil in Hin; exact Hin.
Qed.

(** C10. A falsy [ps] ([0], [0.0], an empty list, [None]) is replaced by
    [[0.25, 0.5]] and a falsy [xtra_fc] (an empty list, [None]) by [[512]].
    So on a registered backbone a scalar rate of zero gives the head with the
    two default dropout layers, while the list [[0, p]] gives a head whose
    first block has no dropout; in general a block whose rate is zero has no
    dropout layer. *)
Theorem falsy_defaults f c is_multi is_reg xtra_cut cut lr_cut :
  model_meta f = Some (cut, lr_cut) ->
  let w := feature_width f (cut - xtra_cut) in
  let final := match final_activation is_multi is_reg with
               | Some a => [Act a]
               | None => []
               end in
  (forall ps xtra_fc b,
     ConvnetBuilder.init f c is_multi is_reg ps xtra_fc xtra_cut = Ok b ->
     (ps_truthy ps = false -> ConvnetBuilder.ps b = [Float 0.25; Float 0.5]) /\
     (optlist_truthy xtra_fc = false -> ConvnetBuilder.xtra_fc b = [512])) /\
  (forall ps xtra_fc,
     ps_truthy ps = false -> optlist_truthy xtra_fc = false ->
     exists b,
       ConvnetBuilder.init f c is_multi is_reg ps xtra_fc xtra_cut = Ok b /\
       kind <$> ConvnetBuilder.fc_model b =
         [BatchNorm1d w; Dropout (Float 0.25); Linear w 512; Act ReLU;
          BatchNorm1d 512; Dropout (Float 0.5); Linear 512 c] ++ final) /\
  (forall p xtra_fc,
     optlist_truthy xtra_fc = false ->
     exists b,
       ConvnetBuilder.init f c is_multi is_reg (PsList [Int 0; p]) xtra_fc xtra_cut
         = Ok b /\
       kind <$> ConvnetBuilder.fc_model b =
         [BatchNorm1d w; Linear w 512; Act ReLU; BatchNorm1d 512]
           ++ (if num_truthy p then [Dropout p] else [])
           ++ [Linear 512 c] ++ final) /\
  (forall ni nf p actn q,
     num_truthy p = false ->
     Dropout q ∉ ConvnetBuilder.create_fc_layer ni nf p actn).
Proof.
  intros Hmeta w final. split; [|split; [|split]].
  - intros ps xtra_fc b Hb.
    rewrite (init_spec _ _ _ _ _ _ _ _ _ Hmeta) in Hb.
    destruct (ps_covers _ _); [|discriminate]. injection Hb as <-.
    cbn [ConvnetBuilder.ps ConvnetBuilder.xtra_fc]. split.
    + intros Hps. rewrite (ps_or_default_falsy _ Hps). reflexivity.
    + intros Hx. apply xtra_fc_or_default_falsy, Hx.
  - intros ps xtra_fc Hps Hx.
    rewrite (init_spec _ _ _ _ _ _ _ _ _ Hmeta).
    rewrite (ps_or_default_falsy _ Hps), (xtra_fc_or_default_falsy _ Hx).
    eexists. split; [reflexivity|].
    cbn [ConvnetBuilder.fc_model]. rewrite kind_objects.
    unfold final, final_activation. destruct is_reg, is_multi; reflexivity.
  - intros p xtra_fc Hx.
    rewrite (init_spec _ _ _ _ _ _ _ _ _ Hmeta).
    rewrite (xtra_fc_or_default_falsy _ Hx).
    eexists. split; [reflexivity|].
    cbn [ConvnetBuilder.fc_model]. rewrite kind_objects.
    unfold final, final_activation, head_spec, hidden_blocks, block_spec.
    cbn [ConvnetBuilder.broadcast_ps ConvnetBuilder.ps_or_default ps_truthy
         List.last num_truthy Z.eqb negb app].
    destruct is_reg, is_multi, (num_truthy p); reflexivity.
  - intros ni nf p actn q Hp. rewrite create_fc_layer_spec.
    apply block_spec_no_dropout, Hp.
Qed.

(** ** C5: the layer groups *)

Lemma py_clamp_nonneg len i :
  0 <= i -> py_clamp len i = Nat.min (Z.to_nat i) len.
Proof.
  intros Hi. unfold py_clamp.
  destruct (Z.ltb_spec i 0) as [?|_]; lia.
Qed.

Lemma py_clamp_from_end len (n : nat) :
  (0 < n <= len)%nat -> py_clamp len (- Z.of_nat n) = (len - n)%nat.
Proof.
  intros Hn. unfold py_clamp.
  destruct (Z.ltb_spec (- Z.of_nat n) 0) as [_|?]; lia.
Qed.

Lemma model_meta_lr_cut f cut lr_cut :
  model_meta f = Some (cut, lr_cut) -> 0 < lr_cut.
Proof. destruct f; simpl; intros [= <- <-] || discriminate; lia. Qed.

(** The three slices of [top ++ fc] at [lr_cut] and at [len(fc)] from the
    end. *)
Lemma split_model {A} (top fc : list A) (lr_cut : Z) :
  0 <= lr_cut -> fc <> [] ->
  split_by_idxs (top ++ fc) [lr_cut; - Z.of_nat (length fc)] =
    [take (Z.to_nat lr_cut) (top ++ fc); drop (Z.to_nat lr_cut) top; fc].
Proof.
  intros Hlr Hfc.
  assert (0 < length fc)%nat as Hn by (destruct fc; [contradiction|simpl; lia]).
  unfold split_by_idxs, split_from, py_slice, py_slice_from.
  rewrite (py_clamp_nonneg _ 0) by lia.
  rewrite (py_clamp_nonneg _ lr_cut) by lia.
  rewrite py_clamp_from_end by (rewrite length_app; lia).
  rewrite length_app.
  replace (length top + length fc - length fc)%nat with (length top) by lia.
  change (Z.to_nat 0) with 0%nat. cbn [Nat.min drop].
  rewrite take_app_length, drop_app_length.
  f_equal; [|f_equal].
  - destruct (Nat.min_spec (Z.to_nat lr_cut) (length top + length fc))
      as [[_ ->]|[Hge ->]]; [apply drop_0|].
    rewrite <- length_app, firstn_all, drop_0. symmetry. apply take_ge.
    rewrite length_app. lia.
  - destruct (Nat.min_spec (Z.to_nat lr_cut) (length top + length fc))
      as [[_ ->]|[Hge ->]]; [reflexivity|].
    rewrite !drop_ge by lia. reflexivity.
Qed.

Lemma split_whole {A} (seq : list A) : split_by_idxs seq [] = [seq].
Proof.
  unfold split_by_idxs, split_from, py_slice_from.
  rewrite py_clamp_nonneg by lia. reflexivity.
Qed.

(** What the builder leaves in its attributes. *)
Lemma init_shape f c is_multi is_reg ps xtra_fc xtra_cut b :
  ConvnetBuilder.init f c is_multi is_reg ps xtra_fc xtra_cut = Ok b ->
  ConvnetBuilder.model b = ConvnetBuilder.top_model b ++ ConvnetBuilder.fc_model b /\
  ConvnetBuilder.n_fc b = Z.of_nat (length (ConvnetBuilder.fc_model b)) /\
  ConvnetBuilder.fc_model b <> [] /\
  0 < ConvnetBuilder.lr_cut b /\
  (forall i m, ConvnetBuilder.model b !! i = Some m -> oid m = i).
Proof.
  intros Hb.
  destruct (model_meta f) as [[cut lr_cut]|] eqn:Hmeta.
  2:{ unfold ConvnetBuilder.init in Hb. rewrite Hmeta in Hb. discriminate. }
  rewrite (init_spec _ _ _ _ _ _ _ _ _ Hmeta) in Hb.
  destruct (ps_covers _ _) eqn:Hc; [|discriminate].
  injection Hb as <-.
  cbn [ConvnetBuilder.model ConvnetBuilder.top_model ConvnetBuilder.fc_model
       ConvnetBuilder.n_fc ConvnetBuilder.lr_cut].
  destruct (head_spec_first (feature_width f (cut - xtra_cut)) _ _
              is_multi is_reg c Hc) as [rest Hrest].
  split; [reflexivity|]. split; [rewrite length_objects; reflexivity|].
  split; [rewrite Hrest, objects_cons; discriminate|].
  split; [eapply model_meta_lr_cut; eassumption|].
  intros i m Hm. apply lookup_app_Some in Hm as [Hm|[Hge Hm]].
  - apply objects_lookup in Hm. exact Hm.
  - apply objects_lookup in Hm. rewrite Hm. lia.
Qed.

Lemma builder_layer_groups f c is_multi is_reg ps xtra_fc xtra_cut b :
  ConvnetBuilder.init f c is_multi is_reg ps xtra_fc xtra_cut = Ok b ->
  ConvnetBuilder.get_layer_groups b true = [ConvnetBuilder.fc_model b] /\
  ConvnetBuilder.get_layer_groups b false =
    [take (Z.to_nat (ConvnetBuilder.lr_cut b)) (ConvnetBuilder.model b);
     drop (Z.to_nat (ConvnetBuilder.lr_cut b)) (ConvnetBuilder.top_model b);
     ConvnetBuilder.fc_model b].
Proof.
  intros Hb. destruct (init_shape _ _ _ _ _ _ _ _ Hb) as (Hm & Hn & Hne & Hlr & _).
  unfold ConvnetBuilder.get_layer_groups, children. split.
  - apply split_whole.
  - rewrite Hm, Hn. apply split_model; [lia|exact Hne].
Qed.

(** ** More on the builder *)

Lemma xtra_fc_or_default_nonempty (xtra_fc : option (list Z)) :
  ConvnetBuilder.xtra_fc_or_default xtra_fc <> [].
Proof. destruct xtra_fc as [[|x l]|]; discriminate. Qed.

Lemma ps_or_default_not_none ps : ConvnetBuilder.ps_or_default ps <> PsNone.
Proof.
  unfold ConvnetBuilder.ps_or_default.
  destruct ps as [|p|l]; simpl; [discriminate| |].
  - destruct (num_truthy p); discriminate.
  - destruct l; discriminate.
Qed.

Lemma head_width_block ni nf p actn rest :
  head_width ni (block_spec ni nf p actn ++ rest) = head_width nf rest.
Proof.
  unfold block_spec. destruct (num_truthy p), actn; cbn [app head_width];
    rewrite !Z.eqb_refl; reflexivity.
Qed.

Lemma head_width_hidden ni xtra_fc ps rest :
  (length xtra_fc <= length ps)%nat ->
  head_width ni (hidden_blocks ni xtra_fc ps ++ rest) =
    head_width (List.last xtra_fc ni) rest.
Proof.
  revert ni ps. induction xtra_fc as [|nf xfc IH]; intros ni ps Hlen.
  - reflexivity.
  - destruct ps as [|p ps]; [simpl in Hlen; lia|].
    cbn [hidden_blocks]. rewrite <- app_assoc, head_width_block.
    rewrite IH by (simpl in Hlen; lia). rewrite last_cons. reflexivity.
Qed.

(** What [init_spec] gives for a model that was built. *)
Lemma init_inv f c is_multi is_reg ps xtra_fc xtra_cut b :
  ConvnetBuilder.init f c is_multi is_reg ps xtra_fc xtra_cut = Ok b ->
  exists cut,
    model_meta f = Some (cut, ConvnetBuilder.lr_cut b) /\
    ps_covers (ConvnetBuilder.ps b) (ConvnetBuilder.xtra_fc b) = true /\
    ConvnetBuilder.c b = c /\
    ConvnetBuilder.is_multi b = is_multi /\ ConvnetBuilder.is_reg b = is_reg /\
    ConvnetBuilder.top_model b =
      objects 0 ((Pretrained <$> cut_model (pretrained f) (cut - xtra_cut))
                   ++ [AdaptiveConcatPool2d; Flatten]) /\
    ConvnetBuilder.fc_model b =
      objects (length (ConvnetBuilder.top_model b))
        (head_spec (ConvnetBuilder.nf b) (ConvnetBuilder.xtra_fc b)
           (ConvnetBuilder.ps b) is_multi is_reg c).
Proof.
  intros Hb.
  destruct (model_meta f) as [[cut lr_cut]|] eqn:Hmeta.
  2:{ unfold ConvnetBuilder.init in Hb. rewrite Hmeta in Hb. discriminate. }
  rewrite (init_spec _ _ _ _ _ _ _ _ _ Hmeta) in Hb.
  destruct (ps_covers _ _) eqn:Hc; [|discriminate].
  injection Hb as <-. exists cut. cbn.
  repeat split; assumption.
Qed.

(** X2. The widths of a head fit: fed with the builder's [nf], every
    batch-norm and every linear layer of the head receives exactly the width
    it was made for, and the head delivers [c] outputs. *)
Theorem head_widths_fit f c is_multi is_reg ps xtra_fc xtra_cut b :
  ConvnetBuilder.init f c is_multi is_reg ps xtra_fc xtra_cut = Ok b ->
  head_width (ConvnetBuilder.nf b) (kind <$> ConvnetBuilder.fc_model b) = Some c.
Proof.
  intros Hb. destruct (init_inv _ _ _ _ _ _ _ _ Hb)
    as (cut & _ & Hc & _ & _ & _ & _ & ->).
  rewrite kind_objects. unfold head_spec.
  apply andb_true_iff in Hc as [Hlen _]. apply bool_decide_eq_true in Hlen.
  rewrite head_width_hidden by exact Hlen.
  rewrite <- (app_nil_r (block_spec _ _ _ _)), head_width_block. reflexivity.
Qed.

Lemma hidden_blocks_dropout ni xtra_fc ps p :
  Dropout p ∈ hidden_blocks ni xtra_fc ps -> num_truthy p = true /\ p ∈ ps.
Proof.
  revert ni ps. induction xtra_fc as [|nf xfc IH]; intros ni ps Hin.
  - apply elem_of_nil in Hin. contradiction.
  - destruct ps as [|q ps]; [apply elem_of_nil in Hin; contradiction|].
    cbn [hidden_blocks] in Hin. apply elem_of_app in Hin as [Hin|Hin].
    + unfold block_spec in Hin. destruct (num_truthy q) eqn:Hq; cbn [app] in Hin.
      * repeat (apply elem_of_cons in Hin as [Hin|Hin]; [try discriminate Hin|]).
        -- injection Hin as ->. split; [exact Hq|left].
        -- apply elem_of_nil in Hin. contradiction.
      * repeat (apply elem_of_cons in Hin as [Hin|Hin]; [discriminate Hin|]).
        apply elem_of_nil in Hin. contradiction.
    + destruct (IH _ _ Hin) as [Ht Hp]. split; [exact Ht|right; exact Hp].
Qed.

Lemma last_elem_of {A} (l : list A) (d : A) : l <> [] -> List.last l d ∈ l.
Proof.
  intros Hne. destruct (exists_last Hne) as [l' [x ->]].
  rewrite List.last_last. apply elem_of_app. right. left.
Qed.

(** X3. The dropout layers of a head: each has a rate that is not zero and
    that is one of the builder's rates; and the head holds no layer of the
    backbone and no adapter. *)
Theorem head_dropouts f c is_multi is_reg ps xtra_fc xtra_cut b :
  ConvnetBuilder.init f c is_multi is_reg ps xtra_fc xtra_cut = Ok b ->
  forall l, l ∈ kind <$> ConvnetBuilder.fc_model b ->
    match l with
    | Dropout p => num_truthy p = true /\ p ∈ ConvnetBuilder.ps b
    | Pretrained _ | AdaptiveConcatPool2d | Flatten => False
    | _ => True
    end.
Proof.
  intros Hb l Hin. destruct (init_inv _ _ _ _ _ _ _ _ Hb)
    as (cut & _ & Hc & _ & _ & _ & _ & Hfc).
  rewrite Hfc, kind_objects in Hin. unfold head_spec in Hin.
  apply andb_true_iff in Hc as [_ Hne]. apply bool_decide_eq_true in Hne.
  assert (Hhid : forall ni xfc ps', l ∈ hidden_blocks ni xfc ps' ->
            match l with
            | Pretrained _ | AdaptiveConcatPool2d | Flatten => False
            | _ => True
            end).
  { intros ni xfc. revert ni. induction xfc as [|nf xfc IH]; intros ni ps' Hl.
    - apply elem_of_nil in Hl. contradiction.
    - destruct ps' as [|q ps']; [apply elem_of_nil in Hl; contradiction|].
      cbn [hidden_blocks] in Hl.
      apply elem_of_app in Hl as [Hl|Hl]; [|exact (IH _ _ Hl)].
      unfold block_spec in Hl. destruct (num_truthy q); cbn [app] in Hl;
        repeat (apply elem_of_cons in Hl as [Heq|Hl]; [rewrite Heq; exact I|]);
        apply elem_of_nil in Hl; contradiction. }
  apply elem_of_app in Hin as [Hin|Hin].
  - destruct l; try exact I; try (exact (Hhid _ _ _ Hin)).
    eapply hidden_blocks_dropout. exact Hin.
  - unfold block_spec in Hin.
    destruct (num_truthy (List.last (ConvnetBuilder.ps b) (Int 0))) eqn:Hq;
      destruct (final_activation is_multi is_reg); cbn [app] in Hin;
      repeat (apply elem_of_cons in Hin as [Heq|Hin];
              [rewrite Heq;
               first [exact I | split; [exact Hq|apply last_elem_of, Hne]]|]);
      apply elem_of_nil in Hin; contradiction.
Qed.

(** ** The arguments of the layer constructors *)

Lemma block_spec_accepted ni nf p actn :
  0 < ni -> 0 < nf -> rate_accepted p = true ->
  Forall (fun l => layer_accepted l = true) (block_spec ni nf p actn).
Proof.
  intros Hni Hnf Hp. unfold block_spec.
  assert (Hb : layer_accepted (BatchNorm1d ni) = true) by (apply Z.ltb_lt, Hni).
  assert (Hl : layer_accepted (Linear ni nf) = true).
  { cbn. apply andb_true_iff. split; apply Z.ltb_lt; assumption. }
  destruct (num_truthy p), actn; cbn [app];
    repeat (apply Forall_cons_2; [first [exact Hb | exact Hl | exact Hp | reflexivity]|]);
    apply Forall_nil_2.
Qed.

Lemma hidden_blocks_accepted ni xtra_fc ps :
  0 < ni -> Forall (fun n => 0 < n) xtra_fc ->
  Forall (fun p => rate_accepted p = true) ps ->
  Forall (fun l => layer_accepted l = true) (hidden_blocks ni xtra_fc ps).
Proof.
  revert ni ps. induction xtra_fc as [|nf xfc IH]; intros ni ps Hni Hx Hps.
  - apply Forall_nil_2.
  - destruct ps as [|p ps]; [apply Forall_nil_2|].
    cbn [hidden_blocks]. apply Forall_cons_1 in Hx as [Hnf Hx].
    apply Forall_cons_1 in Hps as [Hp Hps].
    apply Forall_app. split.
    + apply block_spec_accepted; assumption.
    + apply IH; assumption.
Qed.

Lemma last_positive (l : list Z) d :
  0 < d -> Forall (fun n => 0 < n) l -> 0 < List.last l d.
Proof.
  intros Hd Hl. destruct (decide (l = [])) as [->|Hne]; [exact Hd|].
  pose proof (last_elem_of l d Hne) as Hin.
  rewrite Forall_forall in Hl. apply Hl, Hin.
Qed.

Lemma last_accepted (l : list num) :
  Forall (fun p => rate_accepted p = true) l ->
  rate_accepted (List.last l (Int 0)) = true.
Proof.
  intros Hl. destruct (decide (l = [])) as [->|Hne]; [reflexivity|].
  pose proof (last_elem_of l (Int 0) Hne) as Hin.
  rewrite Forall_forall in Hl. apply Hl, Hin.
Qed.

Lemma head_spec_accepted nf xtra_fc ps is_multi is_reg c :
  0 < nf -> 0 < c -> Forall (fun n => 0 < n) xtra_fc ->
  Forall (fun p => rate_accepted p = true) ps ->
  Forall (fun l => layer_accepted l = true)
         (head_spec nf xtra_fc ps is_multi is_reg c).
Proof.
  intros Hnf Hc Hx Hps. unfold head_spec. apply Forall_app. split.
  - apply hidden_blocks_accepted; assumption.
  - apply block_spec_accepted; [apply last_positive; assumption|exact Hc|].
    apply last_accepted, Hps.
Qed.

Lemma broadcast_accepted ps n :
  ps_accepted ps = true ->
  Forall (fun p => rate_accepted p = true)
    (ConvnetBuilder.broadcast_ps (ConvnetBuilder.ps_or_default ps) n).
Proof.
  intros Hps. unfold ConvnetBuilder.ps_or_default.
  destruct (ps_truthy ps).
  - destruct ps as [|p|l]; cbn [ConvnetBuilder.broadcast_ps].
    + apply Forall_nil_2.
    + apply Forall_replicate. exact Hps.
    + apply Forall_forall. intros p Hin. cbn in Hps.
      rewrite forallb_forall in Hps. apply Hps. apply list_elem_of_In, Hin.
  - cbn [ConvnetBuilder.broadcast_ps].
    repeat (apply Forall_cons_2; [reflexivity|]). apply Forall_nil_2.
Qed.

(** X1. How the builder fails.  Take [ps] that is [None], a number or a
    list of numbers, and arguments that the framework's layer constructors
    take: rates that [nn.Dropout] accepts and positive widths.  Then the
    builder raises [KeyError] exactly on an architecture outside
    [model_meta], and [IndexError] exactly on a registered one whose rates,
    after [ps or [0.25, 0.5]], are a list with fewer entries than there are
    hidden layers; otherwise it builds the model, and every layer of the head
    was made with arguments its constructor takes.  So an accepted non-zero
    scalar rate never fails on a registered architecture, while the default
    rates fail as soon as three hidden layers are asked for. *)
Theorem builder_errors f c is_multi is_reg ps xtra_fc xtra_cut :
  let hidden := ConvnetBuilder.xtra_fc_or_default xtra_fc in
  let short := exists l, ConvnetBuilder.ps_or_default ps = PsList l /\
                         (length l < length hidden)%nat in
  ps_accepted ps = true ->
  0 < c ->
  Forall (fun n => 0 < n) hidden ->
  (forall cut lr_cut, model_meta f = Some (cut, lr_cut) ->
     0 < feature_width f (cut - xtra_cut)) ->
  (forall e,
     ConvnetBuilder.init f c is_multi is_reg ps xtra_fc xtra_cut = Raise e <->
     (e = KeyError /\ model_meta f = None) \/
     (e = IndexError /\ model_meta f <> None /\ short)) /\
  (forall b,
     ConvnetBuilder.init f c is_multi is_reg ps xtra_fc xtra_cut = Ok b ->
     model_meta f <> None /\ ~ short /\
     Forall (fun l => layer_accepted l = true)
            (kind <$> ConvnetBuilder.fc_model b)) /\
  (forall p, ps = PsScalar p -> num_truthy p = true -> model_meta f <> None ->
     exists b, ConvnetBuilder.init f c is_multi is_reg ps xtra_fc xtra_cut = Ok b /\
               ConvnetBuilder.ps b = replicate (length hidden + 1) p) /\
  (ps_truthy ps = false -> (3 <= length hidden)%nat -> model_meta f <> None ->
     ConvnetBuilder.init f c is_multi is_reg ps xtra_fc xtra_cut = Raise IndexError).
Proof.
  intros hidden short Hrates Hc Hhidden Hnf.
  assert (Hcov : model_meta f <> None ->
            ps_covers (ConvnetBuilder.broadcast_ps (ConvnetBuilder.ps_or_default ps)
                         (length hidden + 1)) hidden = false <-> short).
  { intros _. unfold short.
    pose proof (xtra_fc_or_default_nonempty xtra_fc) as Hne. fold hidden in Hne.
    pose proof (ps_or_default_not_none ps) as Hnn.
    destruct (ConvnetBuilder.ps_or_default ps) as [|p|l]; [contradiction| |].
    - cbn [ConvnetBuilder.broadcast_ps]. rewrite ps_covers_scalar.
      split; [discriminate|]. intros (l & Hl & _). discriminate.
    - cbn [ConvnetBuilder.broadcast_ps]. unfold ps_covers. split.
      + intros Hf. exists l. split; [reflexivity|].
        apply andb_false_iff in Hf as [Hf|Hf]; apply bool_decide_eq_false in Hf.
        * lia.
        * assert (l = []) as -> by (destruct l; [reflexivity|exfalso; apply Hf; discriminate]).
          destruct hidden; [contradiction|simpl; lia].
      + intros (l' & [= <-] & Hlt). apply andb_false_iff. left.
        apply bool_decide_eq_false. lia. }
  split; [|split; [|split]].
  - intros e. destruct (model_meta f) as [[cut lr_cut]|] eqn:Hmeta.
    + rewrite (init_spec _ _ _ _ _ _ _ _ _ Hmeta). fold hidden.
      specialize (Hcov ltac:(discriminate)).
      destruct (ps_covers _ _) eqn:Hcv.
      * split; [discriminate|].
        intros [[_ Hno]|(_ & _ & Hs)]; [discriminate|].
        apply Hcov in Hs. discriminate.
      * split.
        -- intros [= <-]. right. split; [reflexivity|]. split; [discriminate|].
           apply Hcov. reflexivity.
        -- intros [[_ Hno]|(-> & _ & _)]; [discriminate|reflexivity].
    + unfold ConvnetBuilder.init. rewrite Hmeta. split.
      * intros [= <-]. left. split; reflexivity.
      * intros [[-> _]|(_ & Hyes & _)]; [reflexivity|contradiction].
  - intros b Hb. destruct (model_meta f) as [[cut lr_cut]|] eqn:Hmeta.
    2:{ unfold ConvnetBuilder.init in Hb. rewrite Hmeta in Hb. discriminate. }
    split; [discriminate|].
    rewrite (init_spec _ _ _ _ _ _ _ _ _ Hmeta) in Hb. fold hidden in Hb.
    specialize (Hcov ltac:(discriminate)).
    destruct (ps_covers _ _) eqn:Hcv; [|discriminate].
    split; [intros Hs; apply Hcov in Hs; discriminate|].
    injection Hb as <-. cbn [ConvnetBuilder.fc_model]. rewrite kind_objects.
    apply head_spec_accepted; try assumption.
    + eapply Hnf. reflexivity.
    + apply broadcast_accepted, Hrates.
  - intros p -> Hp Hreg.
    destruct (model_meta f) as [[cut lr_cut]|] eqn:Hmeta; [|contradiction].
    rewrite (init_spec _ _ _ _ _ _ _ _ _ Hmeta). fold hidden.
    unfold ConvnetBuilder.ps_or_default. cbn [ps_truthy]. rewrite Hp.
    cbn [ConvnetBuilder.broadcast_ps]. rewrite ps_covers_scalar.
    eexists. split; reflexivity.
  - intros Hps Hlen Hreg.
    destruct (model_meta f) as [[cut lr_cut]|] eqn:Hmeta; [|contradiction].
    rewrite (init_spec _ _ _ _ _ _ _ _ _ Hmeta). fold hidden.
    rewrite (ps_or_default_falsy _ Hps). cbn [ConvnetBuilder.broadcast_ps].
    unfold ps_covers. rewrite bool_decide_eq_false_2 by (simpl; lia). reflexivity.
Qed.

(** X4. The three groups of the full model put every layer in exactly one
    group, in order, exactly when [lr_cut] is at most the number of layers
    before the head; past that the first group has taken head layers that
    the third group holds again: the first layer of the head sits in the
    first group and in the third. *)
Theorem layer_groups_cover f c is_multi is_reg ps xtra_fc xtra_cut b :
  ConvnetBuilder.init f c is_multi is_reg ps xtra_fc xtra_cut = Ok b ->
  (concat (ConvnetBuilder.get_layer_groups b false) = ConvnetBuilder.model b <->
   ConvnetBuilder.lr_cut b <= Z.of_nat (length (ConvnetBuilder.top_model b))) /\
  (Z.of_nat (length (ConvnetBuilder.top_model b)) < ConvnetBuilder.lr_cut b ->
   exists g1 g2 m,
     ConvnetBuilder.get_layer_groups b false = [g1; g2; ConvnetBuilder.fc_model b] /\
     ConvnetBuilder.fc_model b !! 0%nat = Some m /\
     m ∈ g1 /\ m ∈ ConvnetBuilder.fc_model b).
Proof.
  intros Hb.
  destruct (builder_layer_groups _ _ _ _ _ _ _ _ Hb) as [_ ->].
  destruct (init_shape _ _ _ _ _ _ _ _ Hb) as (Hm & _ & Hne & Hlr & _).
  set (k := Z.to_nat (ConvnetBuilder.lr_cut b)).
  set (top := ConvnetBuilder.top_model b) in *.
  set (fc := ConvnetBuilder.fc_model b) in *.
  rewrite Hm. split.
  - cbn [concat]. rewrite app_nil_r. split.
    + intros Heq. apply (f_equal length) in Heq.
      rewrite !length_app, length_take, length_drop, length_app in Heq.
      assert (0 < length fc)%nat by (destruct fc; [contradiction|simpl; lia]).
      lia.
    + intros Hle. rewrite take_app_le by lia.
      rewrite app_assoc, take_drop. reflexivity.
  - intros Hgt. destruct fc as [|m rest] eqn:Hfc; [contradiction|].
    exists (take k (top ++ m :: rest)), (drop k top), m.
    split; [reflexivity|]. split; [reflexivity|]. split; [|left].
    apply list_elem_of_lookup. exists (length top).
    rewrite lookup_take_lt by lia. rewrite lookup_app_r by lia.
    rewrite Nat.sub_diag. reflexivity.
Qed.


End BuilderProperties.





(** * Properties *)

Section Properties.
Context `{Runtime}.

Import ConvLearner.

(** ** Statements and what they leave alone *)

Lemma keeps_ret {A} (R : world -> world -> Prop) `{!Reflexive R} (a : A) :
  keeps R (ret a).
Proof. intros w. reflexivity. Qed.

Lemma keeps_raise {A} (R : world -> world -> Prop) `{!Reflexive R} e :
  keeps R (raise e : M A).
Proof. intros w. reflexivity. Qed.

Lemma keeps_lift {A} (R : world -> world -> Prop) `{!Reflexive R} (r : result A) :
  keeps R (lift r).
Proof. intros w. reflexivity. Qed.

Lemma keeps_gets {A} (R : world -> world -> Prop) `{!Reflexive R} (g : world -> A) :
  keeps R (gets g).
Proof. intros w. reflexivity. Qed.

Lemma keeps_modify (R : world -> world -> Prop) (g : world -> world) :
  (forall w, R w (g w)) -> keeps R (modify g).
Proof. intros Hg w. apply Hg. Qed.

Lemma keeps_bind {A B} (R : world -> world -> Prop) `{!Transitive R}
    (m : M A) (k : A -> M B) :
  keeps R m -> (forall a, keeps R (k a)) -> keeps R (bind m k).
Proof.
  intros Hm Hk w. unfold bind. specialize (Hm w).
  destruct (m w) as [[a|e] w']; simpl in *; [|exact Hm].
  etransitivity; [exact Hm|apply Hk].
Qed.

Lemma keeps_mapM {A B} (R : world -> world -> Prop)
    `{!Reflexive R} `{!Transitive R} (g : A -> M B) (l : list A) :
  (forall a, keeps R (g a)) -> keeps R (mapM g l).
Proof.
  intros Hg. induction l as [|a l IH]; simpl.
  - apply keeps_ret; assumption.
  - apply keeps_bind; [assumption|apply Hg|]. intros b.
    apply keeps_bind; [assumption|exact IH|]. intros bs'.
    apply keeps_ret; assumption.
Qed.

#[local] Instance same_config_refl : Reflexive same_config.
Proof. intros w. repeat split. Qed.

#[local] Instance same_config_trans : Transitive same_config.
Proof.
  intros w1 w2 w3 (?&?&?&?&?&?&?) (?&?&?&?&?&?&?).
  repeat split; congruence.
Qed.

#[local] Instance same_cache_refl : Reflexive same_cache.
Proof. intros w. split; reflexivity. Qed.

#[local] Instance same_cache_trans : Transitive same_cache.
Proof. intros w1 w2 w3 [? ?] [? ?]. split; congruence. Qed.

Ltac keeps_step :=
  first
    [ apply keeps_ret; tc_solve
    | apply keeps_raise; tc_solve
    | apply keeps_lift; tc_solve
    | apply keeps_gets; tc_solve
    | apply keeps_mapM; [tc_solve|tc_solve|intros ?]
    | apply keeps_bind; [tc_solve| |intros ?]
    | apply keeps_modify; intros ?; repeat split ].

Lemma get_data_config : keeps same_config get_data.
Proof. intros w. reflexivity. Qed.

Lemma get_data_cache : keeps same_cache get_data.
Proof. intros w. reflexivity. Qed.

Lemma get_data_state w : snd (get_data w) = w.
Proof. reflexivity. Qed.

Lemma bcolz_open_state p w : snd (bcolz_open p w) = w.
Proof. unfold bcolz_open. destruct (disk w !! p); reflexivity. Qed.

Lemma carray_len_state p w : snd (carray_len p w) = w.
Proof. unfold carray_len. destruct (disk w !! p); reflexivity. Qed.

Lemma get_activations_config force : keeps same_config (get_activations force).
Proof.
  unfold get_activations.
  keeps_step; [apply get_data_config|].
  do 3 (keeps_step; [keeps_step|]).
  destruct (_ && _).
  - keeps_step; [|keeps_step].
    keeps_step. intros w. rewrite bcolz_open_state. reflexivity.
  - keeps_step; [|keeps_step].
    keeps_step. unfold create_empty_bcolz.
    keeps_step; keeps_step.
Qed.

Lemma predict_to_bcolz_config m gen arr :
  keeps same_config (predict_to_bcolz m gen arr).
Proof. unfold predict_to_bcolz. keeps_step. Qed.

Lemma save_fc1_config : keeps same_config save_fc1.
Proof.
  unfold save_fc1.
  keeps_step; [apply get_activations_config|].
  keeps_step.
  { intros w. unfold get_activations_attr.
    destruct (activations (self w)); reflexivity. }
  keeps_step; [keeps_step|].
  destruct a1 as [[act val_act] test_act].
  keeps_step; [keeps_step|].
  keeps_step.
  { intros w. rewrite carray_len_state. reflexivity. }
  keeps_step.
  - destruct (_ =? _); [|keeps_step].
    keeps_step; [keeps_step|].
    keeps_step; [apply get_data_config|].
    keeps_step; [apply predict_to_bcolz_config|].
    keeps_step; [apply get_data_config|].
    keeps_step; [apply predict_to_bcolz_config|].
    keeps_step; [apply get_data_config|].
    destruct (Data.test_dl _); [apply predict_to_bcolz_config|keeps_step].
  - keeps_step; [apply get_data_config|]. keeps_step.
Qed.

Lemma freeze_to_cache n : keeps same_cache (freeze_to n).
Proof. intros w. split; reflexivity. Qed.

Lemma freeze_to_self n w : self (snd (freeze_to n w)) = self w.
Proof. reflexivity. Qed.

Lemma freeze_to_ok n w : fst (freeze_to n w) = Ok tt.
Proof. reflexivity. Qed.

(** ** The constructor, statement by statement *)

Lemma run_body_ok st body w w' :
  st w = (Ok tt, w') ->
  run_body (st :: body) w =
    let '(tr, r) := run_body body w' in (w' :: tr, r).
Proof. intros E. simpl. rewrite E. reflexivity. Qed.

Lemma run_body_raise st body w e w' :
  st w = (Raise e, w') -> run_body (st :: body) w = ([w'], Raise e).
Proof. intros E. simpl. rewrite E. reflexivity. Qed.

Lemma init_trace_eq ds bld pc kw disk0 flags0 log0 :
  let w0 := start ds bld kw disk0 flags0 log0 in
  let w1 := after_crit ds w0 in
  let w2 := after_metrics ds w1 in
  init_trace ds bld pc kw disk0 flags0 log0 =
    match (if pc then save_fc1 else ret tt) w2 with
    | (Ok _, w3) =>
        let w4 := snd (freeze w3) in
        ([w0; w1; w2; w3; w4; with_self (set_precompute pc) w4], Ok tt)
    | (Raise e, w3) => ([w0; w1; w2; w3], Raise e)
    end.
Proof.
  intros w0 w1 w2. unfold init_trace. fold (start ds bld kw disk0 flags0 log0). fold w0.
  unfold init_body.
  rewrite (run_body_ok _ _ w0 w1) by reflexivity.
  rewrite (run_body_ok _ _ w1 w2).
  2:{ unfold w2, after_metrics. destruct (Data.is_reg ds); [reflexivity|].
      unfold bind, gets. simpl. destruct kw; reflexivity. }
  destruct ((if pc then save_fc1 else ret tt) w2) as [[[]|e] w3] eqn:E.
  - rewrite (run_body_ok _ _ w2 w3) by exact E.
    rewrite (run_body_ok _ _ w3 (snd (freeze w3))) by reflexivity.
    reflexivity.
  - rewrite (run_body_raise _ _ w2 e w3) by exact E. reflexivity.
Qed.

(** Without [precompute] nothing in the constructor can raise. *)
Lemma init_trace_plain ds bld kw disk0 flags0 log0 :
  let w2 := after_metrics ds (after_crit ds (start ds bld kw disk0 flags0 log0)) in
  init_trace ds bld false kw disk0 flags0 log0 =
    ([start ds bld kw disk0 flags0 log0; after_crit ds (start ds bld kw disk0 flags0 log0);
      w2; w2; snd (freeze w2);
      with_self (set_precompute false) (snd (freeze w2))], Ok tt).
Proof. intros w2. rewrite init_trace_eq. reflexivity. Qed.

Lemma after_metrics_crit ds w :
  crit (self (after_metrics ds w)) =
    if Data.is_reg ds then Some l1_loss else crit (self w).
Proof.
  unfold after_metrics. destruct (Data.is_reg ds); [reflexivity|].
  destruct (metrics (self w)); reflexivity.
Qed.

Lemma after_metrics_metrics ds w :
  metrics (self (after_metrics ds w)) =
    if Data.is_reg ds then metrics (self w)
    else match metrics (self w) with
         | None => Some (if Data.is_multi ds then [accuracy_multi]
                         else [accuracy])
         | Some m => Some m
         end.
Proof.
  unfold after_metrics. destruct (Data.is_reg ds); [reflexivity|].
  destruct (metrics (self w)) eqn:E; simpl; [exact E|reflexivity].
Qed.

(** The state the constructor leaves has the configuration of the state
    after line 84, but for the [precompute] flag. *)
Lemma init_final_config ds bld pc kw disk0 flags0 log0 :
  let w2 := after_metrics ds (after_crit ds (start ds bld kw disk0 flags0 log0)) in
  let wf := snd (init ds bld pc kw disk0 flags0 log0) in
  data_ (self wf) = data_ (self w2) /\
  models (self wf) = models (self w2) /\
  metrics (self wf) = metrics (self w2) /\
  crit (self wf) = crit (self w2).
Proof.
  intros w2 wf. unfold wf, init. rewrite init_trace_eq. fold w2.
  destruct pc.
  - pose proof (save_fc1_config w2) as (?&?&?&?&?&?&?).
    destruct (save_fc1 w2) as [[[]|e] w3]; simpl in *; repeat split; assumption.
  - simpl. repeat split.
Qed.

(** ** C2: the loss *)

(** C2. Whatever the dataset, the model, the [precompute] argument and the
    metrics, the constructor leaves [crit] set to the L1 loss for a
    regression dataset (also when it is multi-label as well), else to
    binary cross-entropy for a multi-label dataset, else to the negative
    log-likelihood. *)
Theorem init_crit (ds : Data.t) (bld : ConvnetBuilder.t) (pc : bool)
    (kw : option (list metric)) (disk0 : gmap string carray)
    (flags0 : gmap nat bool) (log0 : list string) :
  crit (self (snd (init ds bld pc kw disk0 flags0 log0))) =
    Some (if Data.is_reg ds then l1_loss
          else if Data.is_multi ds then binary_cross_entropy
          else nll_loss).
Proof.
  destruct (init_final_config ds bld pc kw disk0 flags0 log0) as (_ & _ & _ & ->).
  rewrite after_metrics_crit. simpl.
  destruct (Data.is_reg ds), (Data.is_multi ds); reflexivity.
Qed.

(** ** C3: the default metric *)

(** C3 (as amended). The constructor keeps the metrics it is given; when
    none is given it installs multi-label accuracy for a multi-label
    dataset and plain accuracy otherwise, unless the dataset is a
    regression task, where [metrics] stays [None]. *)
Theorem init_metrics (ds : Data.t) (bld : ConvnetBuilder.t) (pc : bool)
    (kw : option (list metric)) (disk0 : gmap string carray)
    (flags0 : gmap nat bool) (log0 : list string) :
  metrics (self (snd (init ds bld pc kw disk0 flags0 log0))) =
    match kw with
    | Some m => Some m
    | None => if Data.is_reg ds then None
              else Some (if Data.is_multi ds then [accuracy_multi]
                         else [accuracy])
    end.
Proof.
  destruct (init_final_config ds bld pc kw disk0 flags0 log0) as (_ & _ & -> & _).
  rewrite after_metrics_metrics. simpl.
  destruct kw, (Data.is_reg ds); reflexivity.
Qed.

(** ** C6: the [precompute] flag and the two properties *)

(** C6. With the flag set, [model] is the head and [data] is the [fc_data]
    attribute (the cached-activation dataset; reading it before any has
    been built is an [AttributeError]); with the flag cleared they are the
    full model and the original dataset.  Assigning the flag changes no
    other attribute, no array, no [trainable] flag, and reading either
    property changes nothing at all. *)
Theorem precompute_toggle (w : world) (b : bool) :
  let s := self w in
  let w' := snd (modify (with_self (set_precompute b)) w) in
  model (set_precompute true s) = ConvnetBuilder.fc_model (models s) /\
  model (set_precompute false s) = ConvnetBuilder.model (models s) /\
  data (set_precompute true s) =
    match fc_data s with Some d => Ok d | None => Raise AttributeError end /\
  data (set_precompute false s) = Ok (data_ s) /\
  precompute (self w') = b /\
  models (self w') = models s /\
  data_ (self w') = data_ s /\
  fc_data (self w') = fc_data s /\
  metrics (self w') = metrics s /\ crit (self w') = crit s /\
  tmp_path (self w') = tmp_path s /\ activations (self w') = activations s /\
  disk w' = disk w /\ trainable w' = trainable w /\
  predicted w' = predicted w /\
  snd (get_data w) = w /\
  fst (get_data w) = data s.
Proof. repeat split. Qed.

(** ** C5: the layer groups of the builder and of the learner *)

(** C5 (as amended). For a model the builder assembled,
    [get_layer_groups(True)] is one group, the children of the head, and
    [get_layer_groups(False)] is exactly three groups of which the last is
    the head; when [lr_cut] does not exceed the number of layers before the
    head (backbone and adapters), the first two groups are those layers
    before and from index [lr_cut].  The learner asks the builder with its
    [precompute] flag. *)
Theorem layer_groups_partition f c is_multi is_reg ps xtra_fc xtra_cut
    (b : ConvnetBuilder.t) :
  ConvnetBuilder.init f c is_multi is_reg ps xtra_fc xtra_cut = Ok b ->
  let top := ConvnetBuilder.top_model b in
  let fc := ConvnetBuilder.fc_model b in
  let k := Z.to_nat (ConvnetBuilder.lr_cut b) in
  ConvnetBuilder.get_layer_groups b true = [fc] /\
  (exists g1 g2,
     ConvnetBuilder.get_layer_groups b false = [g1; g2; fc] /\
     (ConvnetBuilder.lr_cut b <= Z.of_nat (length top) ->
      g1 = take k top /\ g2 = drop k top /\ g1 ++ g2 = top)) /\
  (forall s : t,
     models s = b ->
     get_layer_groups s = ConvnetBuilder.get_layer_groups b (precompute s)).
Proof.
  intros Hb top fc k.
  destruct (builder_layer_groups _ _ _ _ _ _ _ _ Hb) as [Hfc Hfull].
  destruct (init_shape _ _ _ _ _ _ _ _ Hb) as (Hm & _ & _ & Hlr & _).
  split; [exact Hfc|]. split.
  - eexists _, _. split; [exact Hfull|]. intros Hle.
    fold k top. rewrite Hm. fold top fc.
    rewrite take_app_le by lia.
    repeat split. apply take_drop.
  - intros s <-. reflexivity.
Qed.

(** ** The activation cache *)

Lemma bind_ok {A B} (m : M A) (k : A -> M B) w a w' :
  m w = (Ok a, w') -> bind m k w = k a w'.
Proof. intros E. unfold bind. rewrite E. reflexivity. Qed.

Lemma bind_raise {A B} (m : M A) (k : A -> M B) w e w' :
  m w = (Raise e, w') -> bind m k w = (Raise e, w').
Proof. intros E. unfold bind. rewrite E. reflexivity. Qed.

Lemma mapM_open_all names w :
  Forall (fun n => is_Some (disk w !! n)) names ->
  mapM bcolz_open names w = (Ok names, w).
Proof.
  induction 1 as [|n names [a Ha] _ IH]; [reflexivity|].
  cbn [mapM]. erewrite bind_ok; [|unfold bcolz_open; rewrite Ha; reflexivity].
  erewrite bind_ok by exact IH. reflexivity.
Qed.

Lemma mapM_open_missing names w :
  ~ Forall (fun n => is_Some (disk w !! n)) names ->
  mapM bcolz_open names w = (Raise FileNotFoundError, w).
Proof.
  induction names as [|n names IH]; intros Hno.
  - exfalso. apply Hno. constructor.
  - cbn [mapM]. destruct (disk w !! n) as [a|] eqn:Ha.
    + erewrite bind_ok; [|unfold bcolz_open; rewrite Ha; reflexivity].
      erewrite bind_raise; [reflexivity|]. apply IH. intros Hall.
      apply Hno. constructor; [rewrite Ha; eauto|exact Hall].
    + erewrite bind_raise; [reflexivity|].
      unfold bcolz_open. rewrite Ha. reflexivity.
Qed.

(** With the primary array on disk and no forcing, the three arrays are
    opened as they are, or the call fails on a missing one. *)
Lemma get_activations_reuse w d p pv pt a :
  data (self w) = Ok d ->
  activation_names (self w) d = [p; pv; pt] ->
  disk w !! p = Some a ->
  get_activations false w =
    if bool_decide (is_Some (disk w !! pv) /\ is_Some (disk w !! pt))
    then (Ok tt, with_self (set_activations [p; pv; pt]) w)
    else (Raise FileNotFoundError, w).
Proof.
  intros Hd Hnames Hp. unfold get_activations.
  erewrite bind_ok; [|unfold get_data; rewrite Hd; reflexivity].
  erewrite bind_ok by reflexivity. rewrite Hnames.
  erewrite bind_ok by reflexivity.
  erewrite bind_ok by reflexivity.
  rewrite bool_decide_eq_true_2 by (rewrite Hp; eauto). cbn [andb negb].
  case_bool_decide as Hall.
  - erewrite bind_ok; [reflexivity|]. apply mapM_open_all.
    destruct Hall. repeat constructor; [rewrite Hp; eauto|assumption..].
  - erewrite bind_raise; [reflexivity|]. apply mapM_open_missing.
    intros Hall'. apply Hall.
    inversion Hall' as [|? ? _ Hall'']; subst.
    inversion Hall'' as [|? ? ? Hall''']; subst.
    inversion Hall''' as [|? ? ? _]; subst. split; assumption.
Qed.

Lemma save_fc1_reuse w d p pv pt a :
  data (self w) = Ok d ->
  activation_names (self w) d = [p; pv; pt] ->
  disk w !! p = Some a ->
  rows a <> [] ->
  save_fc1 w =
    if bool_decide (is_Some (disk w !! pv) /\ is_Some (disk w !! pt))
    then (Ok tt, with_self (set_fc_data (arrays_data d p pv pt))
                   (with_self (set_activations [p; pv; pt]) w))
    else (Raise FileNotFoundError, w).
Proof.
  intros Hd Hnames Hp Hrows. unfold save_fc1.
  pose proof (get_activations_reuse w d p pv pt a Hd Hnames Hp) as Hga.
  destruct (bool_decide _).
  2:{ erewrite bind_raise by exact Hga. reflexivity. }
  erewrite bind_ok by exact Hga.
  set (w1 := with_self (set_activations [p; pv; pt]) w).
  assert (Hd1 : get_data w1 = (Ok d, w1)).
  { unfold get_data. replace (data (self w1)) with (data (self w)); [|reflexivity].
    rewrite Hd. reflexivity. }
  erewrite bind_ok by reflexivity.
  erewrite bind_ok by reflexivity.
  cbv beta iota zeta.
  erewrite bind_ok by reflexivity.
  erewrite bind_ok; [|unfold carray_len; change (disk w1) with (disk w);
                      rewrite Hp; reflexivity].
  destruct (Z.eqb_spec (Z.of_nat (length (rows a))) 0) as [Hz|_].
  { destruct (rows a); [contradiction|discriminate Hz]. }
  erewrite bind_ok by reflexivity.
  erewrite bind_ok by exact Hd1. reflexivity.
Qed.

Lemma activation_names_ext s s' (d d' : Data.t) :
  models s' = models s -> tmp_path s' = tmp_path s -> Data.sz d' = Data.sz d ->
  activation_names s' d' = activation_names s d.
Proof. intros Hm Ht Hsz. unfold activation_names. rewrite Hm, Ht, Hsz. reflexivity. Qed.

Lemma activation_names_three s (d : Data.t) :
  exists p pv pt, activation_names s d = [p; pv; pt].
Proof. eexists _, _, _. reflexivity. Qed.

Lemma save_fc1_same_cache w d p pv pt a :
  data (self w) = Ok d ->
  activation_names (self w) d = [p; pv; pt] ->
  disk w !! p = Some a ->
  rows a <> [] ->
  same_cache w (snd (save_fc1 w)).
Proof.
  intros Hd Hnames Hp Hrows.
  rewrite (save_fc1_reuse w d p pv pt a Hd Hnames Hp Hrows).
  destruct (bool_decide _); split; reflexivity.
Qed.

Lemma save_fc1_no_data w e :
  data (self w) = Raise e -> save_fc1 w = (Raise e, w).
Proof.
  intros Hd. unfold save_fc1, get_activations.
  erewrite bind_raise; [reflexivity|].
  erewrite bind_raise; [reflexivity|].
  unfold get_data. rewrite Hd. reflexivity.
Qed.

(** ** C7: an existing cache is reused *)

(** C7. In a state where the primary (train) array exists and has rows,
    [get_activations()] and [save_fc1()] write nothing to disk and do not run
    the backbone, whether they succeed or fail: with the validation and test
    arrays present they open the three arrays and [save_fc1] wraps them as
    [fc_data]; with one of them missing they fail with the error of
    [bcolz.open], without recomputing; what the arrays hold is never looked
    at.  A second request after a successful one (same array key) again
    leaves the disk and the log as they were.  And whenever [save_fc1] does
    run the backbone, the primary array was absent or had no rows. *)
Theorem cache_reuse :
  (forall w d p pv pt a,
     data (self w) = Ok d ->
     activation_names (self w) d = [p; pv; pt] ->
     disk w !! p = Some a ->
     rows a <> [] ->
     let present := is_Some (disk w !! pv) /\ is_Some (disk w !! pt) in
     let w1 := snd (get_activations false w) in
     let w2 := snd (save_fc1 w) in
     (disk w1 = disk w /\ predicted w1 = predicted w) /\
     (disk w2 = disk w /\ predicted w2 = predicted w) /\
     (present ->
      fst (get_activations false w) = Ok tt /\
      activations (self w1) = Some [p; pv; pt] /\
      fst (save_fc1 w) = Ok tt /\
      activations (self w2) = Some [p; pv; pt] /\
      fc_data (self w2) =
        Some (from_arrays (Data.path d) (p, Data.trn_y d) (pv, Data.val_y d)
                (Data.bs d) (Data.classes d)
                (if is_some (Data.test_dl d) then Some pt else None) 8)) /\
     (~ present ->
      get_activations false w = (Raise FileNotFoundError, w) /\
      save_fc1 w = (Raise FileNotFoundError, w)) /\
     ((precompute (self w) = true ->
       Data.sz (arrays_data d p pv pt) = Data.sz d) ->
      disk (snd (save_fc1 w2)) = disk w /\
      predicted (snd (save_fc1 w2)) = predicted w)) /\
  (forall w,
     predicted (snd (save_fc1 w)) <> predicted w ->
     exists d p pv pt,
       data (self w) = Ok d /\
       activation_names (self w) d = [p; pv; pt] /\
       (disk w !! p = None \/
        exists a, disk w !! p = Some a /\ rows a = [])).
Proof.
  split.
  - intros w d p pv pt a Hd Hnames Hp Hrows present w1 w2.
    pose proof (get_activations_reuse w d p pv pt a Hd Hnames Hp) as Hga.
    pose proof (save_fc1_reuse w d p pv pt a Hd Hnames Hp Hrows) as Hsf.
    fold present in Hga, Hsf. subst w1 w2.
    destruct (bool_decide present) eqn:Hpres.
    + apply bool_decide_eq_true in Hpres. rewrite Hga, Hsf.
      split; [split; reflexivity|]. split; [split; reflexivity|].
      split; [intros _; repeat split|]. split; [intros Hno; contradiction|].
      intros Hsz. cbn [snd].
      set (w2 := with_self _ (with_self _ w)).
      destruct (precompute (self w)) eqn:Hpc.
      * assert (Hd2 : data (self w2) = Ok (arrays_data d p pv pt)).
        { unfold data. change (precompute (self w2)) with (precompute (self w)).
          rewrite Hpc. reflexivity. }
        assert (Hn2 : activation_names (self w2) (arrays_data d p pv pt)
                      = [p; pv; pt]).
        { rewrite <- Hnames. apply activation_names_ext;
            [reflexivity|reflexivity|apply Hsz; reflexivity]. }
        apply (save_fc1_same_cache w2 _ p pv pt a Hd2 Hn2 Hp Hrows).
      * assert (Hd2 : data (self w2) = Ok d).
        { unfold data in *. change (precompute (self w2)) with (precompute (self w)).
          rewrite Hpc in *. exact Hd. }
        apply (save_fc1_same_cache w2 _ p pv pt a Hd2 Hnames Hp Hrows).
    + apply bool_decide_eq_false in Hpres. rewrite Hga, Hsf.
      split; [split; reflexivity|]. split; [split; reflexivity|].
      split; [intros Hyes; contradiction|]. split; [intros _; split; reflexivity|].
      intros _. cbn [snd]. rewrite Hsf. split; reflexivity.
  - intros w Hrun.
    destruct (data (self w)) as [d|e] eqn:Hd.
    2:{ rewrite (save_fc1_no_data w e Hd) in Hrun. contradiction. }
    destruct (activation_names_three (self w) d) as (p & pv & pt & Hnames).
    exists d, p, pv, pt. split; [reflexivity|]. split; [exact Hnames|].
    destruct (disk w !! p) as [a|] eqn:Hp; [|left; reflexivity].
    right. exists a. split; [reflexivity|].
    destruct (rows a) as [|r rs] eqn:Hrows; [reflexivity|].
    exfalso. apply Hrun.
    apply (save_fc1_same_cache w d p pv pt a Hd Hnames Hp).
    rewrite Hrows. discriminate.
Qed.

Lemma fresh_arrays_lookup nf p pv pt (dk : gmap string carray) :
  fresh_arrays nf p pv pt dk !! p = Some (Carray nf []).
Proof.
  unfold fresh_arrays. rewrite !lookup_insert.
  repeat case_decide; try reflexivity; congruence.
Qed.

Lemma get_activations_fresh w d p pv pt force :
  data (self w) = Ok d ->
  activation_names (self w) d = [p; pv; pt] ->
  disk w !! p = None \/ force = true ->
  get_activations force w =
    (Ok tt, with_self (set_activations [p; pv; pt])
              (with_disk (fresh_arrays (ConvnetBuilder.nf (models (self w))) p pv pt) w)).
Proof.
  intros Hd Hnames Hp. unfold get_activations.
  erewrite bind_ok; [|unfold get_data; rewrite Hd; reflexivity].
  erewrite bind_ok by reflexivity. rewrite Hnames.
  erewrite bind_ok by reflexivity.
  erewrite bind_ok by reflexivity.
  replace (bool_decide (is_Some (disk w !! p)) && negb force) with false.
  2:{ destruct Hp as [Hp| ->]; [rewrite Hp|].
      - rewrite bool_decide_eq_false_2; [reflexivity|]. intros [x Hx]. discriminate.
      - rewrite andb_false_r. reflexivity. }
  erewrite bind_ok by reflexivity. reflexivity.
Qed.

(** With no primary array on disk, in normal mode: the arrays are created
    and the backbone is run over the training and validation loaders, and
    over the test loader when there is one. *)
Lemma save_fc1_fresh w p pv pt :
  precompute (self w) = false ->
  activation_names (self w) (data_ (self w)) = [p; pv; pt] ->
  disk w !! p = None ->
  fst (save_fc1 w) = Ok tt /\
  predicted (snd (save_fc1 w)) =
    predicted w ++ [p; pv]
      ++ (if is_some (Data.test_dl (data_ (self w))) then [pt] else []).
Proof.
  destruct w as [[pc d m ms cr tp fd ac] dk tr lg]. cbn [self precompute data_ disk predicted].
  intros -> Hnames Hp. unfold save_fc1.
  erewrite bind_ok.
  2:{ apply (get_activations_fresh _ d p pv pt false);
        [reflexivity|exact Hnames|left; exact Hp]. }
  erewrite bind_ok by reflexivity.
  erewrite bind_ok by reflexivity.
  cbv beta iota zeta.
  erewrite bind_ok by reflexivity.
  erewrite bind_ok.
  2:{ unfold carray_len. cbn [disk with_self with_disk self models].
      rewrite fresh_arrays_lookup. reflexivity. }
  change (Z.of_nat (length (rows (Carray (ConvnetBuilder.nf m) []))) =? 0) with true.
  cbv beta iota.
  destruct (Data.test_dl d) as [dl|] eqn:Htest; cbn [is_some].
  - erewrite bind_ok.
    2:{ do 6 (erewrite bind_ok by reflexivity).
        cbn [self data_ with_self with_disk set_activations].
        rewrite Htest. reflexivity. }
    erewrite bind_ok by reflexivity. cbn [fst snd modify]. split; [reflexivity|].
    cbn. rewrite <- !app_assoc. reflexivity.
  - erewrite bind_ok.
    2:{ do 6 (erewrite bind_ok by reflexivity).
        cbn [self data_ with_self with_disk set_activations].
        rewrite Htest. reflexivity. }
    erewrite bind_ok by reflexivity. cbn [fst snd modify]. split; [reflexivity|].
    cbn. rewrite <- !app_assoc. reflexivity.
Qed.

(** ** C8: switching datasets *)

Lemma set_data_eq ds w :
  set_data ds w =
    match save_fc1 (with_self (set_data_ ds) w) with
    | (Ok _, w2) => freeze w2
    | (Raise e, w2) => (Raise e, w2)
    end.
Proof.
  unfold set_data. erewrite bind_ok by reflexivity.
  unfold bind. destruct (save_fc1 _) as [[[]|e] w2]; reflexivity.
Qed.

(** ** Freezing *)

Lemma set_trainable_lookup l b (tr : gmap nat bool) i :
  set_trainable l b tr !! i =
    if bool_decide (i ∈ oid <$> l) then Some b else tr !! i.
Proof.
  unfold set_trainable. revert tr.
  induction l as [|m l IH]; intros tr; cbn [foldl fmap list_fmap].
  - rewrite bool_decide_eq_false_2; [reflexivity|]. apply not_elem_of_nil.
  - rewrite IH. destruct (decide (i ∈ oid <$> l)) as [Hin|Hnin].
    + rewrite !bool_decide_eq_true_2; [reflexivity|right; exact Hin|exact Hin].
    + rewrite (bool_decide_eq_false_2 _ Hnin).
      destruct (decide (i = oid m)) as [->|Hne].
      * rewrite lookup_insert_eq, bool_decide_eq_true_2; [reflexivity|left].
      * rewrite lookup_insert_ne by congruence.
        rewrite bool_decide_eq_false_2; [reflexivity|].
        intros Hin. apply elem_of_cons in Hin as [?|?]; contradiction.
Qed.

(** Freezing to the last group in normal mode, on a model the builder
    assembled: every layer before the head ends untrainable, every layer of
    the head trainable. *)
Lemma freeze_flags f c is_multi is_reg ps xtra_fc xtra_cut b w :
  ConvnetBuilder.init f c is_multi is_reg ps xtra_fc xtra_cut = Ok b ->
  models (self w) = b ->
  precompute (self w) = false ->
  forall m,
    (m ∈ ConvnetBuilder.top_model b ->
     trainable (snd (freeze_to (-1) w)) !! oid m = Some false) /\
    (m ∈ ConvnetBuilder.fc_model b ->
     trainable (snd (freeze_to (-1) w)) !! oid m = Some true).
Proof.
  intros Hb Hmodels Hpc m.
  destruct (init_shape _ _ _ _ _ _ _ _ Hb) as (Hm & _ & _ & Hlr & Hoid).
  destruct (builder_layer_groups _ _ _ _ _ _ _ _ Hb) as [_ Hgroups].
  unfold freeze_to. cbn [snd trainable].
  unfold get_layer_groups. rewrite Hmodels, Hpc, Hgroups.
  set (k := Z.to_nat (ConvnetBuilder.lr_cut b)).
  set (top := ConvnetBuilder.top_model b) in *.
  set (fc := ConvnetBuilder.fc_model b) in *.
  change (py_slice_from [take k (ConvnetBuilder.model b); drop k top; fc] (-1))
    with [fc].
  cbn [foldl]. rewrite !set_trainable_lookup.
  assert (Hfc : forall m', m' ∈ fc -> (length top <= oid m')%nat).
  { intros m' Hin. apply list_elem_of_lookup in Hin as [i Hi].
    rewrite (Hoid (length top + i)%nat m'); [lia|].
    rewrite Hm. fold top fc. rewrite lookup_app_r by lia.
    replace (length top + i - length top)%nat with i by lia. exact Hi. }
  split; intros Hin.
  - apply list_elem_of_lookup in Hin as [j Hj].
    pose proof (lookup_lt_Some _ _ _ Hj) as Hlt.
    assert (Hmj : ConvnetBuilder.model b !! j = Some m).
    { rewrite Hm. fold top fc. rewrite lookup_app_l by lia. exact Hj. }
    pose proof (Hoid j m Hmj) as Hid.
    rewrite bool_decide_eq_false_2.
    2:{ intros Hin. apply list_elem_of_fmap in Hin as (m' & Heq & Hin).
        apply Hfc in Hin. lia. }
    destruct (decide (j < k)%nat) as [Hjk|Hjk].
    + case_bool_decide; [reflexivity|].
      rewrite bool_decide_eq_true_2; [reflexivity|].
      apply list_elem_of_fmap. exists m. split; [reflexivity|].
      apply list_elem_of_lookup. exists j. rewrite lookup_take_lt by lia. exact Hmj.
    + rewrite bool_decide_eq_true_2; [reflexivity|].
      apply list_elem_of_fmap. exists m. split; [reflexivity|].
      apply list_elem_of_lookup. exists (j - k)%nat. rewrite lookup_drop.
      replace (k + (j - k))%nat with j by lia. exact Hj.
  - rewrite bool_decide_eq_true_2; [reflexivity|].
    apply list_elem_of_fmap. exists m. split; [reflexivity|exact Hin].
Qed.

(** ** C9: how the constructor ends *)

(** C9. Take the states of a construction: after lines 79-80, then after
    each statement of lines 81 to 87.  Without [precompute] the construction
    always completes.  When it completes, [precompute] is [False] in every
    state but the last; caching, when asked for, runs in a state whose
    [data] and [model] are the original dataset and the full model; the state
    before the last is the result of [freeze_to(-1)] on the layer groups of
    the full model, and the last state only sets [precompute] to the
    argument.  For a model the builder assembled this leaves every layer
    before the head untrainable and every head layer trainable.  When the
    construction raises (in the caching step), [precompute] is [False] all
    along. *)
Theorem init_frozen (ds : Data.t) (bld : ConvnetBuilder.t) (pc : bool)
    (kw : option (list metric)) (disk0 : gmap string carray)
    (flags0 : gmap nat bool) (log0 : list string) :
  let tr := fst (init_trace ds bld pc kw disk0 flags0 log0) in
  let r := snd (init_trace ds bld pc kw disk0 flags0 log0) in
  let wf := snd (init ds bld pc kw disk0 flags0 log0) in
  (pc = false -> r = Ok tt) /\
  (forall e, r = Raise e ->
     Forall (fun w => precompute (self w) = false) tr) /\
  (r = Ok tt ->
   exists w0 w1 w2 w3 w4,
     tr = [w0; w1; w2; w3; w4; wf] /\
     Forall (fun w => precompute (self w) = false) [w0; w1; w2; w3; w4] /\
     (if pc
      then save_fc1 w2 = (Ok tt, w3) /\ data (self w2) = Ok ds /\
           model (self w2) = ConvnetBuilder.model bld
      else w3 = w2) /\
     models (self w3) = bld /\
     get_layer_groups (self w3) = ConvnetBuilder.get_layer_groups bld false /\
     w4 = snd (freeze_to (-1) w3) /\
     wf = with_self (set_precompute pc) w4 /\
     precompute (self wf) = pc /\
     trainable wf = trainable w4) /\
  (forall f c is_multi is_reg ps xtra_fc xtra_cut,
     ConvnetBuilder.init f c is_multi is_reg ps xtra_fc xtra_cut = Ok bld ->
     r = Ok tt ->
     forall m,
       (m ∈ ConvnetBuilder.top_model bld -> trainable wf !! oid m = Some false) /\
       (m ∈ ConvnetBuilder.fc_model bld -> trainable wf !! oid m = Some true)).
Proof.
  intros tr r wf. subst tr r wf. unfold init.
  rewrite init_trace_eq.
  set (w0 := start ds bld kw disk0 flags0 log0).
  set (w1 := after_crit ds w0).
  set (w2 := after_metrics ds w1).
  assert (Hw2 : precompute (self w2) = false /\ models (self w2) = bld /\
                data_ (self w2) = ds).
  { unfold w2, after_metrics. destruct (Data.is_reg ds); [repeat split|].
    destruct (metrics (self w1)); repeat split. }
  destruct Hw2 as (Hpc2 & Hm2 & Hd2).
  assert (Hcfg : same_config w2 (snd ((if pc then save_fc1 else ret tt) w2))).
  { destruct pc; [apply save_fc1_config|reflexivity]. }
  destruct Hcfg as (Hpc3 & _ & Hm3 & _).
  destruct ((if pc then save_fc1 else ret tt) w2) as [[[]|e] w3] eqn:Hstep;
    cbn [fst snd] in *.
  - split; [reflexivity|]. split; [discriminate|]. split.
    + intros _. exists w0, w1, w2, w3, (snd (freeze w3)).
      split; [reflexivity|]. split.
      { rewrite !Forall_cons, Forall_nil.
        split; [reflexivity|]. split; [reflexivity|]. split; [exact Hpc2|].
        split; [congruence|]. split; [|exact I].
        change (precompute (self w3) = false). congruence. }
      split.
      { destruct pc.
        - split; [exact Hstep|]. unfold data, model. rewrite Hpc2, Hd2, Hm2.
          split; reflexivity.
        - injection Hstep as <-. reflexivity. }
      split; [congruence|]. split.
      { unfold get_layer_groups. rewrite Hpc3, Hpc2, Hm3, Hm2. reflexivity. }
      repeat split.
    + intros f c is_multi is_reg ps xtra_fc xtra_cut Hb _ m.
      cbn [List.last with_self trainable].
      apply (freeze_flags f c is_multi is_reg ps xtra_fc xtra_cut bld w3 Hb);
        congruence.
  - split.
    + intros ->. discriminate Hstep.
    + split; [|split; [discriminate|intros; discriminate]].
      intros e' _.
      rewrite !Forall_cons, Forall_nil.
      split; [reflexivity|]. split; [reflexivity|]. split; [exact Hpc2|].
      split; [congruence|exact I].
Qed.

(** ** More on the activation cache *)

Lemma get_data_ok w d : data (self w) = Ok d -> get_data w = (Ok d, w).
Proof. intros Hd. unfold get_data. rewrite Hd. reflexivity. Qed.

(** [save_fc1] from the state [get_activations] leaves: with rows in the
    primary array the arrays are wrapped as they are, with none the backbone
    is run into the three arrays first. *)
Lemma save_fc1_from w w1 d p pv pt a :
  get_activations false w = (Ok tt, w1) ->
  data (self w1) = Ok d ->
  activations (self w1) = Some [p; pv; pt] ->
  disk w1 !! p = Some a ->
  save_fc1 w =
    (Ok tt,
     match rows a with
     | [] => World (set_fc_data (arrays_data d p pv pt) (self w1))
               (recomputed (ConvnetBuilder.top_model (models (self w1))) d p pv pt
                  (disk w1))
               (trainable w1) (predicted w1 ++ runs d p pv pt)
     | _ :: _ => with_self (set_fc_data (arrays_data d p pv pt)) w1
     end).
Proof.
  intros Hga Hd Hact Hp. unfold save_fc1.
  erewrite bind_ok by exact Hga.
  destruct w1 as [s1 dk tr lg]. cbn [self disk] in Hd, Hact, Hp.
  erewrite bind_ok;
    [|unfold get_activations_attr; cbn [self]; rewrite Hact; reflexivity].
  erewrite bind_ok by reflexivity. cbv beta iota zeta.
  erewrite bind_ok by reflexivity.
  erewrite bind_ok; [|unfold carray_len; cbn [disk]; rewrite Hp; reflexivity].
  destruct (rows a) as [|r rs].
  - change (Z.of_nat (length (@nil row)) =? 0) with true. cbv beta iota.
    unfold runs, recomputed, is_some.
    destruct (Data.test_dl d) as [dl|] eqn:Htest.
    + erewrite bind_ok.
      2:{ erewrite bind_ok by reflexivity.
          erewrite bind_ok by (apply get_data_ok; exact Hd).
          erewrite bind_ok by reflexivity.
          erewrite bind_ok by (apply get_data_ok; exact Hd).
          erewrite bind_ok by reflexivity.
          erewrite bind_ok by (apply get_data_ok; exact Hd).
          rewrite Htest. reflexivity. }
      erewrite bind_ok by (apply get_data_ok; exact Hd).
      rewrite Htest.
      cbv [modify with_self predicted_into self disk trainable predicted].
      unfold arrays_data, is_some. rewrite Htest, <- !app_assoc. reflexivity.
    + erewrite bind_ok.
      2:{ erewrite bind_ok by reflexivity.
          erewrite bind_ok by (apply get_data_ok; exact Hd).
          erewrite bind_ok by reflexivity.
          erewrite bind_ok by (apply get_data_ok; exact Hd).
          erewrite bind_ok by reflexivity.
          erewrite bind_ok by (apply get_data_ok; exact Hd).
          rewrite Htest. reflexivity. }
      erewrite bind_ok by (apply get_data_ok; exact Hd).
      rewrite Htest.
      cbv [modify with_self predicted_into self disk trainable predicted].
      unfold arrays_data, is_some. rewrite Htest, <- !app_assoc. reflexivity.
  - destruct (Z.eqb_spec (Z.of_nat (length (r :: rs))) 0) as [Hz|_];
      [discriminate Hz|].
    erewrite bind_ok by reflexivity.
    erewrite bind_ok by (apply get_data_ok; exact Hd). reflexivity.
Qed.

Lemma predicted_into_is_Some m gen arr (dk : gmap string carray) k :
  is_Some (predicted_into m gen arr dk !! k) <-> is_Some (dk !! k).
Proof.
  unfold predicted_into. destruct (decide (arr = k)) as [->|Hne].
  - rewrite lookup_alter_eq. rewrite fmap_is_Some. reflexivity.
  - rewrite lookup_alter_ne by exact Hne. reflexivity.
Qed.

Lemma recomputed_is_Some m d p pv pt (dk : gmap string carray) k :
  is_Some (recomputed m d p pv pt dk !! k) <-> is_Some (dk !! k).
Proof.
  unfold recomputed. destruct (Data.test_dl d);
    rewrite ?predicted_into_is_Some; reflexivity.
Qed.

Lemma fresh_arrays_is_Some nf p pv pt (dk : gmap string carray) k :
  is_Some (fresh_arrays nf p pv pt dk !! k) <->
  k = p \/ k = pv \/ k = pt \/ is_Some (dk !! k).
Proof.
  unfold fresh_arrays. rewrite !lookup_insert_is_Some'.
  split; [intros [<-|[<-|[<-|Hs]]]|intros [->|[->|[->|Hs]]]]; auto 6.
Qed.

Lemma save_fc1_ends (w : world) :
  match data (self w) with
  | Raise e => save_fc1 w = (Raise e, w)
  | Ok d =>
      forall p pv pt, activation_names (self w) d = [p; pv; pt] ->
      if bool_decide (is_Some (disk w !! p) /\
                      ~ (is_Some (disk w !! pv) /\ is_Some (disk w !! pt)))
      then save_fc1 w = (Raise FileNotFoundError, w)
      else exists w',
        save_fc1 w = (Ok tt, w') /\
        activations (self w') = Some [p; pv; pt] /\
        fc_data (self w') = Some (arrays_data d p pv pt) /\
        (forall k, k ∈ [p; pv; pt] -> is_Some (disk w' !! k)) /\
        (forall k, is_Some (disk w !! k) -> is_Some (disk w' !! k)) /\
        same_config w w'
  end.
Proof.
  destruct (data (self w)) as [d|e] eqn:Hd; [|apply save_fc1_no_data, Hd].
  intros p pv pt Hnames.
  pose proof (save_fc1_config w) as Hcfg.
  destruct (disk w !! p) as [a|] eqn:Hp.
  - pose proof (get_activations_reuse w d p pv pt a Hd Hnames Hp) as Hga.
    destruct (decide (is_Some (disk w !! pv) /\ is_Some (disk w !! pt)))
      as [Hall|Hnot].
    + rewrite bool_decide_eq_false_2 by tauto.
      rewrite bool_decide_eq_true_2 in Hga by exact Hall.
      pose proof (save_fc1_from w _ d p pv pt a Hga Hd eq_refl Hp) as Hsf.
      rewrite Hsf in Hcfg. rewrite Hsf. eexists. split; [reflexivity|].
      destruct Hall as [Hpv Hpt].
      destruct (rows a); cbn [snd] in *.
      * repeat split; try apply Hcfg.
        -- intros k Hk. cbn [disk with_self]. apply recomputed_is_Some.
           repeat (apply elem_of_cons in Hk as [->|Hk]); [rewrite Hp; eauto|..];
             [assumption|assumption|apply elem_of_nil in Hk; contradiction].
        -- intros k Hk. cbn [disk with_self]. apply recomputed_is_Some. exact Hk.
      * repeat split; try apply Hcfg.
        -- intros k Hk. cbn [disk with_self].
           repeat (apply elem_of_cons in Hk as [->|Hk]); [rewrite Hp; eauto|..];
             [assumption|assumption|apply elem_of_nil in Hk; contradiction].
        -- intros k Hk. cbn [disk with_self]. exact Hk.
    + rewrite bool_decide_eq_true_2 by (split; [eauto|exact Hnot]).
      rewrite (bool_decide_eq_false_2 _ Hnot) in Hga.
      unfold save_fc1. erewrite bind_raise by exact Hga. reflexivity.
  - rewrite bool_decide_eq_false_2 by (intros [[x Hx] _]; discriminate).
    pose proof (get_activations_fresh w d p pv pt false Hd Hnames (or_introl Hp))
      as Hga.
    pose proof (save_fc1_from w _ d p pv pt _ Hga Hd eq_refl
                  (fresh_arrays_lookup _ p pv pt (disk w))) as Hsf.
    cbn [rows] in Hsf. rewrite Hsf in Hcfg. rewrite Hsf.
    eexists. split; [reflexivity|]. cbn [snd] in Hcfg.
    repeat split; try apply Hcfg.
    + intros k Hk. cbn [disk with_self]. apply recomputed_is_Some.
      apply fresh_arrays_is_Some.
      repeat (apply elem_of_cons in Hk as [->|Hk]); [tauto..|].
      apply elem_of_nil in Hk. contradiction.
    + intros k Hk. cbn [disk with_self]. apply recomputed_is_Some.
      apply fresh_arrays_is_Some. tauto.
Qed.

(** X5. How [save_fc1] ends, in any state.  It fails in two cases only, and
    then leaves the state as it was: the [data] property fails (precompute
    mode without [fc_data]), or the primary array exists while the validation
    or the test array does not.  Otherwise it succeeds: [activations] are the
    three array names, [fc_data] is the dataset made from them, the three
    arrays exist, no array that existed has disappeared, and none of the
    learner's other attributes nor any [trainable] flag has changed. *)
Theorem save_fc1_outcome (w : world) :
  let w' := snd (save_fc1 w) in
  (forall e, fst (save_fc1 w) = Raise e ->
     w' = w /\
     (data (self w) = Raise e \/
      e = FileNotFoundError /\
      exists d p pv pt,
        data (self w) = Ok d /\ activation_names (self w) d = [p; pv; pt] /\
        is_Some (disk w !! p) /\
        ~ (is_Some (disk w !! pv) /\ is_Some (disk w !! pt)))) /\
  (fst (save_fc1 w) = Ok tt ->
     exists d p pv pt,
       data (self w) = Ok d /\ activation_names (self w) d = [p; pv; pt] /\
       activations (self w') = Some [p; pv; pt] /\
       fc_data (self w') = Some (arrays_data d p pv pt) /\
       (forall k, k ∈ [p; pv; pt] -> is_Some (disk w' !! k)) /\
       (forall k, is_Some (disk w !! k) -> is_Some (disk w' !! k)) /\
       same_config w w').
Proof.
  intros w'. subst w'. pose proof (save_fc1_ends w) as Hends.
  destruct (data (self w)) as [d|e0] eqn:Hd.
  - destruct (activation_names_three (self w) d) as (p & pv & pt & Hnames).
    specialize (Hends p pv pt Hnames).
    destruct (bool_decide _) eqn:Hmiss.
    + apply bool_decide_eq_true in Hmiss as [Hp Hnot]. rewrite Hends. split.
      * intros e [= <-]. split; [reflexivity|]. right. split; [reflexivity|].
        exists d, p, pv, pt. repeat split; assumption.
      * intros [=].
    + destruct Hends as (w1 & -> & Hact & Hfc & Hex & Hkeep & Hcfg). split.
      * intros e [=].
      * intros _. exists d, p, pv, pt. repeat split; try assumption; apply Hcfg.
  - rewrite Hends. split.
    + intros e [= <-]. split; [reflexivity|left; reflexivity].
    + intros [=].
Qed.

Lemma string_length_app (a b : string) :
  String.length (a +:+ b) = (String.length a + String.length b)%nat.
Proof. induction a as [|ch a IH]; simpl; [reflexivity|rewrite IH; reflexivity]. Qed.

(** The length of a joined path, for a second component that is not
    absolute: the first component, a separator when one is needed, the
    second component. *)
Lemma os_path_join_length a b :
  is_absolute b = false ->
  String.length (os_path_join a b) =
    ((if bool_decide (a = "") || ends_with_sep a
      then String.length a else S (String.length a)) + String.length b)%nat.
Proof.
  intros Hb. unfold os_path_join. rewrite Hb.
  destruct (bool_decide (a = "") || ends_with_sep a).
  - apply string_length_app.
  - rewrite !string_length_app. simpl. lia.
Qed.

Lemma names_distinct (s : t) (d : Data.t) :
  exists p pv pt,
    activation_names s d = [p; pv; pt] /\ p <> pv /\ p <> pt /\ pv <> pt.
Proof.
  eexists _, _, _. split; [reflexivity|].
  repeat split; intros Heq; apply (f_equal String.length) in Heq;
    rewrite !os_path_join_length in Heq by reflexivity;
    rewrite !string_length_app in Heq; simpl in Heq; lia.
Qed.

(** X6. The three arrays of a cache key never share a name: training,
    validation and test activations go to three different directories,
    whatever the temporary path, the architecture name, the cut and the image
    size. *)
Theorem activation_names_distinct (s : t) (d : Data.t) :
  length (activation_names s d) = 3%nat /\ NoDup (activation_names s d).
Proof.
  destruct (names_distinct s d) as (p & pv & pt & -> & Hppv & Hppt & Hpvpt).
  split; [reflexivity|].
  repeat apply NoDup_cons_2; try apply NoDup_nil_2;
    rewrite ?elem_of_cons, ?elem_of_nil; tauto.
Qed.

Lemma recomputed_lookup m (d : Data.t) p pv pt (dk : gmap string carray) :
  p <> pv -> p <> pt -> pv <> pt ->
  let out gen a := Carray (ncols a) (rows a ++ concat (forward m <$> gen)) in
  recomputed m d p pv pt dk !! p = out (Data.fix_dl d) <$> dk !! p /\
  recomputed m d p pv pt dk !! pv = out (Data.val_dl d) <$> dk !! pv /\
  recomputed m d p pv pt dk !! pt =
    match Data.test_dl d with
    | Some dl => out dl <$> dk !! pt
    | None => dk !! pt
    end /\
  (forall k, k <> p -> k <> pv -> k <> pt ->
     recomputed m d p pv pt dk !! k = dk !! k).
Proof.
  intros H1' H2' H3' out. unfold recomputed, predicted_into.
  destruct (Data.test_dl d) as [dl|]; repeat split; intros;
    repeat first [rewrite lookup_alter_eq | rewrite lookup_alter_ne by congruence];
    reflexivity.
Qed.

Lemma fresh_arrays_lookup_others nf p pv pt (dk : gmap string carray) :
  fresh_arrays nf p pv pt dk !! pv = Some (Carray nf []) /\
  fresh_arrays nf p pv pt dk !! pt = Some (Carray nf []) /\
  (forall k, k <> p -> k <> pv -> k <> pt ->
     fresh_arrays nf p pv pt dk !! k = dk !! k).
Proof.
  unfold fresh_arrays. repeat split; intros; rewrite !lookup_insert;
    repeat case_decide; try reflexivity; congruence.
Qed.

(** X7. Caching from scratch.  When the primary array of the key is not on
    disk, [save_fc1] succeeds and leaves, in three new arrays of width [nf],
    exactly the outputs of the truncated backbone over the training loader,
    over the validation loader, and over the test loader (an empty array
    when there is none), batch after batch; the backbone is run once per
    loader, and every other array on disk is as it was. *)
Theorem save_fc1_from_scratch (w : world) (d : Data.t) (p pv pt : string) :
  data (self w) = Ok d ->
  activation_names (self w) d = [p; pv; pt] ->
  disk w !! p = None ->
  let top := ConvnetBuilder.top_model (models (self w)) in
  let nf := ConvnetBuilder.nf (models (self w)) in
  let out gen := Carray nf (concat (forward top <$> gen)) in
  let w' := snd (save_fc1 w) in
  fst (save_fc1 w) = Ok tt /\
  disk w' !! p = Some (out (Data.fix_dl d)) /\
  disk w' !! pv = Some (out (Data.val_dl d)) /\
  disk w' !! pt = Some (out (default [] (Data.test_dl d))) /\
  (forall k, k ∉ [p; pv; pt] -> disk w' !! k = disk w !! k) /\
  predicted w' = predicted w ++ runs d p pv pt.
Proof.
  intros Hd Hnames Hp top nf out w'.
  destruct (names_distinct (self w) d)
    as (p' & pv' & pt' & Hn' & Hppv & Hppt & Hpvpt).
  rewrite Hnames in Hn'. injection Hn' as <- <- <-.
  pose proof (get_activations_fresh w d p pv pt false Hd Hnames (or_introl Hp))
    as Hga.
  pose proof (save_fc1_from w _ d p pv pt _ Hga Hd eq_refl
                (fresh_arrays_lookup _ p pv pt (disk w))) as Hsf.
  cbn [rows] in Hsf. subst w'. rewrite Hsf. cbn [fst snd disk predicted].
  cbn [self with_self with_disk models set_activations disk predicted].
  fold top nf.
  destruct (recomputed_lookup top d p pv pt (fresh_arrays nf p pv pt (disk w))
              Hppv Hppt Hpvpt) as (Ep & Epv & Ept & Eother).
  destruct (fresh_arrays_lookup_others nf p pv pt (disk w)) as (Fpv & Fpt & Fother).
  split; [reflexivity|].
  split; [rewrite Ep, fresh_arrays_lookup; reflexivity|].
  split; [rewrite Epv, Fpv; reflexivity|].
  split; [rewrite Ept, Fpt; destruct (Data.test_dl d); reflexivity|].
  split; [|reflexivity].
  intros k Hk. rewrite Eother, Fother; try reflexivity;
    intros ->; apply Hk; repeat constructor.
Qed.

(** X8. Forcing.  [get_activations(force=True)] replaces the three arrays by
    empty ones whatever was on disk, and a [save_fc1] after it runs the
    backbone again: the arrays then hold exactly the outputs over the
    current loaders, none of the rows that were cached before. *)
Theorem force_then_save (w : world) (d : Data.t) (p pv pt : string) :
  data (self w) = Ok d ->
  activation_names (self w) d = [p; pv; pt] ->
  let top := ConvnetBuilder.top_model (models (self w)) in
  let nf := ConvnetBuilder.nf (models (self w)) in
  let out gen := Carray nf (concat (forward top <$> gen)) in
  let w1 := snd (get_activations true w) in
  let w2 := snd (save_fc1 w1) in
  fst (get_activations true w) = Ok tt /\
  (forall k, k ∈ [p; pv; pt] -> disk w1 !! k = Some (Carray nf [])) /\
  predicted w1 = predicted w /\
  fst (save_fc1 w1) = Ok tt /\
  disk w2 !! p = Some (out (Data.fix_dl d)) /\
  disk w2 !! pv = Some (out (Data.val_dl d)) /\
  disk w2 !! pt = Some (out (default [] (Data.test_dl d))) /\
  (forall k, k ∉ [p; pv; pt] -> disk w2 !! k = disk w !! k) /\
  predicted w2 = predicted w ++ runs d p pv pt.
Proof.
  intros Hd Hnames top nf out w1 w2.
  destruct (names_distinct (self w) d)
    as (p' & pv' & pt' & Hn' & Hppv & Hppt & Hpvpt).
  rewrite Hnames in Hn'. injection Hn' as <- <- <-.
  pose proof (get_activations_fresh w d p pv pt true Hd Hnames
                (or_intror eq_refl)) as Hforce.
  fold nf in Hforce.
  destruct (fresh_arrays_lookup_others nf p pv pt (disk w)) as (Fpv & Fpt & Fother).
  pose proof (fresh_arrays_lookup nf p pv pt (disk w)) as Fp.
  subst w2 w1. rewrite Hforce. cbn [fst snd].
  set (w1 := with_self _ (with_disk _ w)).
  assert (Hd1 : data (self w1) = Ok d) by exact Hd.
  assert (Hn1 : activation_names (self w1) d = [p; pv; pt]) by exact Hnames.
  assert (Hp1 : disk w1 !! p = Some (Carray nf [])) by exact Fp.
  pose proof (get_activations_reuse w1 d p pv pt _ Hd1 Hn1 Hp1) as Hga.
  rewrite bool_decide_eq_true_2 in Hga.
  2:{ split; [change (disk w1) with (fresh_arrays nf p pv pt (disk w)); rewrite Fpv
             |change (disk w1) with (fresh_arrays nf p pv pt (disk w)); rewrite Fpt];
        eauto. }
  pose proof (save_fc1_from w1 _ d p pv pt _ Hga Hd1 eq_refl Hp1) as Hsf.
  cbn [rows] in Hsf. rewrite Hsf. cbn [fst snd disk predicted].
  change (disk (with_self (set_activations [p; pv; pt]) w1))
    with (fresh_arrays nf p pv pt (disk w)).
  change (predicted (with_self (set_activations [p; pv; pt]) w1))
    with (predicted w).
  change (ConvnetBuilder.top_model
            (models (self (with_self (set_activations [p; pv; pt]) w1))))
    with top.
  destruct (recomputed_lookup top d p pv pt (fresh_arrays nf p pv pt (disk w))
              Hppv Hppt Hpvpt) as (Ep & Epv & Ept & Eother).
  split; [reflexivity|]. split.
  { intros k Hk. change (disk w1) with (fresh_arrays nf p pv pt (disk w)).
    repeat (apply elem_of_cons in Hk as [->|Hk]); [assumption..|].
    apply elem_of_nil in Hk. contradiction. }
  split; [reflexivity|]. split; [reflexivity|].
  split; [rewrite Ep, Fp; reflexivity|].
  split; [rewrite Epv, Fpv; reflexivity|].
  split; [rewrite Ept, Fpt; destruct (Data.test_dl d); reflexivity|].
  split; [|reflexivity].
  intros k Hk. rewrite Eother, Fother; try reflexivity;
    intros ->; apply Hk; repeat constructor.
Qed.

(** ** More on construction *)

(** X9. What a constructed learner serves.  Built with [precompute], it
    serves the head as [model] and, as [data], the dataset made from the three
    activation arrays of the original dataset's key, which all exist on disk.
    Built without, it serves the full model and the original dataset, has no
    [fc_data], and the construction has neither touched an array nor run the
    backbone. *)
Theorem init_serves (ds : Data.t) (bld : ConvnetBuilder.t) (pc : bool)
    (kw : option (list metric)) (disk0 : gmap string carray)
    (flags0 : gmap nat bool) (log0 : list string) (wf : world) :
  init ds bld pc kw disk0 flags0 log0 = (Ok tt, wf) ->
  precompute (self wf) = pc /\ data_ (self wf) = ds /\ models (self wf) = bld /\
  if pc
  then exists p pv pt,
         activation_names (base_init ds bld kw) ds = [p; pv; pt] /\
         data (self wf) = Ok (arrays_data ds p pv pt) /\
         model (self wf) = ConvnetBuilder.fc_model bld /\
         (forall k, k ∈ [p; pv; pt] -> is_Some (disk wf !! k))
  else data (self wf) = Ok ds /\
       model (self wf) = ConvnetBuilder.model bld /\
       fc_data (self wf) = None /\
       disk wf = disk0 /\ predicted wf = log0.
Proof.
  unfold init. rewrite init_trace_eq.
  set (w0 := start ds bld kw disk0 flags0 log0).
  set (w1 := after_crit ds w0).
  set (w2 := after_metrics ds w1).
  assert (Hw2 : precompute (self w2) = false /\ models (self w2) = bld /\
                data_ (self w2) = ds /\ fc_data (self w2) = None /\
                tmp_path (self w2) = tmp_path (base_init ds bld kw) /\
                disk w2 = disk0 /\ predicted w2 = log0).
  { unfold w2, after_metrics. destruct (Data.is_reg ds); [repeat split|].
    destruct (metrics (self w1)); repeat split. }
  destruct Hw2 as (Hpc2 & Hm2 & Hd2 & Hfc2 & Htp2 & Hdk2 & Hlg2).
  assert (Hdata2 : data (self w2) = Ok ds).
  { unfold data. rewrite Hpc2, Hd2. reflexivity. }
  destruct pc.
  - pose proof (save_fc1_ends w2) as Hout. rewrite Hdata2 in Hout.
    destruct (activation_names_three (self w2) ds) as (p & pv & pt & Hnames).
    specialize (Hout p pv pt Hnames).
    destruct (bool_decide _).
    + rewrite Hout. intros [=].
    + destruct Hout as (w3 & Hsf & Hact & Hfc & Hex & _ & Hcfg).
      rewrite Hsf. cbn [List.last snd]. intros [= <-].
      destruct Hcfg as (Hpc3 & Hd3 & Hm3 & _).
      cbn [self with_self precompute data_ models set_precompute freeze
           freeze_to snd disk].
      split; [reflexivity|]. split; [congruence|]. split; [congruence|].
      exists p, pv, pt. split.
      { rewrite <- Hnames. symmetry.
        apply activation_names_ext; [exact Hm2|exact Htp2|reflexivity]. }
      split; [unfold data; cbn; rewrite Hfc; reflexivity|].
      split; [unfold model; cbn; congruence|exact Hex].
  - cbn [List.last snd ret]. intros [= <-].
    cbn [self with_self precompute data_ models set_precompute freeze
         freeze_to snd disk predicted fc_data].
    split; [reflexivity|]. split; [exact Hd2|]. split; [exact Hm2|].
    split; [unfold data; cbn; rewrite Hd2; reflexivity|].
    split; [unfold model; cbn; rewrite Hm2; reflexivity|].
    repeat split; assumption.
Qed.

Lemma last_app_nonempty {A} (l1 l2 : list A) (d : A) :
  l2 <> [] -> List.last (l1 ++ l2) d = List.last l2 d.
Proof.
  intros Hne. destruct (exists_last Hne) as [l' [x ->]].
  rewrite app_assoc, !List.last_last. reflexivity.
Qed.

(** X10. [pretrained] keeps model and loss in line with the dataset: the
    model is the one the builder makes for the dataset's [c], [is_multi] and
    [is_reg], and the loss goes with the last layer: L1 with a bare linear layer for a
    regression, else binary cross-entropy with a sigmoid for multi-label,
    else the negative log-likelihood with a log-softmax. *)
Theorem pretrained_consistent (f : arch) (ds : Data.t) (ps : ps_arg)
    (xtra_fc : option (list Z)) (xtra_cut : Z) (pc : bool)
    (kw : option (list metric)) (disk0 : gmap string carray)
    (flags0 : gmap nat bool) (log0 : list string) (r : result unit) (w : world) :
  pretrained f ds ps xtra_fc xtra_cut pc kw disk0 flags0 log0 = inr (r, w) ->
  let b := models (self w) in
  ConvnetBuilder.init f (Data.c ds) (Data.is_multi ds) (Data.is_reg ds)
    ps xtra_fc xtra_cut = Ok b /\
  data_ (self w) = ds /\
  (crit (self w), List.last (kind <$> ConvnetBuilder.model b) Flatten) =
    if Data.is_reg ds
    then (Some l1_loss,
          Linear (List.last (ConvnetBuilder.xtra_fc b) (ConvnetBuilder.nf b))
                 (Data.c ds))
    else if Data.is_multi ds then (Some binary_cross_entropy, Act Sigmoid)
    else (Some nll_loss, Act LogSoftmax).
Proof.
  unfold pretrained.
  destruct (ConvnetBuilder.init _ _ _ _ _ _ _) as [bld|e] eqn:Hb; [|discriminate].
  intros [= Hinit]. set (b := models (self w)).
  destruct (init_final_config ds bld pc kw disk0 flags0 log0)
    as (Hdata & Hmodels & _ & Hcrit).
  rewrite Hinit in Hdata, Hmodels, Hcrit. cbn [snd] in Hdata, Hmodels, Hcrit.
  assert (Hbld : b = bld).
  { unfold b. rewrite Hmodels. unfold after_metrics.
    destruct (Data.is_reg ds); [reflexivity|].
    destruct (metrics _); reflexivity. }
  rewrite Hbld. split; [reflexivity|]. split.
  { rewrite Hdata. unfold after_metrics.
    destruct (Data.is_reg ds); [reflexivity|].
    destruct (metrics _); reflexivity. }
  rewrite Hcrit, after_metrics_crit. cbn [crit self after_crit with_self set_crit start base_init].
  destruct (init_inv _ _ _ _ _ _ _ _ Hb) as (cut & _ & Hc & _ & _ & _ & _ & Hfc).
  destruct (init_shape _ _ _ _ _ _ _ _ Hb) as (Hm & _ & Hne & _ & _).
  rewrite Hm, fmap_app, last_app_nonempty.
  2:{ destruct (ConvnetBuilder.fc_model bld); [contradiction|discriminate]. }
  rewrite Hfc, kind_objects. unfold head_spec.
  rewrite last_app_nonempty by (unfold block_spec; discriminate).
  unfold block_spec, final_activation.
  destruct (Data.is_reg ds), (Data.is_multi ds),
    (num_truthy (List.last (ConvnetBuilder.ps bld) (Int 0))); reflexivity.
Qed.

(** X12. Freezing in precompute mode works on the head alone: every layer
    of the head ends trainable and the flag of every other layer is left as
    it was, so a backbone that was unfrozen stays unfrozen. *)
Theorem freeze_precompute f c is_multi is_reg ps xtra_fc xtra_cut b (w : world) :
  ConvnetBuilder.init f c is_multi is_reg ps xtra_fc xtra_cut = Ok b ->
  models (self w) = b ->
  precompute (self w) = true ->
  let w' := snd (freeze w) in
  (forall m, m ∈ ConvnetBuilder.fc_model b -> trainable w' !! oid m = Some true) /\
  (forall i, i ∉ oid <$> ConvnetBuilder.fc_model b ->
     trainable w' !! i = trainable w !! i) /\
  self w' = self w /\ disk w' = disk w /\ predicted w' = predicted w.
Proof.
  intros Hb Hmodels Hpc w'.
  destruct (builder_layer_groups _ _ _ _ _ _ _ _ Hb) as [Hgroups _].
  subst w'. unfold freeze, freeze_to. cbn [snd trainable self disk predicted].
  unfold get_layer_groups. rewrite Hmodels, Hpc, Hgroups.
  change (py_slice_from [ConvnetBuilder.fc_model b] (-1))
    with [ConvnetBuilder.fc_model b].
  cbn [foldl]. split; [|split; [|repeat split]].
  - intros m Hin. rewrite set_trainable_lookup.
    rewrite bool_decide_eq_true_2; [reflexivity|].
    apply list_elem_of_fmap. exists m. split; [reflexivity|exact Hin].
  - intros i Hni. rewrite !set_trainable_lookup.
    rewrite !bool_decide_eq_false_2 by exact Hni. reflexivity.
Qed.

(** ** The cache key *)

Lemma string_app_inj_r (s x y : string) : x +:+ s = y +:+ s -> x = y.
Proof.
  revert y. induction x as [|ch x IH]; intros [|ch' y] Heq.
  - reflexivity.
  - apply (f_equal String.length) in Heq.
    rewrite !string_length_app in Heq. simpl in Heq. lia.
  - apply (f_equal String.length) in Heq.
    rewrite !string_length_app in Heq. simpl in Heq. lia.
  - simpl in Heq. injection Heq as -> Heq. f_equal. apply IH, Heq.
Qed.

Lemma os_path_join_inj a b b' :
  is_absolute b = false -> is_absolute b' = false ->
  os_path_join a b = os_path_join a b' -> b = b'.
Proof.
  intros Hb Hb'. unfold os_path_join. rewrite Hb, Hb'.
  destruct (bool_decide (a = "") || ends_with_sep a); intros Heq.
  - exact (String.app_inj a _ _ Heq).
  - apply (String.app_inj a) in Heq. injection Heq as Heq. exact Heq.
Qed.

(** X11. The cache key tells image sizes and cuts apart: for a dataset of
    another image size, and for the same architecture cut at another depth,
    each of the three arrays has another name. *)
Theorem cache_key_separates :
  (forall (s : t) (d d' : Data.t) i n n',
     Data.sz d <> Data.sz d' ->
     activation_names s d !! i = Some n ->
     activation_names s d' !! i = Some n' ->
     n <> n') /\
  (forall (s s' : t) (d : Data.t) i n n',
     tmp_path s' = tmp_path s ->
     ConvnetBuilder.f (models s') = ConvnetBuilder.f (models s) ->
     ConvnetBuilder.xtra_cut (models s') <> ConvnetBuilder.xtra_cut (models s) ->
     activation_names s d !! i = Some n ->
     activation_names s' d !! i = Some n' ->
     n <> n').
Proof.
  split.
  - intros s d d' i n n' Hsz Hn Hn' Heq. subst n'.
    unfold activation_names in Hn, Hn'.
    destruct i as [|[|[|i]]]; cbn [fmap list_fmap lookup list_lookup] in Hn, Hn';
      try discriminate Hn;
      injection Hn as Hn; injection Hn' as Hn'; rewrite <- Hn in Hn';
      apply os_path_join_inj in Hn'; try reflexivity;
      do 4 apply (String.app_inj _) in Hn';
      apply string_app_inj_r in Hn'; apply (inj pretty) in Hn'; congruence.
  - intros s s' d i n n' Htp Hf Hxc Hn Hn' Heq. subst n'.
    unfold activation_names, ConvnetBuilder.name in Hn, Hn'.
    rewrite Htp, Hf in Hn'.
    destruct i as [|[|[|i]]]; cbn [fmap list_fmap lookup list_lookup] in Hn, Hn';
      try discriminate Hn;
      injection Hn as Hn; injection Hn' as Hn'; rewrite <- Hn in Hn';
      apply os_path_join_inj in Hn'; try reflexivity;
      do 2 apply (String.app_inj _) in Hn';
      apply string_app_inj_r in Hn';
      do 2 apply (String.app_inj _) in Hn';
      apply (inj pretty) in Hn'; congruence.
Qed.

(** ** The three ways [save_fc1] can go *)

Lemma save_fc1_explicit w d p pv pt :
  data (self w) = Ok d ->
  activation_names (self w) d = [p; pv; pt] ->
  let named := set_fc_data (arrays_data d p pv pt)
                 (set_activations [p; pv; pt] (self w)) in
  let top := ConvnetBuilder.top_model (models (self w)) in
  save_fc1 w =
    match disk w !! p with
    | Some a =>
        if bool_decide (is_Some (disk w !! pv) /\ is_Some (disk w !! pt))
        then (Ok tt,
              match rows a with
              | [] => World named (recomputed top d p pv pt (disk w))
                        (trainable w) (predicted w ++ runs d p pv pt)
              | _ :: _ => World named (disk w) (trainable w) (predicted w)
              end)
        else (Raise FileNotFoundError, w)
    | None =>
        (Ok tt,
         World named
           (recomputed top d p pv pt
              (fresh_arrays (ConvnetBuilder.nf (models (self w))) p pv pt (disk w)))
           (trainable w) (predicted w ++ runs d p pv pt))
    end.
Proof.
  intros Hd Hnames named top.
  destruct (disk w !! p) as [a|] eqn:Hp.
  - pose proof (get_activations_reuse w d p pv pt a Hd Hnames Hp) as Hga.
    destruct (bool_decide _).
    + rewrite (save_fc1_from w _ d p pv pt a Hga Hd eq_refl Hp).
      destruct (rows a); reflexivity.
    + unfold save_fc1. erewrite bind_raise by exact Hga. reflexivity.
  - pose proof (get_activations_fresh w d p pv pt false Hd Hnames (or_introl Hp))
      as Hga.
    rewrite (save_fc1_from w _ d p pv pt _ Hga Hd eq_refl
               (fresh_arrays_lookup _ p pv pt (disk w))).
    reflexivity.
Qed.

(** X13. In precompute mode [set_data] never reads the dataset it is given:
    the caching step takes its key, its loaders and its labels from the
    [data] property, which is the current [fc_data].  Two calls with
    different datasets end the same way and leave states that differ in the
    stored [data_] only. *)
Theorem set_data_precompute_blind (w : world) (ds ds' : Data.t) :
  precompute (self w) = true ->
  fst (set_data ds' w) = fst (set_data ds w) /\
  snd (set_data ds' w) = with_self (set_data_ ds') (snd (set_data ds w)).
Proof.
  intros Hpc. rewrite !set_data_eq.
  destruct w as [[pc d0 m ms cr tp fd ac] dk tr lg]. cbn [self precompute] in Hpc.
  subst pc.
  destruct fd as [dfc|].
  2:{ rewrite !(save_fc1_no_data _ AttributeError) by reflexivity.
      split; reflexivity. }
  destruct (activation_names_three
              (Build true ds m ms cr tp (Some dfc) ac) dfc) as (p & pv & pt & Hn).
  set (w0 := World (Build true d0 m ms cr tp (Some dfc) ac) dk tr lg).
  rewrite (save_fc1_explicit (with_self (set_data_ ds') w0) dfc p pv pt
             eq_refl Hn).
  rewrite (save_fc1_explicit (with_self (set_data_ ds) w0) dfc p pv pt
             eq_refl Hn).
  cbn [disk with_self self models set_data_ trainable predicted w0].
  destruct (dk !! p) as [a|].
  - destruct (bool_decide _); [|split; reflexivity].
    destruct (rows a); split; reflexivity.
  - split; reflexivity.
Qed.

(** X14. When [get_activations] does not find the primary array, or is
    forced, it leaves three empty arrays of width [nf] under the three names,
    whatever was there before (validation or test activations cached earlier
    are gone); it touches no other array, does not run the backbone, and sets
    [activations] to the three names. *)
Theorem get_activations_creates (w : world) (d : Data.t) (p pv pt : string)
    (force : bool) :
  data (self w) = Ok d ->
  activation_names (self w) d = [p; pv; pt] ->
  disk w !! p = None \/ force = true ->
  let w' := snd (get_activations force w) in
  let nf := ConvnetBuilder.nf (models (self w)) in
  fst (get_activations force w) = Ok tt /\
  (forall k, k ∈ [p; pv; pt] -> disk w' !! k = Some (Carray nf [])) /\
  (forall k, k ∉ [p; pv; pt] -> disk w' !! k = disk w !! k) /\
  activations (self w') = Some [p; pv; pt] /\
  predicted w' = predicted w /\ trainable w' = trainable w.
Proof.
  intros Hd Hnames Hwhy w' nf. subst w'.
  rewrite (get_activations_fresh w d p pv pt force Hd Hnames Hwhy).
  cbn [fst snd disk with_self with_disk self set_activations activations
       predicted trainable]. fold nf.
  destruct (fresh_arrays_lookup_others nf p pv pt (disk w)) as (Fpv & Fpt & Fother).
  split; [reflexivity|]. split.
  { intros k Hk.
    repeat (apply elem_of_cons in Hk as [->|Hk]);
      [apply fresh_arrays_lookup|assumption|assumption|].
    apply elem_of_nil in Hk. contradiction. }
  split; [|repeat split].
  intros k Hk. apply Fother; intros ->; apply Hk; repeat constructor.
Qed.

(** ** Switching datasets *)

Lemma fresh_arrays_no_rows nf p pv pt (dk : gmap string carray) :
  no_rows (fresh_arrays nf p pv pt dk) p /\
  no_rows (fresh_arrays nf p pv pt dk) pv /\
  no_rows (fresh_arrays nf p pv pt dk) pt.
Proof.
  destruct (fresh_arrays_lookup_others nf p pv pt dk) as (Fpv & Fpt & _).
  pose proof (fresh_arrays_lookup nf p pv pt dk) as Fp.
  repeat split; eexists; (split; [eassumption|reflexivity]).
Qed.

(** Run into an array without rows, the backbone leaves there exactly its
    outputs over the loader. *)
Lemma recomputed_outputs m (d : Data.t) p pv pt (dk : gmap string carray) :
  p <> pv -> p <> pt -> pv <> pt ->
  (no_rows dk p ->
   holds_outputs m (Data.fix_dl d) (recomputed m d p pv pt dk) p) /\
  (no_rows dk pv ->
   holds_outputs m (Data.val_dl d) (recomputed m d p pv pt dk) pv) /\
  (no_rows dk pt ->
   holds_outputs m (default [] (Data.test_dl d)) (recomputed m d p pv pt dk) pt).
Proof.
  intros H1' H2' H3'.
  destruct (recomputed_lookup m d p pv pt dk H1' H2' H3') as (Ep & Epv & Ept & _).
  unfold holds_outputs. rewrite Ep, Epv, Ept.
  split; [|split]; intros (a & Ha & Hra); rewrite Ha.
  - cbn. rewrite Hra. reflexivity.
  - cbn. rewrite Hra. reflexivity.
  - destruct (Data.test_dl d); cbn; rewrite Hra; reflexivity.
Qed.

Lemma recomputed_others m (d : Data.t) p pv pt (dk : gmap string carray) k :
  k ∉ [p; pv; pt] -> recomputed m d p pv pt dk !! k = dk !! k.
Proof.
  intros Hk. unfold recomputed, predicted_into.
  destruct (Data.test_dl d);
    rewrite ?lookup_alter_ne; try reflexivity;
    intros ->; apply Hk; repeat constructor.
Qed.

(** No layer before the head is a layer of the head. *)
Lemma top_not_head f c is_multi is_reg ps xtra_fc xtra_cut b m :
  ConvnetBuilder.init f c is_multi is_reg ps xtra_fc xtra_cut = Ok b ->
  m ∈ ConvnetBuilder.top_model b ->
  oid m ∉ oid <$> ConvnetBuilder.fc_model b.
Proof.
  intros Hb Hin Hfc.
  destruct (init_shape _ _ _ _ _ _ _ _ Hb) as (Hm & _ & _ & _ & Hoid).
  apply list_elem_of_lookup in Hin as [j Hj].
  pose proof (lookup_lt_Some _ _ _ Hj) as Hlt.
  apply list_elem_of_fmap in Hfc as (m' & Heq & Hin').
  apply list_elem_of_lookup in Hin' as [i Hi].
  assert (Hmj : ConvnetBuilder.model b !! j = Some m).
  { rewrite Hm, lookup_app_l by lia. exact Hj. }
  assert (Hmi : ConvnetBuilder.model b !!
                  (length (ConvnetBuilder.top_model b) + i)%nat = Some m').
  { rewrite Hm, lookup_app_r by lia.
    replace (_ + i - _)%nat with i by lia. exact Hi. }
  apply Hoid in Hmj. apply Hoid in Hmi. lia.
Qed.

(** In precompute mode [freeze] writes the flags of the head only. *)
Lemma freeze_head_only w i :
  precompute (self w) = true ->
  i ∉ oid <$> ConvnetBuilder.fc_model (models (self w)) ->
  trainable (snd (freeze w)) !! i = trainable w !! i.
Proof.
  intros Hpc Hni. unfold freeze, freeze_to. cbn [snd trainable].
  unfold get_layer_groups. rewrite Hpc.
  unfold ConvnetBuilder.get_layer_groups, children. rewrite split_whole.
  change (py_slice_from [ConvnetBuilder.fc_model (models (self w))] (-1))
    with [ConvnetBuilder.fc_model (models (self w))].
  cbn [foldl]. rewrite !set_trainable_lookup.
  rewrite !bool_decide_eq_false_2 by exact Hni. reflexivity.
Qed.

(** In precompute mode the dataset handed to [set_data] is stored and not
    read. *)
Lemma set_data_precompute (w : world) (ds : Data.t) :
  precompute (self w) = true ->
  set_data ds w =
    (fst (bind save_fc1 (fun _ => freeze) w),
     with_self (set_data_ ds) (snd (bind save_fc1 (fun _ => freeze) w))).
Proof.
  intros Hpc. rewrite set_data_eq. unfold bind.
  destruct w as [[pc d0 m ms cr tp fd ac] dk tr lg]. cbn [self precompute] in Hpc.
  subst pc.
  destruct fd as [dfc|].
  2:{ rewrite !(save_fc1_no_data _ AttributeError) by reflexivity. reflexivity. }
  destruct (activation_names_three
              (Build true ds m ms cr tp (Some dfc) ac) dfc) as (p & pv & pt & Hn).
  set (w0 := World (Build true d0 m ms cr tp (Some dfc) ac) dk tr lg).
  rewrite (save_fc1_explicit (with_self (set_data_ ds) w0) dfc p pv pt
             eq_refl Hn).
  rewrite (save_fc1_explicit w0 dfc p pv pt eq_refl Hn).
  cbn [disk with_self self models set_data_ trainable predicted w0].
  destruct (dk !! p) as [a|].
  - destruct (bool_decide _); [|reflexivity].
    destruct (rows a); reflexivity.
  - reflexivity.
Qed.

(** C8 (as amended).  On a learner whose model the builder assembled,
    [set_data] stores the new dataset.  In normal mode, with the three array
    names of the new dataset's key:
    - when the primary array is not on disk, or is there without rows beside
      a validation and a test array, the cache is recomputed for the new
      dataset and the backbone refrozen: the call succeeds, the backbone is
      run once over the training and validation loaders and over the test
      loader when there is one, the primary array holds exactly the outputs
      over the training loader, the validation and test arrays hold exactly
      the outputs over their loaders when this call created them or found
      them without rows, no other array changes, [fc_data] is built from
      the three arrays, and every layer before the head ends untrainable,
      every head layer trainable;
    - when the primary array has rows, nothing is recomputed: the arrays and
      the log of backbone runs are as they were, and with the validation and
      test arrays on disk the call succeeds and the backbone is refrozen;
    - when the primary array is there and the validation or the test array
      is not, [FileNotFoundError] is raised and nothing but the stored
      dataset has changed.
    In precompute mode the new dataset is stored and not read: the call is
    [save_fc1] then [freeze] on the learner as it was, an [AttributeError]
    without [fc_data], and the flag of every layer before the head is left
    as it was. *)
Theorem set_data_spec f c is_multi is_reg ps xtra_fc xtra_cut
    (w : world) (ds : Data.t) :
  ConvnetBuilder.init f c is_multi is_reg ps xtra_fc xtra_cut
    = Ok (models (self w)) ->
  let b := models (self w) in
  let top := ConvnetBuilder.top_model b in
  let r := fst (set_data ds w) in
  let wf := snd (set_data ds w) in
  data_ (self wf) = ds /\
  (precompute (self w) = false ->
   forall p pv pt, activation_names (self w) ds = [p; pv; pt] ->
     (disk w !! p = None \/
      (no_rows (disk w) p /\
       is_Some (disk w !! pv) /\ is_Some (disk w !! pt)) ->
      r = Ok tt /\
      predicted wf = predicted w ++ runs ds p pv pt /\
      holds_outputs top (Data.fix_dl ds) (disk wf) p /\
      (disk w !! p = None \/ no_rows (disk w) pv ->
       holds_outputs top (Data.val_dl ds) (disk wf) pv) /\
      (disk w !! p = None \/ no_rows (disk w) pt ->
       holds_outputs top (default [] (Data.test_dl ds)) (disk wf) pt) /\
      (forall k, k ∉ [p; pv; pt] -> disk wf !! k = disk w !! k) /\
      fc_data (self wf) = Some (arrays_data ds p pv pt) /\
      refrozen b wf) /\
     (forall a, disk w !! p = Some a -> rows a <> [] ->
      disk wf = disk w /\ predicted wf = predicted w /\
      (is_Some (disk w !! pv) /\ is_Some (disk w !! pt) ->
       r = Ok tt /\
       fc_data (self wf) = Some (arrays_data ds p pv pt) /\
       refrozen b wf)) /\
     (is_Some (disk w !! p) ->
      ~ (is_Some (disk w !! pv) /\ is_Some (disk w !! pt)) ->
      r = Raise FileNotFoundError /\ wf = with_self (set_data_ ds) w)) /\
  (precompute (self w) = true ->
   set_data ds w =
     (fst (bind save_fc1 (fun _ => freeze) w),
      with_self (set_data_ ds) (snd (bind save_fc1 (fun _ => freeze) w))) /\
   (fc_data (self w) = None -> r = Raise AttributeError) /\
   (forall m, m ∈ top -> trainable wf !! oid m = trainable w !! oid m)).
Proof.
  intros Hb b top r wf.
  set (w1 := with_self (set_data_ ds) w).
  pose proof (save_fc1_config w1) as Hcfg.
  assert (Hset : set_data ds w =
            match save_fc1 w1 with
            | (Ok _, w2) => freeze w2
            | (Raise e, w2) => (Raise e, w2)
            end) by apply set_data_eq.
  split; [|split].
  - unfold wf. rewrite Hset.
    destruct Hcfg as (_ & Hd & _).
    destruct (save_fc1 w1) as [[[]|e] w2]; cbn [snd] in *;
      unfold freeze; rewrite ?freeze_to_self; exact Hd.
  - intros Hpc p pv pt Hnames.
    assert (Hd1 : data (self w1) = Ok ds).
    { unfold data. cbn [w1 with_self self set_data_ precompute data_].
      rewrite Hpc. reflexivity. }
    assert (Hn1 : activation_names (self w1) ds = [p; pv; pt]) by exact Hnames.
    destruct (names_distinct (self w) ds)
      as (p' & pv' & pt' & Hn' & Hppv & Hppt & Hpvpt).
    rewrite Hnames in Hn'. injection Hn' as <- <- <-.
    pose proof (save_fc1_explicit w1 ds p pv pt Hd1 Hn1) as Hsf.
    cbv zeta in Hsf. change (disk w1) with (disk w) in Hsf.
    change (trainable w1) with (trainable w) in Hsf.
    change (predicted w1) with (predicted w) in Hsf.
    change (ConvnetBuilder.top_model (models (self w1))) with top in Hsf.
    assert (Hfrozen : forall s' dk lg,
              models s' = b -> precompute s' = false ->
              refrozen b (snd (freeze (World s' dk (trainable w) lg)))).
    { intros s' dk lg Hm' Hp' m.
      apply (freeze_flags _ _ _ _ _ _ _ b (World s' dk (trainable w) lg) Hb Hm' Hp'). }
    split; [|split].
    + intros Hempty.
      assert (Hrec : exists dk0,
                save_fc1 w1 =
                  (Ok tt, World (set_fc_data (arrays_data ds p pv pt)
                                   (set_activations [p; pv; pt] (self w1)))
                            (recomputed top ds p pv pt dk0)
                            (trainable w) (predicted w ++ runs ds p pv pt)) /\
                no_rows dk0 p /\
                (disk w !! p = None \/ no_rows (disk w) pv -> no_rows dk0 pv) /\
                (disk w !! p = None \/ no_rows (disk w) pt -> no_rows dk0 pt) /\
                (forall k, k ∉ [p; pv; pt] -> dk0 !! k = disk w !! k)).
      { destruct Hempty as [Hnone|(Hp & Hpv & Hpt)].
        - rewrite Hnone in Hsf. eexists. split; [exact Hsf|].
          destruct (fresh_arrays_no_rows (ConvnetBuilder.nf (models (self w1)))
                      p pv pt (disk w)) as (? & ? & ?).
          repeat split; try (intros _; assumption); try assumption.
          intros k Hk.
          apply (fresh_arrays_lookup_others _ p pv pt (disk w));
            intros ->; apply Hk; repeat constructor.
        - destruct Hp as (a & Ha & Hra). rewrite Ha, Hra in Hsf.
          rewrite bool_decide_eq_true_2 in Hsf by (split; assumption).
          exists (disk w). split; [exact Hsf|].
          split; [exists a; split; assumption|].
          split; [intros [Hnone|Hv]; [rewrite Ha in Hnone; discriminate|exact Hv]|].
          split; [intros [Hnone|Ht]; [rewrite Ha in Hnone; discriminate|exact Ht]|].
          reflexivity. }
      destruct Hrec as (dk0 & Hsf' & Hp0 & Hpv0 & Hpt0 & Hother).
      destruct (recomputed_outputs top ds p pv pt dk0 Hppv Hppt Hpvpt)
        as (Op & Opv & Opt).
      unfold r, wf. rewrite Hset, Hsf'.
      split; [reflexivity|]. split; [reflexivity|].
      split; [apply Op, Hp0|].
      split; [intros Hv; apply Opv, Hpv0, Hv|].
      split; [intros Ht; apply Opt, Hpt0, Ht|].
      split.
      { intros k Hk. cbn [snd freeze freeze_to disk].
        rewrite recomputed_others by exact Hk. apply Hother, Hk. }
      split; [reflexivity|].
      apply Hfrozen; [reflexivity|exact Hpc].
    + intros a Ha Hrows. rewrite Ha in Hsf.
      unfold r, wf. rewrite Hset, Hsf.
      destruct (rows a) as [|x xs]; [contradiction|].
      case_bool_decide as Hall.
      * split; [reflexivity|]. split; [reflexivity|]. intros _.
        split; [reflexivity|]. split; [reflexivity|].
        apply Hfrozen; [reflexivity|exact Hpc].
      * split; [reflexivity|]. split; [reflexivity|]. intros Hall'.
        contradiction.
    + intros [a Ha] Hmiss. rewrite Ha in Hsf.
      rewrite bool_decide_eq_false_2 in Hsf by exact Hmiss.
      unfold r, wf. rewrite Hset, Hsf. split; reflexivity.
  - intros Hpc. split; [apply set_data_precompute, Hpc|]. split.
    + intros Hnone. unfold r. rewrite Hset.
      rewrite (save_fc1_no_data w1 AttributeError); [reflexivity|].
      unfold data. cbn [w1 with_self self set_data_ precompute fc_data].
      rewrite Hpc, Hnone. reflexivity.
    + intros m Hin. unfold wf. rewrite Hset.
      destruct Hcfg as (Hpc2 & _ & Hm2 & _ & _ & _ & Htr).
      destruct (save_fc1 w1) as [[[]|e] w2]; cbn [snd] in *.
      * rewrite freeze_head_only.
        -- rewrite Htr. reflexivity.
        -- rewrite Hpc2. exact Hpc.
        -- rewrite Hm2. apply (top_not_head _ _ _ _ _ _ _ _ _ Hb Hin).
      * rewrite Htr. reflexivity.
Qed.

(** ** Freezing again *)

(** A second freeze, in either mode, after a freeze in normal mode. *)
Lemma freeze_twice f c is_multi is_reg ps xtra_fc xtra_cut b w pc :
  ConvnetBuilder.init f c is_multi is_reg ps xtra_fc xtra_cut = Ok b ->
  models (self w) = b -> precompute (self w) = false ->
  let w' := with_self (set_precompute pc) (snd (freeze w)) in
  freeze w' = (Ok tt, w').
Proof.
  intros Hb Hmodels Hpc w'.
  destruct (builder_layer_groups _ _ _ _ _ _ _ _ Hb) as [Hhead Hfull].
  subst w'. unfold freeze, freeze_to.
  cbn [snd self disk trainable predicted with_self].
  unfold get_layer_groups. cbn [set_precompute precompute models].
  rewrite Hmodels, Hpc, Hfull.
  set (g1 := take _ _). set (g2 := drop _ _).
  set (fc := ConvnetBuilder.fc_model b) in *.
  change (py_slice_from [g1; g2; fc] (-1)) with [fc].
  unfold with_self. cbn [self disk trainable predicted].
  match goal with
  | |- (_, World _ _ ?t _) = (_, World _ _ ?t' _) =>
      assert (Htr : t = t'); [|rewrite Htr; reflexivity]
  end.
  apply map_eq. intros i.
  destruct pc.
  - rewrite Hhead. fold fc. change (py_slice_from [fc] (-1)) with [fc].
    cbn [foldl]. rewrite !set_trainable_lookup.
    repeat case_bool_decide; reflexivity.
  - rewrite Hfull. fold g1 g2 fc. change (py_slice_from [g1; g2; fc] (-1)) with [fc].
    cbn [foldl]. rewrite !set_trainable_lookup.
    repeat case_bool_decide; reflexivity.
Qed.

(** X15. One set of head objects.  The layers of [fc_model] are the objects
    that end [model]: each is a layer of the full model, and the flags that
    [freeze] sets through the groups of the full model are the ones it finds
    through [fc_model].  So after a freeze in normal mode a second freeze
    changes nothing, in normal mode and after a switch to precompute mode
    alike; in particular [freeze()] leaves a constructed learner, built with
    or without [precompute], exactly as it is. *)
Theorem freeze_after_freeze f c is_multi is_reg ps xtra_fc xtra_cut b :
  ConvnetBuilder.init f c is_multi is_reg ps xtra_fc xtra_cut = Ok b ->
  (forall w pc,
     models (self w) = b -> precompute (self w) = false ->
     let w' := with_self (set_precompute pc) (snd (freeze w)) in
     freeze w' = (Ok tt, w') /\
     (pc = true ->
      get_layer_groups (self w') = [ConvnetBuilder.fc_model b] /\
      forall m, m ∈ ConvnetBuilder.fc_model b ->
        m ∈ ConvnetBuilder.model b /\ trainable w' !! oid m = Some true)) /\
  (forall ds pc kw disk0 flags0 log0 wf,
     init ds b pc kw disk0 flags0 log0 = (Ok tt, wf) ->
     freeze wf = (Ok tt, wf)).
Proof.
  intros Hb. split.
  - intros w pc Hmodels Hpc w'. split.
    + apply (freeze_twice _ _ _ _ _ _ _ _ _ _ Hb Hmodels Hpc).
    + intros ->. destruct (builder_layer_groups _ _ _ _ _ _ _ _ Hb) as [Hhead _].
      split.
      { unfold get_layer_groups. subst w'.
        cbn [self with_self set_precompute precompute models].
        unfold freeze; rewrite ?freeze_to_self; cbn [snd self freeze_to].
        rewrite Hmodels. exact Hhead. }
      intros m Hin. split.
      { destruct (init_shape _ _ _ _ _ _ _ _ Hb) as (-> & _).
        apply elem_of_app. right. exact Hin. }
      subst w'. cbn [trainable with_self].
      apply (freeze_flags _ _ _ _ _ _ _ _ w Hb Hmodels Hpc m). exact Hin.
  - intros ds pc kw disk0 flags0 log0 wf Hinit.
    unfold init in Hinit. rewrite init_trace_eq in Hinit.
    set (w2 := after_metrics ds (after_crit ds (start ds b kw disk0 flags0 log0)))
      in Hinit.
    assert (Hw2 : precompute (self w2) = false /\ models (self w2) = b).
    { unfold w2, after_metrics. destruct (Data.is_reg ds); [repeat split|].
      destruct (metrics (self (after_crit ds _))); repeat split. }
    destruct Hw2 as [Hpc2 Hm2].
    assert (Hcfg : same_config w2 (snd ((if pc then save_fc1 else ret tt) w2))).
    { destruct pc; [apply save_fc1_config|repeat split]. }
    destruct Hcfg as (Hpc3 & _ & Hm3 & _).
    destruct ((if pc then save_fc1 else ret tt) w2) as [[[]|e] w3];
      cbn [fst snd] in *; [|discriminate Hinit].
    cbn [List.last] in Hinit. injection Hinit as <-.
    apply (freeze_twice _ _ _ _ _ _ _ _ _ _ Hb); congruence.
Qed.

End Properties.

(** * The properties on the stand-in framework *)

#[local] Existing Instance toy_backbones.
#[local] Existing Instance toy_tensors.
#[local] Existing Instance toy_runtime.

(** C3, the claim as written fails: a learner built on a regression dataset
    with no metrics has [metrics] equal to [None], not plain accuracy. *)
Lemma init_metrics_regression :
  exists b, ConvnetBuilder.init resnet34 1 false true PsNone None 0 = Ok b /\
    ConvLearner.metrics
      (ConvLearner.self
         (snd (ConvLearner.init (toy_data false true) b false None ∅ ∅ []))) = None /\
    ConvLearner.metrics
      (ConvLearner.self
         (snd (ConvLearner.init (toy_data false true) b false None ∅ ∅ [])))
      <> Some [accuracy].
Proof. eexists. split; [reflexivity|]. split; [reflexivity|discriminate]. Qed.

(** C1 on the stand-in: [resnet34] has no written width, the inferred count
    is 512, so the head starts with a batch-norm of width 1024. *)
Lemma head_input_width_resnet34 :
  exists b rest,
    ConvnetBuilder.init resnet34 10 false false PsNone None 0 = Ok b /\
    ConvnetBuilder.nf b = 1024 /\
    ConvnetBuilder.get_fc_layers b = Ok (BatchNorm1d 1024 :: rest) /\
    kind <$> ConvnetBuilder.fc_model b = BatchNorm1d 1024 :: rest /\
    kind <$> ConvnetBuilder.model b =
      (Pretrained <$> cut_model (pretrained resnet34) 8)
        ++ [AdaptiveConcatPool2d; Flatten] ++ BatchNorm1d 1024 :: rest.
Proof.
  exact (head_input_width resnet34 10 false false PsNone None 0 8 6 eq_refl).
Defined.

(** C4 on the stand-in: a multi-label regression head with one rate of
    zero. *)
Lemma head_blocks_vgg16 :
  exists b,
    ConvnetBuilder.init vgg16 3 true true (PsList [Int 0; Float 0.5])
      (Some [100]) 0 = Ok b /\
    kind <$> ConvnetBuilder.fc_model b =
      [BatchNorm1d 1024; Linear 1024 100; Act ReLU;
       BatchNorm1d 100; Dropout (Float 0.5); Linear 100 3].
Proof.
  eexists. split; [reflexivity|].
  exact (proj2 (proj2 (proj2 head_blocks) vgg16 3 true true
                  (PsList [Int 0; Float 0.5]) (Some [100]) 0 _ eq_refl)).
Defined.

(** C10 on the stand-in. *)
Lemma falsy_defaults_resnet34 :
  exists b,
    ConvnetBuilder.init resnet34 10 false false (PsScalar (Int 0)) (Some []) 0
      = Ok b /\
    kind <$> ConvnetBuilder.fc_model b =
      [BatchNorm1d 1024; Dropout (Float 0.25); Linear 1024 512; Act ReLU;
       BatchNorm1d 512; Dropout (Float 0.5); Linear 512 10; Act LogSoftmax].
Proof.
  exact (proj1 (proj2 (falsy_defaults resnet34 10 false false 0 8 6 eq_refl))
           (PsScalar (Int 0)) (Some []) eq_refl eq_refl).
Defined.

(** C5, the claim as written fails: cut five layers earlier, [resnet34]
    keeps three backbone layers and the two adapters, fewer than its
    [lr_cut] of six, so the first group runs into the head and the three
    groups are not backbone prefix, backbone suffix and head. *)
Lemma layer_groups_short_backbone :
  exists b,
    ConvnetBuilder.init resnet34 10 false false PsNone None 5 = Ok b /\
    ConvnetBuilder.get_layer_groups b false =
      [ConvnetBuilder.top_model b ++ [Obj 5 (BatchNorm1d 1024)];
       [];
       ConvnetBuilder.fc_model b] /\
    Obj 5 (BatchNorm1d 1024) ∈ ConvnetBuilder.fc_model b /\
    forall g1 g2,
      ConvnetBuilder.get_layer_groups b false = [g1; g2; ConvnetBuilder.fc_model b] ->
      g1 ++ g2 <> ConvnetBuilder.top_model b.
Proof.
  eexists. split; [reflexivity|]. split; [reflexivity|]. split.
  - constructor.
  - intros g1 g2 [= <- <-]. discriminate.
Qed.

(** C5 on the stand-in, with the default cut. *)
Lemma layer_groups_resnet34 :
  exists b,
    ConvnetBuilder.init resnet34 10 false false PsNone None 0 = Ok b /\
    ConvnetBuilder.get_layer_groups b true = [ConvnetBuilder.fc_model b] /\
    exists g1 g2,
      ConvnetBuilder.get_layer_groups b false = [g1; g2; ConvnetBuilder.fc_model b] /\
      g1 ++ g2 = ConvnetBuilder.top_model b.
Proof.
  eexists. split; [reflexivity|].
  destruct (layer_groups_partition resnet34 10 false false PsNone None 0 _ eq_refl)
    as (Hfc & (g1 & g2 & Hfull & Hsplit) & _).
  split; [exact Hfc|]. exists g1, g2. split; [exact Hfull|].
  apply Hsplit. vm_compute. discriminate.
Defined.

(** C8, the claim as written fails, three times over.  In normal mode a
    later learner on a directory where a first session cached its
    activations is given another dataset of the same image size: the
    backbone is not run, the arrays are untouched, the primary array still
    holds the rows of the first dataset.  In precompute mode, with the
    backbone unfrozen in between ([unfreeze] is [freeze_to(0)]), a dataset of
    another image size is handed over: no array of its key is made, the
    backbone is run into arrays keyed by the size of [fc_data], and the first
    backbone layer is still trainable.  And in normal mode with the
    validation array gone from the directory, [set_data] raises
    [FileNotFoundError] and the unfrozen backbone stays unfrozen. *)
Lemma set_data_keeps_cache :
  exists b,
    ConvnetBuilder.init resnet34 2 false false PsNone None 0 = Ok b /\
    let first := snd (ConvLearner.init (toy_data false false) b true None ∅ ∅ []) in
    (let later := snd (ConvLearner.init (toy_data false false) b false None
                         (ConvLearner.disk first) ∅ []) in
     let r := ConvLearner.set_data toy_data_other later in
     fst r = Ok tt /\
     ConvLearner.data_ (ConvLearner.self (snd r)) = toy_data_other /\
     ConvLearner.predicted (snd r) = ConvLearner.predicted later /\
     ConvLearner.disk (snd r) = ConvLearner.disk later /\
     ConvLearner.disk (snd r) !! "data/tmp/x_act_resnet34_0_224.bc"
       = Some toy_cached) /\
    (let unfrozen := snd (ConvLearner.freeze_to 0
                            (ConvLearner.with_self
                               (ConvLearner.set_precompute false) first)) in
     let s := ConvLearner.with_self (ConvLearner.set_precompute true) unfrozen in
     let r := ConvLearner.set_data toy_data_299 s in
     fst r = Ok tt /\
     ConvLearner.data_ (ConvLearner.self (snd r)) = toy_data_299 /\
     ConvLearner.disk (snd r) !! "data/tmp/x_act_resnet34_0_299.bc" = None /\
     ConvLearner.predicted (snd r) =
       ConvLearner.predicted s ++ ["data/tmp/x_act_resnet34_0_1024.bc";
                                   "data/tmp/x_act_val_resnet34_0_1024.bc"] /\
     ConvLearner.trainable s !! 0%nat = Some true /\
     ConvLearner.trainable (snd r) !! 0%nat = Some true) /\
    (let later := snd (ConvLearner.init (toy_data false false) b false None
                         (delete "data/tmp/x_act_val_resnet34_0_224.bc"
                            (ConvLearner.disk first)) ∅ []) in
     let unfrozen := snd (ConvLearner.freeze_to 0 later) in
     let r := ConvLearner.set_data toy_data_other unfrozen in
     fst r = Raise FileNotFoundError /\
     ConvLearner.disk (snd r) = ConvLearner.disk later /\
     ConvLearner.predicted (snd r) = ConvLearner.predicted later /\
     ConvLearner.trainable unfrozen !! 0%nat = Some true /\
     ConvLearner.trainable (snd r) !! 0%nat = Some true).
Proof.
  eexists. split; [reflexivity|]. split; [|split].
  - repeat split; vm_compute; reflexivity.
  - repeat split; vm_compute; reflexivity.
  - repeat split; vm_compute; reflexivity.
Qed.

(** C7 on the stand-in: a second session on a directory where a first one
    cached its activations opens the arrays and leaves them alone. *)
Lemma cache_reuse_later_session :
  exists b,
    ConvnetBuilder.init resnet34 2 false false PsNone None 0 = Ok b /\
    let first := snd (ConvLearner.init (toy_data false false) b true None ∅ ∅ []) in
    let later := snd (ConvLearner.init (toy_data false false) b false None
                        (ConvLearner.disk first) ∅ []) in
    ConvLearner.disk (snd (ConvLearner.save_fc1 later)) = ConvLearner.disk later /\
    ConvLearner.predicted (snd (ConvLearner.save_fc1 later))
      = ConvLearner.predicted later /\
    fst (ConvLearner.save_fc1 later) = Ok tt.
Proof.
  eexists. split; [reflexivity|]. intros first later.
  destruct (proj1 cache_reuse later (toy_data false false)
              "data/tmp/x_act_resnet34_0_224.bc"
              "data/tmp/x_act_val_resnet34_0_224.bc"
              "data/tmp/x_act_test_resnet34_0_224.bc"
              toy_cached
              ltac:(vm_compute; reflexivity) ltac:(vm_compute; reflexivity)
              ltac:(vm_compute; reflexivity) ltac:(discriminate))
    as (_ & [Hdisk Hlog] & Hpresent & _).
  split; [exact Hdisk|]. split; [exact Hlog|].
  apply Hpresent. split; vm_compute; eauto.
Defined.

(** C8 on the stand-in: on an empty disk the activations of the new dataset
    are computed and the backbone refrozen; on the directory of an earlier
    session the arrays of the first dataset are reused. *)
Lemma set_data_spec_later_session :
  exists b,
    ConvnetBuilder.init resnet34 2 false false PsNone None 0 = Ok b /\
    (let w := snd (ConvLearner.init (toy_data false false) b false None ∅ ∅ []) in
     let wf := snd (ConvLearner.set_data toy_data_other w) in
     fst (ConvLearner.set_data toy_data_other w) = Ok tt /\
     holds_outputs (ConvnetBuilder.top_model b)
       (Data.fix_dl toy_data_other) (ConvLearner.disk wf)
       "data/tmp/x_act_resnet34_0_224.bc" /\
     holds_outputs (ConvnetBuilder.top_model b)
       (Data.val_dl toy_data_other) (ConvLearner.disk wf)
       "data/tmp/x_act_val_resnet34_0_224.bc" /\
     refrozen b wf) /\
    (let first := snd (ConvLearner.init (toy_data false false) b true None ∅ ∅ []) in
     let later := snd (ConvLearner.init (toy_data false false) b false None
                         (ConvLearner.disk first) ∅ []) in
     let wf := snd (ConvLearner.set_data toy_data_other later) in
     ConvLearner.data_ (ConvLearner.self wf) = toy_data_other /\
     ConvLearner.disk wf = ConvLearner.disk later /\
     ConvLearner.predicted wf = ConvLearner.predicted later /\
     refrozen b wf).
Proof.
  eexists. split; [reflexivity|]. split.
  - intros w wf.
    pose proof (set_data_spec resnet34 2 false false PsNone None 0 w toy_data_other
                  ltac:(vm_compute; reflexivity)) as (_ & Hnormal & _).
    destruct (Hnormal ltac:(vm_compute; reflexivity)
                "data/tmp/x_act_resnet34_0_224.bc"
                "data/tmp/x_act_val_resnet34_0_224.bc"
                "data/tmp/x_act_test_resnet34_0_224.bc"
                ltac:(vm_compute; reflexivity)) as (Hnew & _ & _).
    destruct (Hnew ltac:(left; vm_compute; reflexivity))
      as (Hok & _ & Hp & Hpv & _ & _ & _ & Hfrozen).
    split; [exact Hok|]. split; [exact Hp|].
    split; [apply Hpv; left; vm_compute; reflexivity|exact Hfrozen].
  - intros first later wf.
    pose proof (set_data_spec resnet34 2 false false PsNone None 0 later
                  toy_data_other ltac:(vm_compute; reflexivity))
      as (Hdata & Hnormal & _).
    destruct (Hnormal ltac:(vm_compute; reflexivity)
                "data/tmp/x_act_resnet34_0_224.bc"
                "data/tmp/x_act_val_resnet34_0_224.bc"
                "data/tmp/x_act_test_resnet34_0_224.bc"
                ltac:(vm_compute; reflexivity)) as (_ & Hold & _).
    destruct (Hold toy_cached ltac:(vm_compute; reflexivity) ltac:(discriminate))
      as (Hdisk & Hlog & Hrest).
    destruct (Hrest ltac:(split; vm_compute; eauto)) as (_ & _ & Hfrozen).
    split; [exact Hdata|]. split; [exact Hdisk|]. split; [exact Hlog|exact Hfrozen].
Defined.

(** C9 on the stand-in: built with [precompute], the learner ends with the
    flag set, the last backbone layer frozen and the first head layer
    trainable. *)
Lemma init_frozen_resnet34 :
  exists b,
    ConvnetBuilder.init resnet34 2 false false PsNone None 0 = Ok b /\
    let wf := snd (ConvLearner.init (toy_data false false) b true None ∅ ∅ []) in
    ConvLearner.precompute (ConvLearner.self wf) = true /\
    ConvLearner.trainable wf !! 7%nat = Some false /\
    ConvLearner.trainable wf !! 10%nat = Some true.
Proof.
  eexists. split; [reflexivity|]. intros wf.
  match goal with
  | wf := snd (ConvLearner.init _ ?b _ _ _ _ _) |- _ =>
      destruct (init_frozen (toy_data false false) b true None ∅ ∅ [])
        as (_ & _ & Hends & Hflags)
  end.
  destruct (Hends ltac:(vm_compute; reflexivity))
    as (w0 & w1 & w2 & w3 & w4 & _ & _ & _ & _ & _ & _ & _ & Hpc & _).
  split; [exact Hpc|].
  pose proof (Hflags resnet34 2 false false PsNone None 0 eq_refl
                ltac:(vm_compute; reflexivity)) as Hm.
  split.
  - apply (proj1 (Hm (@Obj toy_backbones 7 (@Pretrained toy_backbones (Child 7))))). vm_compute.
    do 7 right. left.
  - apply (proj2 (Hm (@Obj toy_backbones 10 (BatchNorm1d 1024)))). vm_compute. left.
Defined.

(** X1 on the stand-in: an unregistered architecture, a scalar rate over four
    hidden layers, the default rates over three. *)
Lemma builder_errors_custom :
  ConvnetBuilder.init (custom "mynet") 10 false false PsNone None 0
    = Raise KeyError /\
  (exists b,
     ConvnetBuilder.init resnet34 10 false false (PsScalar (Float 0.5))
       (Some [64; 32; 16; 8]) 0 = Ok b /\
     ConvnetBuilder.ps b = replicate 5 (Float 0.5) /\
     Forall (fun l => layer_accepted l = true)
            (kind <$> ConvnetBuilder.fc_model b)) /\
  ConvnetBuilder.init resnet34 10 false false PsNone (Some [64; 32; 16]) 0
    = Raise IndexError.
Proof.
  assert (Hw : forall xtra_cut cut lr_cut,
            model_meta resnet34 = Some (cut, lr_cut) ->
            0 < feature_width resnet34 (cut - xtra_cut)).
  { intros xtra_cut cut lr_cut _. reflexivity. }
  split; [|split].
  - apply (proj1 (builder_errors (custom "mynet") 10 false false PsNone None 0
                    eq_refl ltac:(lia)
                    ltac:(repeat constructor)
                    ltac:(intros cut lr_cut Hm; discriminate Hm))).
    left. split; reflexivity.
  - pose proof (builder_errors resnet34 10 false false
                  (PsScalar (Float 0.5)) (Some [64; 32; 16; 8]) 0
                  eq_refl ltac:(lia) ltac:(repeat constructor) (Hw 0))
      as (_ & Hbuilt & Hscalar & _).
    destruct (Hscalar (Float 0.5) eq_refl eq_refl ltac:(discriminate))
      as (b & Hb & Hps).
    exists b. split; [exact Hb|]. split; [exact Hps|].
    apply (Hbuilt b Hb).
  - exact (proj2 (proj2 (proj2 (builder_errors resnet34 10 false false
                           PsNone (Some [64; 32; 16]) 0
                           eq_refl ltac:(lia) ltac:(repeat constructor) (Hw 0))))
             eq_refl ltac:(simpl; lia) ltac:(discriminate)).
Defined.

(** X2 on the stand-in. *)
Lemma head_widths_fit_resnet34 :
  exists b,
    ConvnetBuilder.init resnet34 10 true false (PsList [Int 0; Float 0.5; Float 0.5])
      (Some [256; 64]) 0 = Ok b /\
    head_width 1024 (kind <$> ConvnetBuilder.fc_model b) = Some 10.
Proof.
  eexists. split; [reflexivity|].
  exact (head_widths_fit resnet34 10 true false
           (PsList [Int 0; Float 0.5; Float 0.5]) (Some [256; 64]) 0 _ eq_refl).
Defined.

(** X3 on the stand-in: the one dropout layer of this head has rate 0.5. *)
Lemma head_dropouts_resnet34 :
  exists b,
    ConvnetBuilder.init resnet34 10 true false (PsList [Int 0; Float 0.5])
      None 0 = Ok b /\
    num_truthy (Float 0.5) = true /\ Float 0.5 ∈ ConvnetBuilder.ps b.
Proof.
  eexists. split; [reflexivity|].
  apply (head_dropouts resnet34 10 true false (PsList [Int 0; Float 0.5])
           None 0 _ eq_refl (Dropout (Float 0.5))).
  vm_compute. do 4 right. left.
Defined.

(** X4 on the stand-in: with the default cut the groups are the model cut in
    three; cut five layers earlier, the first batch-norm of the head is in
    the first group too. *)
Lemma layer_groups_cover_resnet34 :
  (exists b,
     ConvnetBuilder.init resnet34 10 false false PsNone None 0 = Ok b /\
     concat (ConvnetBuilder.get_layer_groups b false) = ConvnetBuilder.model b) /\
  (exists b g1 g2,
     ConvnetBuilder.init resnet34 10 false false PsNone None 5 = Ok b /\
     ConvnetBuilder.get_layer_groups b false = [g1; g2; ConvnetBuilder.fc_model b] /\
     @Obj toy_backbones 5 (BatchNorm1d 1024) ∈ g1 /\
     @Obj toy_backbones 5 (BatchNorm1d 1024) ∈ ConvnetBuilder.fc_model b).
Proof.
  split.
  - eexists. split; [reflexivity|].
    apply (proj1 (layer_groups_cover resnet34 10 false false PsNone None 0 _ eq_refl)).
    vm_compute. discriminate.
  - pose proof (layer_groups_cover resnet34 10 false false PsNone None 5 _ eq_refl)
      as [_ Hover].
    destruct (Hover ltac:(vm_compute; reflexivity))
      as (g1 & g2 & m & Hg & Hm & Hg1 & Hfc).
    injection Hm as <-.
    eexists _, g1, g2. split; [reflexivity|]. split; [exact Hg|].
    split; [exact Hg1|exact Hfc].
Defined.

(** X15 on the stand-in: a learner built with [precompute] is left as it is
    by a further [freeze()]. *)
Lemma freeze_after_freeze_precompute :
  exists b,
    ConvnetBuilder.init resnet34 2 false false PsNone None 0 = Ok b /\
    let wf := snd (ConvLearner.init (toy_data false false) b true None ∅ ∅ []) in
    ConvLearner.precompute (ConvLearner.self wf) = true /\
    ConvLearner.freeze wf = (Ok tt, wf).
Proof.
  eexists. split; [reflexivity|]. intros wf. split; [vm_compute; reflexivity|].
  pose proof (freeze_after_freeze resnet34 2 false false PsNone None 0 _ eq_refl)
    as [_ Hbuilt].
  match goal with
  | wf := snd ?i |- _ =>
      assert (Hpair : i = (Ok tt, snd i));
      [transitivity (fst i, snd i);
       [apply surjective_pairing
       |apply (f_equal (fun x => (x, snd i))); vm_compute; reflexivity]|]
  end.
  subst wf. exact (Hbuilt _ _ _ _ _ _ _ Hpair).
Defined.

(** X5 on the stand-in: a first caching run on an empty disk succeeds. *)
Lemma save_fc1_outcome_first_run :
  exists b,
    ConvnetBuilder.init resnet34 2 false false PsNone None 0 = Ok b /\
    let w := snd (ConvLearner.init (toy_data false false) b false None ∅ ∅ []) in
    exists d p pv pt,
      ConvLearner.data (ConvLearner.self w) = Ok d /\
      ConvLearner.activation_names (ConvLearner.self w) d = [p; pv; pt] /\
      ConvLearner.activations (ConvLearner.self (snd (ConvLearner.save_fc1 w)))
        = Some [p; pv; pt].
Proof.
  eexists. split; [reflexivity|]. intros w.
  destruct (proj2 (save_fc1_outcome w) ltac:(vm_compute; reflexivity))
    as (d & p & pv & pt & Hd & Hn & Hact & _).
  exists d, p, pv, pt. split; [exact Hd|]. split; [exact Hn|exact Hact].
Defined.

(** X7 on the stand-in: the arrays a first run leaves. *)
Lemma save_fc1_from_scratch_first_run :
  exists b,
    ConvnetBuilder.init resnet34 2 false false PsNone None 0 = Ok b /\
    let w := snd (ConvLearner.init (toy_data false false) b false None ∅ ∅ []) in
    let w' := snd (ConvLearner.save_fc1 w) in
    ConvLearner.disk w' !! "data/tmp/x_act_resnet34_0_224.bc" = Some toy_cached /\
    ConvLearner.predicted w' =
      ["data/tmp/x_act_resnet34_0_224.bc"; "data/tmp/x_act_val_resnet34_0_224.bc"].
Proof.
  eexists. split; [reflexivity|]. intros w w'.
  destruct (save_fc1_from_scratch w (toy_data false false)
              "data/tmp/x_act_resnet34_0_224.bc"
              "data/tmp/x_act_val_resnet34_0_224.bc"
              "data/tmp/x_act_test_resnet34_0_224.bc"
              ltac:(vm_compute; reflexivity) ltac:(vm_compute; reflexivity)
              ltac:(vm_compute; reflexivity))
    as (_ & Hp & _ & _ & _ & Hlog).
  split; [exact Hp|exact Hlog].
Defined.

(** X8 on the stand-in: a later session, with the first one's arrays on
    disk, forces and caches again. *)
Lemma force_then_save_later_session :
  exists b,
    ConvnetBuilder.init resnet34 2 false false PsNone None 0 = Ok b /\
    let first := snd (ConvLearner.init (toy_data false false) b true None ∅ ∅ []) in
    let later := snd (ConvLearner.init toy_data_other b false None
                        (ConvLearner.disk first) ∅ []) in
    let w1 := snd (ConvLearner.get_activations true later) in
    let w2 := snd (ConvLearner.save_fc1 w1) in
    ConvLearner.disk w2 !! "data/tmp/x_act_resnet34_0_224.bc"
      = Some (@Carray toy_tensors 1024 [30%nat; 31%nat; 32%nat]).
Proof.
  eexists. split; [reflexivity|]. intros first later w1 w2.
  destruct (force_then_save later toy_data_other
              "data/tmp/x_act_resnet34_0_224.bc"
              "data/tmp/x_act_val_resnet34_0_224.bc"
              "data/tmp/x_act_test_resnet34_0_224.bc"
              ltac:(vm_compute; reflexivity) ltac:(vm_compute; reflexivity))
    as (_ & _ & _ & _ & Hp & _).
  exact Hp.
Defined.

(** X14 on the stand-in: forcing empties the validation array of the first
    session. *)
Lemma get_activations_creates_later_session :
  exists b,
    ConvnetBuilder.init resnet34 2 false false PsNone None 0 = Ok b /\
    let first := snd (ConvLearner.init (toy_data false false) b true None ∅ ∅ []) in
    let later := snd (ConvLearner.init toy_data_other b false None
                        (ConvLearner.disk first) ∅ []) in
    let w1 := snd (ConvLearner.get_activations true later) in
    ConvLearner.disk w1 !! "data/tmp/x_act_val_resnet34_0_224.bc"
      = Some (@Carray toy_tensors 1024 []) /\
    ConvLearner.predicted w1 = ConvLearner.predicted later.
Proof.
  eexists. split; [reflexivity|]. intros first later w1.
  destruct (get_activations_creates later toy_data_other
              "data/tmp/x_act_resnet34_0_224.bc"
              "data/tmp/x_act_val_resnet34_0_224.bc"
              "data/tmp/x_act_test_resnet34_0_224.bc" true
              ltac:(vm_compute; reflexivity) ltac:(vm_compute; reflexivity)
              (or_intror eq_refl))
    as (_ & Hnew & _ & _ & Hlog & _).
  split; [|exact Hlog].
  apply Hnew. right. left.
Defined.

(** X9 on the stand-in: built with [precompute], the learner serves the
    head. *)
Lemma init_serves_precompute :
  exists b,
    ConvnetBuilder.init resnet34 2 false false PsNone None 0 = Ok b /\
    let wf := snd (ConvLearner.init (toy_data false false) b true None ∅ ∅ []) in
    ConvLearner.precompute (ConvLearner.self wf) = true /\
    ConvLearner.model (ConvLearner.self wf) = ConvnetBuilder.fc_model b.
Proof.
  eexists. split; [reflexivity|]. intros wf.
  match goal with
  | wf := snd (ConvLearner.init _ ?b _ _ _ _ _) |- _ =>
      pose proof (init_serves (toy_data false false) b true None ∅ ∅ [] wf) as Hs
  end.
  destruct (Hs ltac:(vm_compute; reflexivity))
    as (Hpc & _ & _ & p & pv & pt & _ & _ & Hmodel & _).
  split; [exact Hpc|exact Hmodel].
Defined.

(** X10 on the stand-in: a multi-label dataset. *)
Lemma pretrained_consistent_multi :
  match ConvLearner.pretrained resnet34 (toy_data true false) PsNone None 0
          false None ∅ ∅ [] with
  | inr (r, w) =>
      (ConvLearner.crit (ConvLearner.self w),
       List.last (kind <$> ConvnetBuilder.model
                             (ConvLearner.models (ConvLearner.self w))) Flatten)
        = (Some binary_cross_entropy, Act Sigmoid)
  | inl _ => False
  end.
Proof.
  destruct (ConvLearner.pretrained resnet34 (toy_data true false) PsNone None 0
              false None ∅ ∅ []) as [e|[r w]] eqn:E.
  - vm_compute in E. discriminate E.
  - destruct (pretrained_consistent resnet34 (toy_data true false) PsNone None 0
                false None ∅ ∅ [] r w E) as (_ & _ & Hlast).
    exact Hlast.
Defined.

(** X11 on the stand-in: the primary arrays of the two image sizes. *)
Lemma cache_key_separates_sizes :
  exists b,
    ConvnetBuilder.init resnet34 2 false false PsNone None 0 = Ok b /\
    let s := ConvLearner.base_init (toy_data false false) b None in
    "data/tmp/x_act_resnet34_0_224.bc" <> "data/tmp/x_act_resnet34_0_299.bc".
Proof.
  eexists. split; [reflexivity|]. intros s.
  exact (proj1 cache_key_separates s (toy_data false false) toy_data_299 0%nat
           _ _ ltac:(vm_compute; discriminate) eq_refl eq_refl).
Defined.

(** X12 on the stand-in: the learner of a first session, in precompute
    mode. *)
Lemma freeze_precompute_first_session :
  exists b,
    ConvnetBuilder.init resnet34 2 false false PsNone None 0 = Ok b /\
    let first := snd (ConvLearner.init (toy_data false false) b true None ∅ ∅ []) in
    let w' := snd (ConvLearner.freeze first) in
    ConvLearner.trainable w' !! 3%nat = ConvLearner.trainable first !! 3%nat /\
    ConvLearner.disk w' = ConvLearner.disk first.
Proof.
  eexists. split; [reflexivity|]. intros first w'.
  destruct (freeze_precompute resnet34 2 false false PsNone None 0 _ first
              eq_refl ltac:(vm_compute; reflexivity) ltac:(vm_compute; reflexivity))
    as (_ & Hother & _ & Hdisk & _).
  split; [|exact Hdisk].
  apply Hother. vm_compute. intros Hin.
  repeat (apply elem_of_cons in Hin as [Hin|Hin]; [discriminate Hin|]).
  apply elem_of_nil in Hin. exact Hin.
Defined.

(** X13 on the stand-in: two datasets given to a learner in precompute
    mode. *)
Lemma set_data_precompute_blind_first_session :
  exists b,
    ConvnetBuilder.init resnet34 2 false false PsNone None 0 = Ok b /\
    let first := snd (ConvLearner.init (toy_data false false) b true None ∅ ∅ []) in
    snd (ConvLearner.set_data toy_data_299 first) =
      ConvLearner.with_self (ConvLearner.set_data_ toy_data_299)
        (snd (ConvLearner.set_data toy_data_other first)).
Proof.
  eexists. split; [reflexivity|]. intros first.
  exact (proj2 (set_data_precompute_blind first toy_data_other toy_data_299
                  ltac:(vm_compute; reflexivity))).
Defined.
